(** * mlhub: the commands of the tool

    A shallow embedding of [mlhub/commands.py].  The commands are
    sequential Python procedures over the file system, the terminal, the
    network and child processes.  They are embedded as functions in a
    state-and-failure monad over a [World]: the file system (a finite
    map from path to node), the lines waiting on standard input, the
    [DISPLAY] variable, and the trace of observable actions performed so
    far.  [logging] calls have no effect on any of these and are left
    out.

    [install_model], [dispatch], [remove_mlm] and [remove_model] come
    first, with what they take from outside the file in [Env]; the
    reporting commands and [configure_model] follow, with their own
    helpers in [Helpers].

    The version class [distutils.version.StrictVersion] of the Python
    standard library is embedded in [Module StrictVersion]. *)

From stdpp Require Import gmap strings list sorting pretty.
From Stdlib Require Import ZArith NArith Ascii String Lia.

Open Scope string_scope.

(** ** Strings as Python uses them here *)

Definition newline : ascii := ascii_of_nat 10.

Definition is_upper (c : ascii) : bool :=
  let n := nat_of_ascii c in (65 <=? n)%nat && (n <=? 90)%nat.

Definition lower_ascii (c : ascii) : ascii :=
  if is_upper c then ascii_of_nat (nat_of_ascii c + 32) else c.

(** [str.lower()], on the ASCII letters. *)
Fixpoint lower (s : string) : string :=
  match s with
  | EmptyString => EmptyString
  | String c s' => String (lower_ascii c) (lower s')
  end.

(** [needle in haystack] on two strings: substring test. *)
Fixpoint str_in (needle haystack : string) : bool :=
  String.prefix needle haystack ||
  match haystack with
  | EmptyString => false
  | String _ h => str_in needle h
  end.

(** [s.startswith(p)] and [s.endswith(p)]. *)
Definition startswith (s p : string) : bool := String.prefix p s.

Fixpoint endswith (s p : string) : bool :=
  String.eqb s p ||
  match s with
  | EmptyString => false
  | String _ s' => endswith s' p
  end.

(** ** distutils.version.StrictVersion *)

Module StrictVersion.

(** [\d] under [re.ASCII]. *)
Definition is_digit (c : ascii) : bool :=
  let n := N_of_ascii c in (48 <=? n)%N && (n <=? 57)%N.

Definition digit_value (c : ascii) : N := (N_of_ascii c - 48)%N.

(** The greedy [\d*]: the longest prefix of digits, and what follows. *)
Fixpoint span_digits (s : string) : string * string :=
  match s with
  | String c s' =>
      if is_digit c
      then let '(d, r) := span_digits s' in (String c d, r)
      else (EmptyString, s)
  | EmptyString => (EmptyString, EmptyString)
  end.

Fixpoint int_from (acc : N) (d : string) : N :=
  match d with
  | EmptyString => acc
  | String c d' => int_from (10 * acc + digit_value c)%N d'
  end.

(** [int(d)] for a string of decimal digits. *)
Definition int (d : string) : N := int_from 0%N d.

(** The parsed object: [self.version] and [self.prerelease]. *)
Record t := mk { version : N * N * N; prerelease : option (ascii * N) }.

Definition is_empty (s : string) : bool :=
  match s with EmptyString => true | _ => false end.

(** The optional group [(\. (\d+))?]: the digits of group 4 (empty
    when the group does not take part) and the rest of the input. *)
Definition patch_group (r : string) : string * string :=
  match r with
  | String "."%char r' =>
      let '(p, r'') := span_digits r' in
      if is_empty p then (EmptyString, r) else (p, r'')
  | _ => (EmptyString, r)
  end.

(** The optional group [([ab](\d+))?]. *)
Definition prerelease_group (r : string) : option (ascii * N) * string :=
  match r with
  | String c r' =>
      if Ascii.eqb c "a"%char || Ascii.eqb c "b"%char
      then let '(n, r'') := span_digits r' in
           if is_empty n then (None, r) else (Some (c, int n), r'')
      else (None, r)
  | EmptyString => (None, r)
  end.

(** [$] without [re.MULTILINE]: the end of the string, or just before
    a newline that ends the string. *)
Definition at_end (r : string) : bool :=
  match r with
  | EmptyString => true
  | String c EmptyString => Ascii.eqb c newline
  | _ => false
  end.

(** [StrictVersion.parse]: match
    [^(\d+) \. (\d+) (\. (\d+))? ([ab](\d+))?$] (verbose, ASCII) against
    [vstring]; [None] stands for [ValueError("invalid version number")].
    Every [\d+] is followed in the pattern by a character that is not a
    digit or by the end, so the greedy match is the only one. *)
Definition parse (vstring : string) : option t :=
  let '(major, r1) := span_digits vstring in
  if is_empty major then None else
  match r1 with
  | String "."%char r2 =>
      let '(minor, r3) := span_digits r2 in
      if is_empty minor then None else
      let '(patch, r4) := patch_group r3 in
      let '(pre, r5) := prerelease_group r4 in
      if at_end r5 then
        Some {| version :=
                  if is_empty patch
                  then (int major, int minor, 0%N)
                  else (int major, int minor, int patch);
                prerelease := pre |}
      else None
  | _ => None
  end.

(** [<] on tuples of three integers. *)
Definition tuple_lt (x y : N * N * N) : bool :=
  let '(x1, x2, x3) := x in
  let '(y1, y2, y3) := y in
  if negb (x1 =? y1)%N then (x1 <? y1)%N
  else if negb (x2 =? y2)%N then (x2 <? y2)%N
  else (x3 <? y3)%N.

Definition tuple_eqb (x y : N * N * N) : bool :=
  let '(x1, x2, x3) := x in
  let '(y1, y2, y3) := y in
  (x1 =? y1)%N && (x2 =? y2)%N && (x3 =? y3)%N.

(** [==] and [<] on the pairs (letter, number) of a pre-release tag. *)
Definition pre_eqb (p q : ascii * N) : bool :=
  Ascii.eqb (fst p) (fst q) && (snd p =? snd q)%N.

Definition pre_lt (p q : ascii * N) : bool :=
  if negb (Ascii.eqb (fst p) (fst q))
  then (N_of_ascii (fst p) <? N_of_ascii (fst q))%N
  else (snd p <? snd q)%N.

(** [StrictVersion._cmp]. *)
Definition _cmp (self other : t) : Z :=
  if negb (tuple_eqb (version self) (version other)) then
    if tuple_lt (version self) (version other) then (-1)%Z else 1%Z
  else
    match prerelease self, prerelease other with
    | None, None => 0%Z
    | Some _, None => (-1)%Z
    | None, Some _ => 1%Z
    | Some p, Some q =>
        if pre_eqb p q then 0%Z
        else if pre_lt p q then (-1)%Z
        else 1%Z
    end.

(** [__gt__] and [__eq__] of [distutils.version.Version]. *)
Definition gt (self other : t) : bool := (0 <? _cmp self other)%Z.
Definition eq (self other : t) : bool := (_cmp self other =? 0)%Z.

End StrictVersion.

(** ** Paths and the file system *)

(** [os.path.join(a, b)] of [posixpath]. *)
Definition join (a b : string) : string :=
  if startswith b "/" then b
  else if String.eqb a "" || endswith a "/" then a ++ b
  else a ++ "/" ++ b.

(** A path with its trailing slashes removed: the key under which the
    file system records the node the path names. *)
Fixpoint norm (p : string) : string :=
  match p with
  | EmptyString => EmptyString
  | String c p' =>
      match norm p' with
      | EmptyString => if Ascii.eqb c "/" then EmptyString else String c EmptyString
      | r => String c r
      end
  end.

(** [k] is the node [p] names, or lies below it. *)
Definition under (p k : string) : bool :=
  String.eqb k (norm p) || String.prefix (norm p ++ "/") k.

(** What the commands read from an installed model's descriptor
    (DESCRIPTION.yaml): [meta.version], [meta.languages], the optional
    [meta.display] and the [commands]. *)
Record Description := mkDescription {
  meta_version : string;
  meta_languages : string;
  meta_display : option (list string);
  commands : list string
}.

(** The content of a file: uninterpreted bytes, a descriptor (given by
    what it parses to) or a completion word list. *)
Inductive data :=
| Bytes (s : string)
| Yaml (d : Description)
| Words (ws : list string).

Inductive node :=
| File (d : data)
| Directory.

(** The file system is a [gmap string node]: the files and directories
    that exist, by path. *)

(** ** Exceptions, outcomes and the world *)

Inductive exn :=
| ValueError (msg : string)
| TypeError
| EOFError
| FileNotFoundError (path : string)
| NotADirectoryError (path : string)
| IsADirectoryError (path : string)
| URLError (reason : string)
| ModelURLAccessException (url : string)
| ModelDownloadHaltException (url reason : string)
| ModelNotInstalled (model : string)
| DescriptionNotFound (model : string)
| NoInterpreterForLanguage (script : string)
| External (name : string).

(** What a run of a command observably does, in order. *)
Inductive event :=
| Print (s : string)
| Write (s : string)
| YesOrNo (question : string)
| Rmtree (path : string)
| Remove (path : string)
| Move (src dst : string)
| Head (url : string)
| Urlretrieve (url local : string)
| Extractall (archive dest : string)
| UpdateCompletion (file : string) (words : list string)
| Popen (command cwd : string)
| PrintDownloading (mlmfile : string) (size : Z)
| PrintExtracted (mlmfile path : string) (size : Z)
| PrintNextStep (step : string) (model : option string)
| PrintErrorExit (msg : string).

Record World := mkWorld {
  fs : gmap string node;
  stdin : list string;
  DISPLAY : string;
  getcwd : string;
  trace : list event
}.

(** How a procedure ends: it returns, it calls [sys.exit(code)], it
    raises, or it ends in [utils.print_error_exit]. *)
Inductive outcome (A : Type) :=
| Return (a : A)
| SysExit (code : Z)
| Raise (e : exn)
| ErrorExit (msg : string).
Arguments Return {A} a.
Arguments SysExit {A} code.
Arguments Raise {A} e.
Arguments ErrorExit {A} msg.

Definition M (A : Type) : Type := World -> outcome A * World.

Definition ret {A} (a : A) : M A := fun w => (Return a, w).

Definition bind {A B} (m : M A) (k : A -> M B) : M B :=
  fun w =>
    match m w with
    | (Return a, w') => k a w'
    | (SysExit c, w') => (SysExit c, w')
    | (Raise e, w') => (Raise e, w')
    | (ErrorExit s, w') => (ErrorExit s, w')
    end.

Declare Scope M_scope.
Delimit Scope M_scope with M.
Notation "x ← y ; z" := (bind y (fun x => z))
  (at level 20, y at level 100, z at level 200, only parsing) : M_scope.
Notation "' x ← y ; z" := (bind y (fun x => z))
  (at level 20, x pattern, y at level 100, z at level 200, only parsing)
  : M_scope.
Notation "x ;; z" := (bind x (fun _ => z))
  (at level 100, z at level 200, only parsing, right associativity) : M_scope.
Open Scope M_scope.

Definition raise {A} (e : exn) : M A := fun w => (Raise e, w).
Definition sys_exit {A} (code : Z) : M A := fun w => (SysExit code, w).

Definition emit (e : event) : M unit :=
  fun w => (Return tt,
            {| fs := fs w; stdin := stdin w; DISPLAY := DISPLAY w;
               getcwd := getcwd w; trace := trace w ++ [e] |}).

Definition get_fs : M (gmap string node) := fun w => (Return (fs w), w).

Definition put_fs (f : gmap string node) : M unit :=
  fun w => (Return tt,
            {| fs := f; stdin := stdin w; DISPLAY := DISPLAY w;
               getcwd := getcwd w; trace := trace w |}).

Definition when (b : bool) (m : M unit) : M unit := if b then m else ret tt.

(** [print(s)] and [sys.stdout.write(s)]. *)
Definition print (s : string) : M unit := emit (Print s).
Definition stdout_write (s : string) : M unit := emit (Write s).

(** [input()]: the next line of standard input, [EOFError] when there is
    none. *)
Definition input : M string :=
  fun w =>
    match stdin w with
    | [] => (Raise EOFError, w)
    | line :: rest =>
        (Return line,
         {| fs := fs w; stdin := rest; DISPLAY := DISPLAY w;
            getcwd := getcwd w; trace := trace w |})
    end.

(** [os.path.exists(p)]. *)
Definition path_exists (f : gmap string node) (p : string) : bool :=
  negb (String.eqb p "") && bool_decide (is_Some (f !! norm p)).

Definition exists_ (p : string) : M bool :=
  f ← get_fs; ret (path_exists f p).

(** [shutil.rmtree(p)]: the directory and everything below it go. *)
Definition rmtree (p : string) : M unit :=
  emit (Rmtree p) ;;
  f ← get_fs;
  match f !! norm p with
  | Some Directory => put_fs (filter (fun kv => negb (under p kv.1)) f)
  | Some (File _) => raise (NotADirectoryError p)
  | None => raise (FileNotFoundError p)
  end.

(** [os.remove(p)]. *)
Definition os_remove (p : string) : M unit :=
  emit (Remove p) ;;
  f ← get_fs;
  match f !! norm p with
  | Some (File _) => put_fs (delete (norm p) f)
  | Some Directory => raise (IsADirectoryError p)
  | None => raise (FileNotFoundError p)
  end.

Fixpoint drop_chars (n : nat) (s : string) : string :=
  match n, s with
  | S n', String _ s' => drop_chars n' s'
  | _, _ => s
  end.

(** The path [k] after the tree at [src] has been renamed to [dst]. *)
Definition rekey (src dst k : string) : string :=
  if under src k
  then norm dst ++ drop_chars (String.length (norm src)) k
  else k.

(** [shutil.move(src, dst)] when nothing exists at [dst]: a rename. *)
Definition move (src dst : string) : M unit :=
  emit (Move src dst) ;;
  f ← get_fs;
  match f !! norm src with
  | Some _ => put_fs (kmap (M2 := gmap string) (rekey src dst) f)
  | None => raise (FileNotFoundError src)
  end.

(** A file is written at [p] with [open(p, 'w')]: whatever file was
    there is replaced; a directory there is an error. *)
Definition write_file (p : string) (d : data) : M unit :=
  f ← get_fs;
  match f !! norm p with
  | Some Directory => raise (IsADirectoryError p)
  | _ => put_fs (<[norm p := File d]> f)
  end.

(** ** What the commands take from outside this file *)

(** The answer to [requests.head(url)]: the call itself fails, or a
    response with its [status_code] and its content-length header. *)
Inductive head_result :=
| HeadError (name : string)
| Response (status_code : Z) (content_length : option Z).

(** What [urllib.request.urlretrieve(url, local)] does: it fetches the
    body, or raises [urllib.error.HTTPError] or its parent class
    [urllib.error.URLError], each with a [reason]. *)
Inductive retrieve_result :=
| Retrieved (body : data)
| HTTPError (reason : string)
| URLFailure (reason : string).

(** The constants of [mlhub.constants], the pure helpers of
    [mlhub.utils], and the answers of the network, of [zipfile] and of
    child processes. *)
Record Env := mkEnv {
  MLINIT : string;
  DESC_YAML : string;
  DESC_YML : string;
  CMD : string;
  COMPLETION_MODELS : string;
  COMPLETION_COMMANDS : string;
  ends_with_mlm : string -> bool;
  is_url : string -> bool;
  interpret_mlm_name : string -> string * string * string;
  get_model_url : string -> string -> string + (string * list string);
  answers_yes : string -> bool;
  interpreter : string -> option string;
  dir_size : gmap string node -> string -> Z;
  requests_head : string -> head_result;
  urlretrieve : string -> retrieve_result;
  zip_extractall :
    data -> string -> gmap string node -> gmap string node * option string;
  subprocess :
    string -> string -> gmap string node -> Z * string * gmap string node
}.

Definition nl : string := String newline EmptyString.

(** [requests.codes.ok]. *)
Definition codes_ok : Z := 200.

(** The three orderings the installer tells apart. *)
Definition GREATER := Gt.
Definition EQUAL := Eq.
Definition LESS := Lt.

(** [StrictVersion(vstring)]: the parsed version, or [ValueError]. *)
Definition new_StrictVersion (vstring : string) : exn + StrictVersion.t :=
  match StrictVersion.parse vstring with
  | Some v => inr v
  | None => inl (ValueError ("invalid version number '" ++ vstring ++ "'"))
  end.

(** The comparison of lines 220-228 of [install_model]:
    [StrictVersion(installed_version) > StrictVersion(version)], then
    [==], else the remaining case. *)
Definition compare (installed_version version : string) : exn + comparison :=
  match new_StrictVersion installed_version with
  | inl e => inl e
  | inr a =>
      match new_StrictVersion version with
      | inl e => inl e
      | inr b =>
          if StrictVersion.gt a b then inr GREATER
          else
            match new_StrictVersion installed_version with
            | inl e => inl e
            | inr a' =>
                match new_StrictVersion version with
                | inl e => inl e
                | inr b' =>
                    if StrictVersion.eq a' b' then inr EQUAL else inr LESS
                end
            end
      end
  end.

(** The three questions of [install_model]. *)
Definition downgrade_question (model installed_version version : string) :=
  "Downgrade '" ++ model ++ "' version '" ++ installed_version
    ++ "' to version '" ++ version ++ "'?".

Definition replace_question (model installed_version version : string) :=
  "Replace '" ++ model ++ "' version '" ++ installed_version
    ++ "' with version '" ++ version ++ "'?".

Definition upgrade_question (model installed_version version : string) :=
  "Upgrade '" ++ model ++ "' version '" ++ installed_version
    ++ "' to version '" ++ version ++ "'?".

Definition question_of (c : comparison) : string -> string -> string -> string :=
  match c with
  | Gt => downgrade_question
  | Eq => replace_question
  | Lt => upgrade_question
  end.

(** The fixed mapping of [dispatch], lines 538-542:
    [lang_opts = {"python": "py", "R": "R"}], tried in this order with
    the test [lang in k]; a declaration that is in neither key is left
    as it is. *)
Definition lang_opts : list (string * string) := [("python", "py"); ("R", "R")].

Fixpoint lang_loop (opts : list (string * string)) (lang : string) : string :=
  match opts with
  | [] => lang
  | (k, ext) :: rest => if str_in lang k then ext else lang_loop rest lang
  end.

Definition command_not_found_msg (cmd CMD model : string) : string :=
  "The command '" ++ cmd ++ "' was not found for this model." ++ nl ++ nl
    ++ "Try using 'commands' to list all supported commands:" ++ nl ++ nl
    ++ "  $ " ++ CMD ++ " commands " ++ model ++ nl.

Definition display_question (cmd : string) : string :=
  "Graphic display is required but not available for command '" ++ cmd
    ++ "'. Continue [y/N]? ".

Definition display_help : string :=
  nl ++ "To enable DISPLAY be sure to connect to the server using 'ssh -X'"
    ++ nl
    ++ "or else connect to the server's desktop using a local X server like X2Go."
    ++ nl ++ nl.

Record install_args := mkInstallArgs {
  install_model_arg : string;
  install_mlhub : string;
  install_quiet : bool
}.

Record dispatch_args := mkDispatchArgs {
  dispatch_cmd : string;
  dispatch_model : string;
  dispatch_param : list string;
  dispatch_quiet : bool
}.

Record remove_args := mkRemoveArgs {
  remove_model_arg : option string;
  remove_quiet : bool
}.

(** ** The commands *)

Section Commands.

Context (E : Env).

(** Modelled from the spec: [utils.create_init] is not in
    [commands.py].  The installer works in the package root, "the
    directory under which all installed models reside", and
    [install_model] calls it to make sure that directory exists: it
    creates the directory when it is missing and returns its path. *)
Definition create_init : M string :=
  f ← get_fs;
  (if path_exists f (MLINIT E) then ret tt
   else put_fs (<[norm (MLINIT E) := Directory]> f)) ;;
  ret (MLINIT E).

(** Modelled from the spec: [utils.load_description] is not in
    [commands.py].  It reads the "installed-package metadata file: a
    structured document at a canonical path inside each installation
    directory"; the run fails when there is no such document. *)
Definition load_description (model : string) : M Description :=
  f ← get_fs;
  match f !! norm (join (join (MLINIT E) model) (DESC_YAML E)) with
  | Some (File (Yaml d)) => ret d
  | _ => raise (DescriptionNotFound model)
  end.

(** Modelled from the spec: [utils.check_model_installed] is not in
    [commands.py].  "Verify the model is installed; fail with
    ModelNotInstalled otherwise", an installed model being "a
    directory under the package root named by modelName". *)
Definition check_model_installed (model : string) : M unit :=
  f ← get_fs;
  if path_exists f (MLINIT E ++ model) then ret tt
  else raise (ModelNotInstalled model).

(** Modelled from the spec: [utils.update_completion_list] is not in
    [commands.py].  The presentation layer "maintains shell-completion
    word lists": the word list kept in the given file gains the given
    words. *)
Definition update_completion_list (file : string) (words : list string)
  : M unit :=
  emit (UpdateCompletion file words) ;;
  f ← get_fs;
  let old := match f !! norm file with
             | Some (File (Words ws)) => ws
             | _ => []
             end in
  write_file file (Words (list_union old words)).

(** Modelled from the spec: [utils.yes_or_no] is not in [commands.py].
    An "interactive confirmation prompt (blocking on input)": the
    question is put to the user, one line is read, and the helper
    decides whether that line confirms. *)
Definition yes_or_no (question : string) : M bool :=
  emit (YesOrNo question) ;;
  line ← input;
  ret (answers_yes E line).

(** Modelled from the spec: [utils.print_next_step] is not in
    [commands.py]; it prints a contextual "next step" hint. *)
Definition print_next_step (step : string) (model : option string) : M unit :=
  emit (PrintNextStep step model).

(** Modelled from the spec: [utils.print_error_exit] is not in
    [commands.py]; it prints the formatted message to the error stream
    and ends the process. *)
Definition print_error_exit {A} (msg : string) : M A :=
  fun w => (ErrorExit msg, w).

(** *** install_model *)

(** Lines 176-211: what is to be installed.  The result is [url]
    ([None] for a local file), [local], [mlmfile], [model] and
    [version]. *)
Definition resolve (args : install_args) (init : string)
  : M (option string * string * string * string * string) :=
  if ends_with_mlm E (install_model_arg args)
     && negb (is_url E (install_model_arg args))
  then
    let local := install_model_arg args in
    let '(mlmfile, model, version) := interpret_mlm_name E local in
    ret (None, local, mlmfile, model, version)
  else
    url ← (if is_url E (install_model_arg args)
           then ret (install_model_arg args)
           else
             match get_model_url E (install_model_arg args)
                     (install_mlhub args) with
             | inl e => raise (External e)
             | inr (url, meta) =>
                 update_completion_list (COMPLETION_MODELS E) meta ;;
                 ret url
             end);
    let '(mlmfile, model, version) := interpret_mlm_name E url in
    let local := join init mlmfile in
    ret (Some url, local, mlmfile, model, version).

(** Lines 216-236: an installation that is already there. *)
Definition check_installed (model version path : string) : M unit :=
  ex ← exists_ path;
  if ex then
    info ← load_description model;
    let installed_version := meta_version info in
    yes ← match compare installed_version version with
          | inl e => raise e
          | inr c => yes_or_no (question_of c model installed_version version)
          end;
    (if negb yes then sys_exit 1 else print "") ;;
    rmtree path
  else ret tt.

(** Lines 240-260: the download, when the archive is not a local
    file. *)
Definition download (quiet : bool) (url local mlmfile : string) : M unit :=
  when (negb quiet) (print ("Package " ++ url ++ nl)) ;;
  emit (Head url) ;;
  match requests_head E url with
  | HeadError e => raise (External e)
  | Response status_code content_length =>
      if negb (status_code =? codes_ok)%Z
      then raise (ModelURLAccessException url)
      else
        match content_length with
        | None => raise TypeError
        | Some dsize =>
            when (negb quiet) (emit (PrintDownloading mlmfile dsize)) ;;
            emit (Urlretrieve url local) ;;
            match urlretrieve E url with
            | Retrieved body => write_file local body
            | HTTPError reason =>
                raise (ModelDownloadHaltException url (lower reason))
            | URLFailure reason => raise (URLError reason)
            end
        end
  end.

(** Lines 262-285: extraction, the descriptor's name, the completion
    list and the closing messages. *)
Definition extract (quiet : bool) (local mlmfile model path : string)
  : M unit :=
  emit (Extractall local (MLINIT E)) ;;
  f ← get_fs;
  match f !! norm local with
  | Some (File d) =>
      let '(f', err) := zip_extractall E d (MLINIT E) f in
      put_fs f' ;;
      match err with
      | Some e => raise (External e)
      | None => ret tt
      end
  | Some Directory => raise (IsADirectoryError local)
  | None => raise (FileNotFoundError local)
  end ;;
  let desc_yml := join path (DESC_YML E) in
  let desc_yaml := join path (DESC_YAML E) in
  has_yaml ← exists_ desc_yaml;
  has_yml ← exists_ desc_yml;
  when (negb has_yaml && has_yml) (move desc_yml desc_yaml) ;;
  info ← load_description model;
  update_completion_list (COMPLETION_COMMANDS E) (commands info) ;;
  when (negb quiet)
    (f ← get_fs;
     emit (PrintExtracted mlmfile path (dir_size E f path)) ;;
     print_next_step "install" (Some model)).

Definition install_model (args : install_args) : M unit :=
  init ← create_init;
  '(url, local, mlmfile, model, version) ← resolve args init;
  let path := join init model in
  check_installed model version path ;;
  match url with
  | Some url => download (install_quiet args) url local mlmfile
  | None => ret tt
  end ;;
  extract (install_quiet args) local mlmfile model path.

(** *** dispatch *)

(** [os.environ.get('DISPLAY', '')]. *)
Definition environ_DISPLAY : M string := fun w => (Return (DISPLAY w), w).

(** [os.getcwd()]. *)
Definition os_getcwd : M string := fun w => (Return (getcwd w), w).

(** Lines 518-530: a command that needs a graphic display, when there
    is none. *)
Definition display_gate (cmd : string) (desc : Description) : M unit :=
  display ← environ_DISPLAY;
  match meta_display desc with
  | Some cmds =>
      if bool_decide (cmd ∈ cmds) && String.eqb display ""
      then
        stdout_write (display_question cmd) ;;
        choice ← input;
        if negb (String.eqb (lower choice) "y")
        then stdout_write display_help ;; sys_exit 1
        else ret tt
      else ret tt
  | None => ret tt
  end.

Definition dispatch (args : dispatch_args) : M unit :=
  let cmd := dispatch_cmd args in
  let model := dispatch_model args in
  let path := MLINIT E ++ model in
  let param := String.concat " " (dispatch_param args) in
  check_model_installed model ;;
  desc ← load_description model;
  display_gate cmd desc ;;
  let lang := meta_languages desc in
  let lang := lang_loop lang_opts lang in
  let script := cmd ++ "." ++ lang in
  script_exists ← exists_ (join path script);
  (if negb (bool_decide (cmd ∈ commands desc)) || negb script_exists
   then print_error_exit (command_not_found_msg cmd (CMD E) model)
   else ret tt) ;;
  interp ← match interpreter E script with
           | Some i => ret i
           | None => raise (NoInterpreterForLanguage script)
           end;
  cwd ← os_getcwd;
  let command :=
    "export CMD_CWD='" ++ cwd ++ "'; " ++ interp ++ " " ++ script ++ " "
      ++ param in
  emit (Popen command path) ;;
  f ← get_fs;
  let '(returncode, errors, f') := subprocess E command path f in
  put_fs f' ;;
  if negb (returncode =? 0)%Z then
    print ("An error was encountered:" ++ nl) ;;
    print errors
  else
    when (negb (dispatch_quiet args))
      (print_next_step cmd (Some model)).

(** *** remove_mlm and remove_model *)

(** [glob.glob(os.path.join(MLINIT, "*.mlm"))], sorted: the entries of
    the package root whose name ends in [.mlm] and does not start with
    a dot. *)
Definition is_mlm_entry (k : string) : bool :=
  let dir := norm (MLINIT E) ++ "/" in
  String.prefix dir k &&
  (let name := drop_chars (String.length dir) k in
   negb (str_in "/" name) && endswith name ".mlm"
   && negb (startswith name ".")).

Definition glob_mlm (f : gmap string node) : list string :=
  match f !! norm (MLINIT E) with
  | Some Directory =>
      merge_sort String.le
        (List.filter is_mlm_entry (fst <$> map_to_list f))
  | _ => []
  end.

Definition remove_mlm_prompt (m : string) : string :=
  "Remove model package archive '" ++ m ++ "' [Y/n]? ".

Fixpoint remove_mlm_loop (mlm : list string) : M unit :=
  match mlm with
  | [] => ret tt
  | m :: rest =>
      stdout_write (remove_mlm_prompt m) ;;
      choice ← input;
      let choice := lower choice in
      when (String.eqb choice "y" || String.eqb choice "") (os_remove m) ;;
      remove_mlm_loop rest
  end.

Definition remove_mlm : M unit :=
  f ← get_fs;
  remove_mlm_loop (glob_mlm f).

Definition remove_all_prompt (path : string) : string :=
  "*Completely* remove all installed models in '" ++ path ++ "' [y/N]? ".

Definition remove_one_prompt (path : string) : string :=
  "Remove '" ++ path ++ "' [y/N]? ".

Definition nothing_to_do (path : string) : string :=
  "The local model folder '" ++ path ++ "' does not exist. Nothing to do.".

Definition remove_model (args : remove_args) : M unit :=
  let model := remove_model_arg args in
  '(path, msg) ←
    match model with
    | None =>
        f ← get_fs;
        if path_exists f (MLINIT E)
        then ret (MLINIT E, remove_all_prompt (MLINIT E))
        else print (nothing_to_do (MLINIT E)) ;; sys_exit 1
    | Some model =>
        let path := MLINIT E ++ model in
        check_model_installed model ;;
        ret (path, remove_one_prompt path)
    end;
  stdout_write msg ;;
  choice ← input;
  let choice := lower choice in
  if String.eqb choice "y" then rmtree path
  else
    when (match model with None => true | Some _ => false end
          && negb (remove_quiet args))
      (print_next_step "remove" None).

End Commands.

(** ** A concrete environment

    One instance of what lies outside [commands.py], to run the commands
    on: a package root with the model [rain], a repository that lists
    it, and a network and a child process whose answers are given.  The
    interpreter table knows Python, R and shell scripts (the configure
    step of the tool runs configure.sh, configure.R and configure.py). *)

Module Demo.

Definition root : string := "/home/user/.mlhub/".

(** The last occurrence of [c] splits [s]. *)
Fixpoint rsplit (c : ascii) (s : string) : option (string * string) :=
  match s with
  | EmptyString => None
  | String x s' =>
      match rsplit c s' with
      | Some (h, t) => Some (String x h, t)
      | None => if Ascii.eqb x c then Some (EmptyString, s') else None
      end
  end.

Definition basename (p : string) : string :=
  match rsplit "/" p with
  | Some (_, name) => name
  | None => p
  end.

Definition strip_mlm (name : string) : string :=
  if endswith name ".mlm"
  then String.substring 0 (String.length name - 4) name
  else name.

(** [rain_1.0.0.mlm] names the model [rain] at version [1.0.0]; a name
    without the [_] has the empty version. *)
Definition interpret (p : string) : string * string * string :=
  let mlmfile := basename p in
  match rsplit "_" (strip_mlm mlmfile) with
  | Some (model, version) => (mlmfile, model, version)
  | None => (mlmfile, strip_mlm mlmfile, "")
  end.

Definition rain_url : string := "https://host/rain_1.0.0.mlm".

(** The descriptor of [rain]: its scripts are in R, the commands
    [display] and [plot] need a graphic display, and [plot] is not
    among the declared commands. *)
Definition description (version : string) : Description :=
  {| meta_version := version;
     meta_languages := "R";
     meta_display := Some ["display"; "plot"];
     commands := ["demo"; "display"] |}.

(** The descriptor of [tools], a model whose scripts are shell
    scripts. *)
Definition tools_description : Description :=
  {| meta_version := "0.1.0";
     meta_languages := "sh";
     meta_display := None;
     commands := ["demo"] |}.

(** What an archive of [rain] unpacks to. *)
Definition unpack (d : data) (dest : string) (f : gmap string node)
  : gmap string node * option string :=
  match d with
  | Bytes version =>
      (<[norm (join dest "rain") := Directory]>
         (<[join (join dest "rain") "DESCRIPTION.yaml" :=
              File (Yaml (description version))]>
            (<[join (join dest "rain") "demo.R" := File (Bytes "demo")]> f)),
       None)
  | _ => (f, Some "BadZipFile")
  end.

Definition env (head : head_result) (body : retrieve_result)
    (child : Z * string) : Env :=
  {| MLINIT := root;
     DESC_YAML := "DESCRIPTION.yaml";
     DESC_YML := "DESCRIPTION.yml";
     CMD := "ml";
     COMPLETION_MODELS := "/home/user/.mlhub/.completion_models";
     COMPLETION_COMMANDS := "/home/user/.mlhub/.completion_commands";
     ends_with_mlm := fun s => endswith s ".mlm";
     is_url := fun s => startswith s "http://" || startswith s "https://";
     interpret_mlm_name := interpret;
     get_model_url := fun model _ =>
       if String.eqb model "rain" then inr (rain_url, ["rain"])
       else inl "ModelNotFoundInRepository";
     answers_yes := fun line => String.eqb (lower line) "y";
     interpreter := fun script =>
       if endswith script ".py" then Some "python3"
       else if endswith script ".R" then Some "Rscript"
       else if endswith script ".sh" then Some "bash"
       else None;
     dir_size := fun _ _ => 0%Z;
     requests_head := fun _ => head;
     urlretrieve := fun _ => body;
     zip_extractall := unpack;
     subprocess := fun _ _ f => (child, f) |}.

(** A quiet network, for the runs that do not use it. *)
Definition offline : Env :=
  env (HeadError "ConnectionError") (URLFailure "unreachable") (0%Z, "").

(** The package root with [rain] installed at the given version, with
    [tools], and with an archive [rain_1.0.0.mlm] downloaded earlier;
    outside it, an archive of version 1.1.0. *)
Definition installed (version : string) : gmap string node :=
  list_to_map
    [("/home/user/.mlhub", Directory);
     ("/home/user/.mlhub/rain", Directory);
     ("/home/user/.mlhub/rain/DESCRIPTION.yaml",
      File (Yaml (description version)));
     ("/home/user/.mlhub/rain/demo.R", File (Bytes "demo"));
     ("/home/user/.mlhub/rain/display.R", File (Bytes "display"));
     ("/home/user/.mlhub/rain/hidden.R", File (Bytes "hidden"));
     ("/home/user/.mlhub/tools", Directory);
     ("/home/user/.mlhub/tools/DESCRIPTION.yaml",
      File (Yaml tools_description));
     ("/home/user/.mlhub/tools/demo.sh", File (Bytes "demo"));
     ("/home/user/.mlhub/rain_1.0.0.mlm", File (Bytes "1.0.0"));
     ("/tmp/rain_1.1.0.mlm", File (Bytes "1.1.0"))].

Definition world (f : gmap string node) (lines : list string)
    (display : string) : World :=
  {| fs := f; stdin := lines; DISPLAY := display;
     getcwd := "/home/user"; trace := [] |}.

End Demo.

(** ** The reporting commands and configure_model

    [list_available], [list_installed], [download_model], [readme],
    [license], [list_model_commands] and [donate] report on the
    repository and on the installed models; [configure_model] runs the
    configuration scripts of a model, or sets up tab completion. *)

(** What these commands take from outside [commands.py], besides what
    is in [Env]: three more constants of [mlhub.constants], the
    repository index, the text helpers of [mlhub.utils] and [textwrap],
    the version string of [platform.uname()], the directory of the
    package ([os.path.dirname(__file__)]), and [utils.configure], which
    runs one configuration script of a model and tells whether there was
    one.  The index is fetched from the network: the answer is the list
    of its entries, or the name of the failure.  A repository entry is
    given by the two things the commands use of it: its name and the
    line [utils.print_meta_line] prints for it.  The descriptor of an
    installed model is known to the commands
    as a [Description]; its title, its dependencies, and the line and
    the help [mlhub.utils] print for it are taken from here. *)
Record Helpers := mkHelpers {
  README : string;
  APPX : string;
  drop_newline : string -> string;
  dropdot : string -> string;
  lower_first_letter : string -> string;
  fill : string -> nat -> string;
  get_repo : string -> string;
  get_repo_meta_data : string -> string + list (string * string);
  meta_title : Description -> option string;
  meta_line : Description -> string;
  cmd_help : Description -> string -> string;
  next_step_hint : string -> string -> string;
  yaml_text : Description -> string;
  words_text : list string -> string;
  COMPLETION_SCRIPT : string;
  uname_version : string;
  package_dir : string;
  meta_dependencies : Description -> option string;
  configure : string -> string -> bool -> M bool
}.

Record list_args := mkListArgs {
  list_mlhub : string;
  list_name_only : bool;
  list_quiet : bool
}.

Record model_args := mkModelArgs {
  model_arg : string;
  model_name_only : bool;
  model_quiet : bool
}.

Record configure_args := mkConfigureArgs {
  configure_model_arg : option string;
  configure_quiet : bool
}.

(** [try: body except: handler], the handler catching everything. *)
Definition except_all {A} (body handler : M A) : M A :=
  fun w =>
    match body w with
    | (Return a, w') => (Return a, w')
    | (_, w') => handler w'
    end.

(** [try: body except FileNotFoundError: handler]. *)
Definition except_FileNotFoundError {A} (body handler : M A) : M A :=
  fun w =>
    match body w with
    | (Raise (FileNotFoundError _), w') => handler w'
    | r => r
    end.

(** The directories on the way to [p]: the prefixes of the path that
    end before a slash. *)
Fixpoint ancestors_from (pre s : string) : list string :=
  match s with
  | EmptyString => []
  | String c s' =>
      (if Ascii.eqb c "/" then [pre] else [])
        ++ ancestors_from (pre ++ String c EmptyString) s'
  end.

Definition ancestors (p : string) : list string := ancestors_from "" (norm p).

Definition is_file (f : gmap string node) (p : string) : bool :=
  match f !! norm p with
  | Some (File _) => true
  | _ => false
  end.

(** The entries of the directory [p]: the names of the nodes directly
    in it, in no particular order. *)
Definition is_entry (p k : string) : bool :=
  let dir := norm p ++ "/" in
  String.prefix dir k &&
  (let name := drop_chars (String.length dir) k in
   negb (String.eqb name "") && negb (str_in "/" name)).

Definition entries (f : gmap string node) (p : string) : list string :=
  drop_chars (String.length (norm p ++ "/"))
    <$> List.filter (is_entry p) (fst <$> map_to_list f).

(** [os.listdir(p)]. *)
Definition os_listdir (p : string) : M (list string) :=
  f ← get_fs;
  match f !! norm p with
  | Some Directory => ret (entries f p)
  | Some (File _) => raise (NotADirectoryError p)
  | None => raise (FileNotFoundError p)
  end.

(** [os.path.isdir(p)]. *)
Definition isdir (f : gmap string node) (p : string) : bool :=
  negb (String.eqb p "") &&
  match f !! norm p with
  | Some Directory => true
  | _ => false
  end.

Section Reports.

Context (E : Env) (L : Helpers).

(** The text [f.read()] gives for a file. *)
Definition text_of (d : data) : string :=
  match d with
  | Bytes s => s
  | Yaml y => yaml_text L y
  | Words ws => words_text L ws
  end.

(** [open(p, 'r')] and [f.read()]. *)
Definition read_file (p : string) : M string :=
  f ← get_fs;
  if existsb (is_file f) (ancestors p) then raise (NotADirectoryError p)
  else
    match f !! norm p with
    | Some (File d) =>
        if endswith p "/" then raise (NotADirectoryError p)
        else ret (text_of d)
    | Some Directory => raise (IsADirectoryError p)
    | None => raise (FileNotFoundError p)
    end.

(** Modelled from the spec: [utils.print_meta_line] is not in
    [commands.py].  It belongs to the presentation layer that "formats
    listing output": one line is printed for the entry. *)
Definition print_meta_line (line : string) : M unit := print line.

(** Modelled from the spec: [utils.print_next_step] with a [scenario]
    prints the "next step" hint of the step for that scenario. *)
Definition print_next_step_scenario (step scenario : string) : M unit :=
  print (next_step_hint L step scenario).

(** Modelled from the spec: [utils.print_model_cmd_help] is not in
    [commands.py]; it prints the help of one command of the model. *)
Definition print_model_cmd_help (info : Description) (cmd : string) : M unit :=
  print (cmd_help L info cmd).

(** *** list_available *)



Fixpoint for_each {A} (l : list A) (body : A -> M unit) : M unit :=
  match l with
  | [] => ret tt
  | x :: rest => body x ;; for_each rest body
  end.


(** *** list_installed *)

(** Lines 115-123: the installed models, sorted, and the end of the
    sentence that reports them. *)
Definition find_installed : M (string * list string) :=
  ex ← exists_ (MLINIT E);
  '(msg, models) ←
    (if ex then
       names ← os_listdir (MLINIT E);
       f ← get_fs;
       ret (" in '" ++ MLINIT E ++ "'.",
            List.filter
              (fun name =>
                 isdir f (join (MLINIT E) name)
                 && negb (String.eqb name "R")
                 && negb (startswith name "."))
              names)
     else ret (". '" ++ MLINIT E ++ "' does not exist.", []));
  ret (msg, merge_sort String.le models).

Definition found_msg (mcnt : nat) (msg : string) : string :=
  let plural := if Nat.eqb mcnt 1 then "" else "s" in
  "Found " ++ pretty mcnt ++ " model" ++ plural ++ " installed" ++ msg.

Definition list_installed (args : list_args) : M unit :=
  '(msg, models) ← find_installed;
  if list_name_only args then
    print (String.concat nl models)
  else
    let mcnt := List.length models in
    print (found_msg mcnt msg) ;;
    when (0 <? mcnt)%nat (print "") ;;
    for_each models (fun p =>
      entry ← load_description E p;
      print_meta_line (meta_line L entry) ;;
      update_completion_list (COMPLETION_COMMANDS E) (commands entry)) ;;
    when (negb (list_quiet args))
      (if (0 <? mcnt)%nat
       then print_next_step_scenario "installed" "exist"
       else print_next_step_scenario "installed" "none").

(** *** download_model *)

Definition download_model (args : model_args) : M unit :=
  let model := model_arg args in
  check_model_installed E model ;;
  when (negb (model_quiet args)) (print_next_step "download" (Some model)).

(** *** readme *)

Definition no_readme_msg (model readme_file : string) : string :=
  APPX L ++ "The '" ++ model ++ "' model does not have a '" ++ README L
    ++ "' file." ++ nl ++ "  " ++ readme_file ++ nl.

Definition readme (args : model_args) : M unit :=
  let model := model_arg args in
  let path := MLINIT E ++ model in
  let readme_file := join path (README L) in
  check_model_installed E model ;;
  except_FileNotFoundError
    (text ← read_file readme_file;
     print (drop_newline L text))
    (stdout_write (no_readme_msg model readme_file) ;;
     sys_exit 1) ;;
  when (negb (model_quiet args)) (print_next_step "readme" (Some model)).

(** *** license and donate *)

Definition license : M unit :=
  print "Please assist by implementing this command.".

Definition donate : M unit :=
  print "Please assist by implementing this command: support donations to the author.".

(** *** list_model_commands *)

Definition supports_msg (model : string) (info : Description) : string :=
  let msg := "The '" ++ model ++ "' model " in
  let msg :=
    match meta_title L info with
    | None => msg
    | Some title =>
        msg ++ "(" ++ lower_first_letter L (dropdot L title) ++ ") "
    end in
  let msg := msg ++ "supports the following commands:" in
  fill L msg 75.

Definition list_model_commands (args : model_args) : M unit :=
  let model := model_arg args in
  check_model_installed E model ;;
  info ← load_description E model;
  if model_name_only args then
    print (String.concat nl (commands info))
  else
    print (supports_msg model info) ;;
    for_each (commands info) (fun cmd => print_model_cmd_help info cmd) ;;
    update_completion_list (COMPLETION_COMMANDS E) (commands info) ;;
    when (negb (model_quiet args)) (print_next_step "commands" (Some model)).

(** *** configure_model *)

(** [subprocess.run(cmd, shell=True, cwd=cwd, stderr=subprocess.PIPE)],
    whose result is not looked at. *)
Definition subprocess_run (cmd cwd : string) : M unit :=
  emit (Popen cmd cwd) ;;
  f ← get_fs;
  let '(_, _, f') := subprocess E cmd cwd f in
  put_fs f'.

Definition completion_commands : list string :=
  ["sudo install -m 0644 " ++ COMPLETION_SCRIPT L ++ " /etc/bash_completion.d";
   "ml available > /dev/null";
   "ml installed > /dev/null"].

Definition tab_completion_msg : string :=
  nl ++ "For tab completion to take immediate effect: " ++ nl ++ nl
    ++ "  $ source /etc/bash_completion.d/ml.bash" ++ nl.

Definition no_script_msg : string :=
  "No configuration script provided for this model. "
    ++ "The following dependencies are required:" ++ nl.

Definition escape : string := String (ascii_of_nat 27) EmptyString.

Definition dependencies_line (deps : string) : string :=
  "  ====> " ++ escape ++ "[31m" ++ deps ++ escape ++ "[0m".

Definition no_configuration_msg : string :=
  "No configuration provided (maybe none is required).".

(** [not args.model]: no model, or the empty name. *)
Definition no_model (model : option string) : bool :=
  match model with
  | None => true
  | Some m => String.eqb m ""
  end.

Definition configure_model (args : configure_args) : M unit :=
  if no_model (configure_model_arg args) then
    let sys_version := lower (uname_version L) in
    when (str_in "debian" sys_version || str_in "ubuntu" sys_version)
      (let path := package_dir L in
       for_each completion_commands (fun cmd =>
         print ("Executing:  " ++ cmd) ;;
         subprocess_run cmd path) ;;
       print tab_completion_msg)
  else
    let model := default "" (configure_model_arg args) in
    let path := MLINIT E ++ model in
    check_model_installed E model ;;
    conf ← configure L path "configure.sh" (configure_quiet args);
    conf ← (c ← configure L path "configure.R" (configure_quiet args);
            ret (c || conf));
    conf ← (c ← configure L path "configure.py" (configure_quiet args);
            ret (c || conf));
    when (negb conf)
      (except_all
         (info ← load_description E model;
          deps ← match meta_dependencies L info with
                 | Some deps => ret deps
                 | None => raise (External "KeyError")
                 end;
          when (negb (configure_quiet args)) (print no_script_msg) ;;
          print (dependencies_line deps))
         (print no_configuration_msg)) ;;
    when (negb (configure_quiet args))
      (print_next_step "configure" (Some model)).

End Reports.

(** * What the properties are stated with *)

(** ** Shapes of version strings *)

Module VersionNotions.

Import StrictVersion.

Fixpoint all_digits (d : string) : bool :=
  match d with
  | EmptyString => true
  | String c d' => is_digit c && all_digits d'
  end.

(** A non-empty string of decimal digits. *)
Definition is_number (d : string) : bool := negb (is_empty d) && all_digits d.

(** The string does not start with a digit. *)
Definition no_digit_ahead (r : string) : bool :=
  match r with
  | EmptyString => true
  | String c _ => negb (is_digit c)
  end.

(** [s] is MAJOR.MINOR.PATCH, three non-empty runs of decimal digits
    whose values are the components of [x]. *)
Definition numeric_triple (s : string) (x : N * N * N) : Prop :=
  exists d1 d2 d3,
    is_number d1 = true /\ is_number d2 = true /\ is_number d3 = true /\
    s = d1 ++ "." ++ d2 ++ "." ++ d3 /\
    x = (int d1, int d2, int d3).

(** The numeric order on triples, component by component from the
    left. *)
Definition triple_compare (x y : N * N * N) : comparison :=
  let '(x1, x2, x3) := x in
  let '(y1, y2, y3) := y in
  match (x1 ?= y1)%N with
  | Eq => match (x2 ?= y2)%N with
          | Eq => (x3 ?= y3)%N
          | c => c
          end
  | c => c
  end.

(** The strings [StrictVersion] accepts: MAJOR.MINOR, an optional
    .PATCH, an optional pre-release tag [a] or [b] with a number, and
    an optional final newline. *)
Definition strict_shape (s : string) : Prop :=
  exists d1 d2 patch pre eol,
    is_number d1 = true /\ is_number d2 = true /\
    (patch = "" \/ exists d3, is_number d3 = true /\ patch = "." ++ d3) /\
    (pre = "" \/
     exists c dn, (c = "a"%char \/ c = "b"%char) /\ is_number dn = true /\
                  pre = String c dn) /\
    (eol = "" \/ eol = nl) /\
    s = d1 ++ "." ++ d2 ++ patch ++ pre ++ eol.


(** The part of a version string after MAJOR.MINOR and an optional
    .PATCH: an optional pre-release tag and an optional newline. *)
Definition is_tail (r : string) : Prop :=
  exists pre eol,
    (pre = "" \/
     exists c dn, (c = "a"%char \/ c = "b"%char) /\ is_number dn = true /\
                  pre = String c dn) /\
    (eol = "" \/ eol = nl) /\ r = pre ++ eol.




End VersionNotions.

(** ** Stages, scripts and traces of the runs *)

Module RunNotions.

(** The script [dispatch] looks for and runs. *)
Definition script_of (cmd : string) (d : Description) : string :=
  cmd ++ "." ++ lang_loop lang_opts (meta_languages d).

(** The command line [dispatch] hands to the shell. *)
Definition command_line (cwd interp script : string) (param : list string)
  : string :=
  "export CMD_CWD='" ++ cwd ++ "'; " ++ interp ++ " " ++ script ++ " "
    ++ String.concat " " param.

(** What [install_model] knows once it has identified the reference:
    [url], [local], [mlmfile], [model] and [version]. *)
Definition identity : Type :=
  option string * string * string * string * string.

(** Lines 176-211 of [install_model], with the call of
    [utils.create_init] that opens them. *)
Definition identify (E : Env) (args : install_args) : M identity :=
  bind (create_init E) (fun init => resolve E args init).

(** Lines 213-285 of [install_model]: the run once the reference is
    identified. *)
Definition install_identified (E : Env) (args : install_args) (r : identity)
  : M unit :=
  let '(url, local, mlmfile, model, version) := r in
  let path := join (MLINIT E) model in
  bind (check_installed E model version path) (fun _ =>
  bind (match url with
        | Some url => download E (install_quiet args) url local mlmfile
        | None => ret tt
        end) (fun _ =>
  extract E (install_quiet args) local mlmfile model path)).

(** The world after the actions [evs]. *)
Definition with_trace (w : World) (evs : list event) : World :=
  {| fs := fs w; stdin := stdin w; DISPLAY := DISPLAY w;
     getcwd := getcwd w; trace := trace w ++ evs |}.

(** How [write_file] ends in the world [w]. *)
Definition write_result (local : string) (body : data) (w : World)
  : outcome unit * World :=
  match fs w !! norm local with
  | Some Directory => (Raise (IsADirectoryError local), w)
  | _ => (Return tt,
          {| fs := <[norm local := File body]> (fs w); stdin := stdin w;
             DISPLAY := DISPLAY w; getcwd := getcwd w; trace := trace w |})
  end.

(** Kinds of actions: a question to the user, a request to the
    server, the removal of a tree, the extraction of an archive. *)
Definition is_prompt (e : event) : bool :=
  match e with YesOrNo _ => true | _ => false end.

Definition is_transfer (e : event) : bool :=
  match e with Head _ | Urlretrieve _ _ => true | _ => false end.

Definition is_rmtree (e : event) : bool :=
  match e with Rmtree _ => true | _ => false end.


(** A failure of the download: the probe was refused, or the transfer
    failed. *)
Definition download_failure {A} (o : outcome A) : Prop :=
  match o with
  | Raise (ModelURLAccessException _)
  | Raise (ModelDownloadHaltException _ _)
  | Raise (URLError _) => True
  | _ => False
  end.

(** An action that is neither a question, nor a request, nor a
    removal. *)
Definition quiet_event (e : event) : Prop :=
  is_prompt e = false /\ is_transfer e = false /\ is_rmtree e = false.

(** The reference is a local archive or a URL, not a bare name: the
    two tests of lines 181 and 190. *)
Definition is_local_or_url (E : Env) (args : install_args) : bool :=
  ends_with_mlm E (install_model_arg args)
    && negb (is_url E (install_model_arg args))
  || is_url E (install_model_arg args).

(** The actions of a run from the world [w] on. *)
Definition events_since (w w' : World) : list event :=
  drop (List.length (trace w)) (trace w').

(** Lines 240-260 as they sit in [install_model]: a download, or
    nothing for a local archive. *)
Definition acquire (E : Env) (quiet : bool) (url : option string)
    (local mlmfile : string) : M unit :=
  match url with
  | Some url => download E quiet url local mlmfile
  | None => ret tt
  end.

(** Runs in the concrete environment: a local archive of version
    1.1.0, the URL of version 1.0.0, and the bare name. *)
Definition local_args : install_args :=
  mkInstallArgs "/tmp/rain_1.1.0.mlm" "https://host/Packages.yaml" true.

Definition url_args : install_args :=
  mkInstallArgs Demo.rain_url "https://host/Packages.yaml" true.

Definition name_args : install_args :=
  mkInstallArgs "rain" "https://host/Packages.yaml" true.

(** The server answers the probe with status 404. *)
Definition not_found : Env :=
  Demo.env (Response 404 None) (URLFailure "unreachable") (0%Z, "").

End RunNotions.

(** ** The order of versions *)

Module OrderNotions.

Import StrictVersion VersionNotions.

(** Two comparisons, the first one deciding unless it is [Eq]. *)
Definition lex (c1 c2 : comparison) : comparison :=
  match c1 with Eq => c2 | _ => c1 end.

(** The place of a pre-release tag among the tags of one release: the
    release itself, which has no tag, comes last. *)
Definition tag_key (p : option (ascii * N)) : N * N * N :=
  match p with
  | None => (1, 0, 0)%N
  | Some (c, n) => (0, N_of_ascii c, n)%N
  end.

(** The order of two parsed versions: by release numbers, then by
    tag. *)
Definition version_compare (v w : t) : comparison :=
  lex (triple_compare (version v) (version w))
      (triple_compare (tag_key (prerelease v)) (tag_key (prerelease w))).

(** The value of the optional [.PATCH] and of the optional tag of a
    version string. *)
Definition patch_value (patch : string) : N :=
  match patch with
  | String _ d3 => int d3
  | EmptyString => 0%N
  end.

Definition tag_value (pre : string) : option (ascii * N) :=
  match pre with
  | String c dn => Some (c, int dn)
  | EmptyString => None
  end.

(** MAJOR.MINOR or MAJOR.MINOR.PATCH, with no tag and no newline. *)
Definition release_string (s : string) : Prop :=
  exists d1 d2 patch,
    is_number d1 = true /\ is_number d2 = true /\
    (patch = "" \/ exists d3, is_number d3 = true /\ patch = "." ++ d3) /\
    s = d1 ++ "." ++ d2 ++ patch.

(** Comparisons that order: the converse is the opposite, and the
    results chain. *)
Record ordering {A} (cmp : A -> A -> comparison) : Prop := {
  ord_opp : forall x y, cmp y x = CompOpp (cmp x y);
  ord_eq : forall x y z r, cmp x y = Eq -> cmp y z = r -> cmp x z = r;
  ord_lt : forall x y z, cmp x y = Lt -> cmp y z = Lt -> cmp x z = Lt
}.

End OrderNotions.

(** ** Removal: targets and answers *)

Module RemoveNotions.

(** The tree [remove_model] asks about: the package root, or the
    directory of one model. *)
Definition remove_target (E : Env) (args : remove_args) : string :=
  match remove_model_arg args with
  | None => MLINIT E
  | Some model => MLINIT E ++ model
  end.

Definition remove_prompt (E : Env) (args : remove_args) : string :=
  match remove_model_arg args with
  | None => remove_all_prompt (MLINIT E)
  | Some model => remove_one_prompt (MLINIT E ++ model)
  end.

(** The answers [remove_mlm] takes for a yes: [y] in either case, and
    the empty line. *)
Definition yes_by_default (line : string) : bool :=
  String.eqb (lower line) "y" || String.eqb (lower line) "".

(** The archives the answers confirm, each answer going to the archive
    of the same rank. *)
Fixpoint confirmed (mlm answers : list string) : list string :=
  match mlm, answers with
  | m :: mlm', a :: answers' =>
      (if yes_by_default a then [m] else []) ++ confirmed mlm' answers'
  | _, _ => []
  end.

(** What [remove_mlm] does for the archives [mlm] with the lines
    [answers]: a question for each archive as long as the lines last,
    and one more when they run out. *)
Fixpoint asked (mlm answers : list string) : list event :=
  match mlm, answers with
  | [], _ => []
  | m :: _, [] => [Write (remove_mlm_prompt m)]
  | m :: mlm', a :: answers' =>
      Write (remove_mlm_prompt m)
        :: (if yes_by_default a then [Remove m] else [])
        ++ asked mlm' answers'
  end.

End RemoveNotions.

(** ** Dispatch: the display gate and the run of the script *)

Module DispatchNotions.

Import RunNotions.

(** The descriptor lists the command under [display]. *)
Definition needs_display (cmd : string) (d : Description) : bool :=
  match meta_display d with
  | Some cmds => bool_decide (cmd ∈ cmds)
  | None => false
  end.

Definition is_popen (e : event) : bool :=
  match e with Popen _ _ => true | _ => false end.

(** The descriptor [dispatch] loads for the model. *)
Definition descriptor_path (E : Env) (model : string) : string :=
  join (join (MLINIT E) model) (DESC_YAML E).

(** What [dispatch] does from the command check on, in the world [w1]
    the display gate leaves. *)
Definition run_command (E : Env) (args : dispatch_args) (d : Description)
    (w1 : World) : outcome unit * World :=
  let cmd := dispatch_cmd args in
  let model := dispatch_model args in
  let path := MLINIT E ++ model in
  let script := script_of cmd d in
  if negb (bool_decide (cmd ∈ commands d))
     || negb (path_exists (fs w1) (join path script))
  then (ErrorExit (command_not_found_msg cmd (CMD E) model), w1)
  else
    match interpreter E script with
    | None => (Raise (NoInterpreterForLanguage script), w1)
    | Some interp =>
        let command :=
          command_line (getcwd w1) interp script (dispatch_param args) in
        let '(returncode, errors, f') := subprocess E command path (fs w1) in
        (Return tt,
         {| fs := f'; stdin := stdin w1; DISPLAY := DISPLAY w1;
            getcwd := getcwd w1;
            trace :=
              trace w1 ++ Popen command path ::
                (if (returncode =? 0)%Z
                 then if dispatch_quiet args then []
                      else [PrintNextStep cmd (Some model)]
                 else [Print ("An error was encountered:" ++ nl);
                       Print errors]) |})
    end.

End DispatchNotions.

(** ** Install: local archives, replacement and output *)

Module InstallNotions.

Import RunNotions.

(** The reference is a local archive: the test of line 181. *)
Definition is_local (E : Env) (args : install_args) : bool :=
  ends_with_mlm E (install_model_arg args)
    && negb (is_url E (install_model_arg args)).

(** Informational output: everything printed but the blank line that
    follows a confirmed question. *)
Definition is_report (e : event) : bool :=
  match e with
  | Print s => negb (String.eqb s "")
  | PrintDownloading _ _ | PrintExtracted _ _ _ | PrintNextStep _ _ => true
  | _ => false
  end.

(** The world once the question has been answered with a yes and the
    installation at [path] removed; [rest] is what is left of the
    input. *)
Definition replaced (w : World) (question path : string) (rest : list string)
  : World :=
  {| fs := filter (fun kv => negb (under path kv.1)) (fs w);
     stdin := rest; DISPLAY := DISPLAY w; getcwd := getcwd w;
     trace := trace w ++ [YesOrNo question; Print ""; Rmtree path] |}.

(** What the probe of [download] leaves in the trace. *)
Definition probe (quiet : bool) (url : string) : list event :=
  (if quiet then [] else [Print ("Package " ++ url ++ nl)]) ++ [Head url].

End InstallNotions.

(** ** Reports: the models found and what is printed for them *)

Module ReportNotions.

(** The name of a model directory: a single path component that is
    not [R] and does not start with a dot. *)
Definition is_model_name (m : string) : bool :=
  negb (String.eqb m "") && negb (str_in "/" m)
  && negb (String.eqb m "R") && negb (startswith m ".").

(** The package root is written with at most one slash at its end. *)
Definition tidy (p : string) : Prop :=
  p <> "" /\ (p = norm p \/ p = norm p ++ "/").

(** The models [list_installed] finds in the file system [f]. *)
Definition installed_models (E : Env) (f : gmap string node) : list string :=
  merge_sort String.le
    (List.filter
       (fun name =>
          isdir f (join (MLINIT E) name)
          && negb (String.eqb name "R")
          && negb (startswith name "."))
       (entries f (MLINIT E))).


(** The descriptor [load_description] finds for a model. *)
Definition descriptor (E : Env) (f : gmap string node) (model : string)
  : option Description :=
  match f !! norm (join (join (MLINIT E) model) (DESC_YAML E)) with
  | Some (File (Yaml d)) => Some d
  | _ => None
  end.

(** The words of a completion list. *)
Definition completion_words (f : gmap string node) (file : string)
  : list string :=
  match f !! norm file with
  | Some (File (Words ws)) => ws
  | _ => []
  end.

(** What [list_installed] reports for the models: for each one its
    line, and the update of the completion list with its commands. *)
Definition report_lines (E : Env) (L : Helpers) (f : gmap string node)
    (models : list string) : list event :=
  flat_map
    (fun m =>
       match descriptor E f m with
       | Some d => [Print (meta_line L d);
                    UpdateCompletion (COMPLETION_COMMANDS E) (commands d)]
       | None => []
       end)
    models.

(** Lines 115-121: the models and the end of the sentence, when the
    package root is not a file. *)
Definition found (E : Env) (f : gmap string node) : string * list string :=
  if path_exists f (MLINIT E)
  then (" in '" ++ MLINIT E ++ "'.", installed_models E f)
  else (". '" ++ MLINIT E ++ "' does not exist.", []).

(** An instance of the helpers, to run the reporting commands on. *)
Definition helpers : Helpers :=
  {| README := "README.txt";
     APPX := "";
     drop_newline := fun s => s;
     dropdot := fun s => s;
     lower_first_letter := lower;
     fill := fun s _ => s;
     get_repo := fun s => s;
     get_repo_meta_data := fun _ =>
       inr [("rain", "rain 1.0.0 demo"); ("tools", "tools 0.1.0 demo")];
     meta_title := fun _ => None;
     meta_line := fun d => meta_version d;
     cmd_help := fun _ cmd => cmd;
     next_step_hint := fun step scenario => step ++ " " ++ scenario;
     yaml_text := fun _ => "";
     words_text := fun ws => String.concat nl ws;
     COMPLETION_SCRIPT := "bash_completion.d/ml.bash";
     uname_version := "#1 SMP Debian 4.19.67-2";
     package_dir := "/usr/lib/python3/dist-packages/mlhub";
     meta_dependencies := fun _ => None;
     configure := fun _ _ _ => ret false |}.


(** What [configure_model] prints about the dependencies of a model
    none of whose scripts configured it. *)
Definition dependencies_report (E : Env) (L : Helpers) (quiet : bool)
    (f : gmap string node) (model : string) : list event :=
  match descriptor E f model with
  | Some d =>
      match meta_dependencies L d with
      | Some deps =>
          (if quiet then [] else [Print no_script_msg])
            ++ [Print (dependencies_line deps)]
      | None => [Print no_configuration_msg]
      end
  | None => [Print no_configuration_msg]
  end.

(** The version of the system names Debian or Ubuntu. *)
Definition debian_or_ubuntu (L : Helpers) : bool :=
  str_in "debian" (lower (uname_version L))
  || str_in "ubuntu" (lower (uname_version L)).

End ReportNotions.

(** * Properties *)

(** ** The version comparison *)

Module VersionFacts.

Import StrictVersion VersionNotions.

Lemma append_cons c (s t : string) : String c s ++ t = String c (s ++ t).
Proof. reflexivity. Qed.

Lemma append_nil_l (t : string) : "" ++ t = t.
Proof. reflexivity. Qed.

Lemma append_nil_r (s : string) : s ++ "" = s.
Proof.
  induction s as [|c s IH]; [reflexivity | now rewrite append_cons, IH].
Qed.

Lemma append_assoc (a b c : string) : (a ++ b) ++ c = a ++ b ++ c.
Proof.
  induction a as [|x a IH]; [reflexivity | now rewrite !append_cons, IH].
Qed.

Ltac str_simpl := rewrite ?append_cons, ?append_nil_l in *.

Lemma span_digits_app d r :
  all_digits d = true -> no_digit_ahead r = true ->
  span_digits (d ++ r) = (d, r).
Proof.
  induction d as [|c d IH]; str_simpl; simpl; intros Hd Hr.
  - destruct r as [|c r]; simpl in *; [reflexivity|].
    apply negb_true_iff in Hr. now rewrite Hr.
  - apply andb_true_iff in Hd as [Hc Hd].
    rewrite Hc, (IH Hd Hr). reflexivity.
Qed.

Lemma span_digits_all d :
  all_digits d = true -> span_digits d = (d, "").
Proof.
  intros Hd. rewrite <- (append_nil_r d) at 1.
  now apply span_digits_app.
Qed.

Lemma span_digits_inv s d r :
  span_digits s = (d, r) ->
  s = d ++ r /\ all_digits d = true /\ no_digit_ahead r = true.
Proof.
  revert d r. induction s as [|c s IH]; simpl; intros d r H.
  - injection H as <- <-. auto.
  - destruct (is_digit c) eqn:Hc.
    + destruct (span_digits s) as [d' r'] eqn:Hs.
      injection H as <- <-.
      destruct (IH _ _ eq_refl) as (-> & Hd & Hr).
      str_simpl. simpl. rewrite Hc, Hd. auto.
    + injection H as <- <-. simpl. rewrite Hc. auto.
Qed.

Lemma is_number_inv d :
  is_number d = true -> all_digits d = true /\ is_empty d = false.
Proof.
  unfold is_number. intros H. apply andb_true_iff in H as [H1 H2].
  apply negb_true_iff in H1. auto.
Qed.

Lemma dot_no_digit r : no_digit_ahead ("." ++ r) = true.
Proof. reflexivity. Qed.

(** A numeric triple parses to its three values, with no pre-release
    tag. *)
Lemma parse_numeric_triple s x :
  numeric_triple s x -> parse s = Some {| version := x; prerelease := None |}.
Proof.
  intros (d1 & d2 & d3 & H1 & H2 & H3 & -> & ->).
  apply is_number_inv in H1 as [A1 E1].
  apply is_number_inv in H2 as [A2 E2].
  apply is_number_inv in H3 as [A3 E3].
  unfold parse.
  rewrite (span_digits_app d1 _ A1 (dot_no_digit _)), E1.
  str_simpl. cbv iota beta.
  rewrite (span_digits_app d2 (String "." d3) A2 eq_refl), E2.
  unfold patch_group.
  rewrite (span_digits_all d3 A3), E3. simpl.
  now rewrite E3.
Qed.

Lemma cmp_release x y :
  _cmp {| version := x; prerelease := None |}
       {| version := y; prerelease := None |}
  = match triple_compare x y with Lt => (-1)%Z | Eq => 0%Z | Gt => 1%Z end.
Proof.
  destruct x as [[x1 x2] x3], y as [[y1 y2] y3].
  unfold _cmp, tuple_eqb, tuple_lt, triple_compare; simpl.
  destruct (N.compare_spec x1 y1), (N.compare_spec x2 y2),
    (N.compare_spec x3 y3); subst; rewrite ?N.eqb_refl; simpl;
    repeat match goal with
      | |- context [(?a =? ?b)%N] => destruct (N.eqb_spec a b); try lia; simpl
      | |- context [(?a <? ?b)%N] => destruct (N.ltb_spec a b); try lia; simpl
      end; reflexivity.
Qed.

Lemma triple_compare_antisym x y :
  triple_compare y x = CompOpp (triple_compare x y).
Proof.
  destruct x as [[x1 x2] x3], y as [[y1 y2] y3]; simpl.
  rewrite (N.compare_antisym x1 y1), (N.compare_antisym x2 y2),
    (N.compare_antisym x3 y3).
  destruct (x1 ?= y1)%N, (x2 ?= y2)%N, (x3 ?= y3)%N; reflexivity.
Qed.

Lemma compare_release a b x y :
  parse a = Some {| version := x; prerelease := None |} ->
  parse b = Some {| version := y; prerelease := None |} ->
  compare a b = inr (triple_compare x y).
Proof.
  intros Ha Hb. unfold compare, new_StrictVersion. rewrite Ha, Hb.
  unfold gt, eq. rewrite cmp_release.
  destruct (triple_compare x y); reflexivity.
Qed.

(** What [parse] accepts has the shape of [strict_shape]. *)

Lemma at_end_inv r : at_end r = true -> r = "" \/ r = nl.
Proof.
  destruct r as [|c [|c' r]]; simpl; intros H; try discriminate; auto.
  apply Ascii.eqb_eq in H as ->. now right.
Qed.

Lemma patch_group_inv r p r' :
  patch_group r = (p, r') ->
  (p = "" /\ r' = r) \/
  (is_number p = true /\ r = "." ++ p ++ r').
Proof.
  unfold patch_group. intros H.
  destruct r as [|c r0]; [injection H as <- <-; auto|].
  destruct (Ascii.eqb_spec c ".") as [->|Hc].
  - destruct (span_digits r0) as [d r1] eqn:Hs.
    destruct (is_empty d) eqn:Hd.
    + injection H as <- <-. auto.
    + injection H as <- <-. right.
      destruct (span_digits_inv _ _ _ Hs) as (-> & Ha & _).
      unfold is_number. rewrite Hd, Ha. auto.
  - left.
    destruct c as [[] [] [] [] [] [] [] []];
      try (now injection H as <- <-); now destruct Hc.
Qed.

Lemma prerelease_group_inv r pre r' :
  prerelease_group r = (pre, r') ->
  (pre = None /\ r' = r) \/
  (exists c dn, (c = "a"%char \/ c = "b"%char) /\ is_number dn = true /\
                pre = Some (c, int dn) /\ r = String c (dn ++ r')).
Proof.
  unfold prerelease_group. intros H.
  destruct r as [|c r0]; [injection H as <- <-; auto|].
  destruct (Ascii.eqb c "a" || Ascii.eqb c "b") eqn:Hc.
  - destruct (span_digits r0) as [d r1] eqn:Hs.
    destruct (is_empty d) eqn:Hd.
    + injection H as <- <-. auto.
    + injection H as <- <-. right. exists c, d.
      destruct (span_digits_inv _ _ _ Hs) as (-> & Ha & _).
      unfold is_number. rewrite Hd, Ha.
      apply orb_true_iff in Hc as [Hc|Hc]; apply Ascii.eqb_eq in Hc; auto.
  - injection H as <- <-. auto.
Qed.

Lemma parse_sound s v : parse s = Some v -> strict_shape s.
Proof.
  unfold parse. intros H.
  destruct (span_digits s) as [major r1] eqn:H1.
  destruct (is_empty major) eqn:E1; [discriminate|].
  destruct (span_digits_inv _ _ _ H1) as (-> & A1 & _).
  destruct r1 as [|c r2]; [discriminate|].
  destruct (Ascii.eqb_spec c ".") as [->|Hc];
    [|destruct c as [[] [] [] [] [] [] [] []];
      try discriminate; now destruct Hc].
  destruct (span_digits r2) as [minor r3] eqn:H2.
  destruct (is_empty minor) eqn:E2; [discriminate|].
  destruct (span_digits_inv _ _ _ H2) as (-> & A2 & _).
  destruct (patch_group r3) as [patch r4] eqn:H3.
  destruct (prerelease_group r4) as [pre r5] eqn:H4.
  destruct (at_end r5) eqn:H5; [|discriminate].
  apply at_end_inv in H5.
  apply patch_group_inv in H3. apply prerelease_group_inv in H4.
  assert (N1 : is_number major = true) by (unfold is_number; now rewrite E1, A1).
  assert (N2 : is_number minor = true) by (unfold is_number; now rewrite E2, A2).
  destruct H3 as [[-> <-]|[N3 ->]];
    destruct H4 as [[-> <-]|(c & dn & Hc & Nn & -> & ->)].
  - exists major, minor, "", "", r5.
    split; [exact N1|]. split; [exact N2|]. split; [now left|].
    split; [now left|]. split; [exact H5|reflexivity].
  - exists major, minor, "", (String c dn), r5.
    split; [exact N1|]. split; [exact N2|]. split; [now left|].
    split; [right; exists c, dn; auto|]. split; [exact H5|reflexivity].
  - exists major, minor, ("." ++ patch), "", r5.
    split; [exact N1|]. split; [exact N2|].
    split; [right; exists patch; auto|].
    split; [now left|]. split; [exact H5|].
    now rewrite !append_assoc.
  - exists major, minor, ("." ++ patch), (String c dn), r5.
    split; [exact N1|]. split; [exact N2|].
    split; [right; exists patch; auto|].
    split; [right; exists c, dn; auto|]. split; [exact H5|].
    now rewrite !append_assoc.
Qed.

Lemma eol_no_digit eol : eol = "" \/ eol = nl -> no_digit_ahead eol = true.
Proof. intros [->| ->]; reflexivity. Qed.

Lemma eol_at_end eol : eol = "" \/ eol = nl -> at_end eol = true.
Proof. intros [->| ->]; reflexivity. Qed.

Lemma prerelease_group_eol eol :
  eol = "" \/ eol = nl -> prerelease_group eol = (None, eol).
Proof. intros [->| ->]; reflexivity. Qed.

Lemma prerelease_group_tag c dn eol :
  c = "a"%char \/ c = "b"%char -> is_number dn = true ->
  eol = "" \/ eol = nl ->
  prerelease_group (String c (dn ++ eol)) = (Some (c, int dn), eol).
Proof.
  intros Hc Hn He. apply is_number_inv in Hn as [Ha Hd].
  unfold prerelease_group.
  rewrite (span_digits_app dn eol Ha (eol_no_digit _ He)), Hd.
  destruct Hc as [->| ->]; reflexivity.
Qed.

Lemma tail_no_digit r : is_tail r -> no_digit_ahead r = true.
Proof.
  intros (pre & eol & [->|(c & dn & Hc & _ & ->)] & He & ->).
  - now apply eol_no_digit.
  - destruct Hc as [->| ->]; reflexivity.
Qed.

Lemma tail_accepted r :
  is_tail r -> exists pre r5, prerelease_group r = (pre, r5) /\ at_end r5 = true.
Proof.
  intros (pre & eol & [->|(c & dn & Hc & Hn & ->)] & He & ->).
  - exists None, eol. rewrite append_nil_l.
    split; [now apply prerelease_group_eol | now apply eol_at_end].
  - exists (Some (c, int dn)), eol. rewrite append_cons.
    split; [now apply prerelease_group_tag | now apply eol_at_end].
Qed.

Lemma patch_group_tail r : is_tail r -> patch_group r = ("", r).
Proof.
  intros (pre & eol & [->|(c & dn & Hc & _ & ->)] & He & ->).
  - destruct He as [->| ->]; reflexivity.
  - destruct Hc as [->| ->]; reflexivity.
Qed.

Lemma parse_complete s : strict_shape s -> exists v, parse s = Some v.
Proof.
  intros (d1 & d2 & patch & pre & eol & N1 & N2 & Hp & Hpre & He & ->).
  apply is_number_inv in N1 as [A1 E1].
  apply is_number_inv in N2 as [A2 E2].
  assert (Ht : is_tail (pre ++ eol)) by (exists pre, eol; auto).
  destruct (tail_accepted _ Ht) as (tag & r5 & Hg & H5).
  unfold parse.
  rewrite (span_digits_app d1 _ A1 (dot_no_digit _)), E1.
  rewrite append_cons, append_nil_l. cbv iota beta.
  destruct Hp as [->|(d3 & N3 & ->)].
  - rewrite append_nil_l.
    rewrite (span_digits_app d2 _ A2 (tail_no_digit _ Ht)), E2.
    rewrite (patch_group_tail _ Ht), Hg, H5. eauto.
  - apply is_number_inv in N3 as [A3 E3].
    rewrite append_assoc, append_cons, append_nil_l.
    rewrite (span_digits_app d2 (String "." _) A2 eq_refl), E2.
    unfold patch_group.
    rewrite (span_digits_app d3 _ A3 (tail_no_digit _ Ht)), E3.
    rewrite Hg, H5. eauto.
Qed.

Lemma parse_accepts s : is_Some (parse s) <-> strict_shape s.
Proof.
  split.
  - intros [v Hv]. eapply parse_sound, Hv.
  - intros H. destruct (parse_complete _ H) as [v Hv]. now exists v.
Qed.

(** Dots and digits of a numeric triple. *)






(** C4. For valid version strings [a] and [b], numeric
    MAJOR.MINOR.PATCH triples with values [x] and [y], the comparison
    used by [install_model] agrees with the numeric order of the three
    components taken from the left, and it is antisymmetric: [a] is
    greater than [b] exactly when [b] is less than [a], and equality
    is mutual.  Comparing "1.2.0" with "1.10.0" yields LESS: the order
    is numeric, not the order of the strings. *)
Theorem compare_numeric_triples a b x y :
  numeric_triple a x -> numeric_triple b y ->
  compare a b = inr (triple_compare x y)
  /\ compare b a = inr (CompOpp (triple_compare x y))
  /\ (compare a b = inr GREATER <-> compare b a = inr LESS)
  /\ (compare a b = inr LESS <-> compare b a = inr GREATER)
  /\ (compare a b = inr EQUAL <-> compare b a = inr EQUAL)
  /\ compare "1.2.0" "1.10.0" = inr LESS.
Proof.
  intros Ha Hb.
  apply parse_numeric_triple in Ha, Hb.
  pose proof (compare_release _ _ _ _ Ha Hb) as Hab.
  pose proof (compare_release _ _ _ _ Hb Ha) as Hba.
  rewrite triple_compare_antisym in Hba.
  rewrite Hab, Hba. unfold GREATER, LESS, EQUAL.
  repeat split; try reflexivity;
    destruct (triple_compare x y); simpl; congruence.
Qed.

Lemma compare_numeric_triples_witness :
  numeric_triple "2.0.1" (2, 0, 1)%N /\ numeric_triple "1.10.0" (1, 10, 0)%N
  /\ compare "2.0.1" "1.10.0" = inr GREATER
  /\ compare "1.10.0" "2.0.1" = inr LESS.
Proof.
  assert (Ha : numeric_triple "2.0.1" (2, 0, 1)%N)
    by (exists "2", "0", "1"; repeat split; reflexivity).
  assert (Hb : numeric_triple "1.10.0" (1, 10, 0)%N)
    by (exists "1", "10", "0"; repeat split; reflexivity).
  split; [exact Ha|]. split; [exact Hb|].
  destruct (compare_numeric_triples _ _ _ _ Ha Hb) as (H1 & H2 & _).
  split; [exact H1 | exact H2].
Defined.



End VersionFacts.

(** ** Removal and dispatch *)

Module CommandFacts.

Import VersionNotions RunNotions VersionFacts.

(** Unfold the monad and the primitives of a run. *)
Ltac munfold :=
  unfold check_model_installed, load_description, display_gate,
    environ_DISPLAY, os_getcwd, print_error_exit, yes_or_no,
    update_completion_list, write_file, create_init,
    rmtree, os_remove, move, when, print_next_step, stdout_write, print,
    emit, input, exists_, bind, ret, raise, sys_exit, get_fs, put_fs in *.

Ltac crush := repeat (case_match; simplify_eq/=).

(** C9, as the code has it. At the confirmation prompt of
    [remove_model] (one model or the whole package root) an empty
    answer means no: nothing is deleted.  At the archive-cleanup
    prompt of [remove_mlm] an empty answer means yes: the archive the
    prompt names is deleted, and the loop goes on with the next
    archive. *)
Theorem empty_answer_removal E args w rest :
  stdin w = "" :: rest ->
  fs (snd (remove_model E args w)) = fs w
  /\ (forall m ms d,
        glob_mlm E (fs w) = m :: ms ->
        fs w !! norm m = Some (File d) ->
        remove_mlm E w =
        remove_mlm_loop ms
          {| fs := delete (norm m) (fs w); stdin := rest;
             DISPLAY := DISPLAY w; getcwd := getcwd w;
             trace := trace w ++ [Write (remove_mlm_prompt m); Remove m] |}).
Proof.
  intros Hin. split.
  - unfold remove_model. munfold. crush; try reflexivity;
      rewrite Hin in *; simplify_eq/=.
  - intros m ms d Hglob Hm. unfold remove_mlm.
    unfold bind at 1. unfold get_fs at 1. rewrite Hglob.
    cbn [remove_mlm_loop]. munfold. cbn. rewrite Hin. cbn.
    rewrite Hm. cbn. rewrite <- app_assoc. reflexivity.
Qed.

Lemma empty_answer_removal_witness :
  let w := Demo.world (Demo.installed "1.0.0") [""] "" in
  fs (snd (remove_model Demo.offline (mkRemoveArgs (Some "rain") false) w))
  = fs w.
Proof.
  exact (proj1 (empty_answer_removal Demo.offline
                  (mkRemoveArgs (Some "rain") false)
                  (Demo.world (Demo.installed "1.0.0") [""] "") []
                  eq_refl)).
Defined.

(** C9, as the specification states it, fails for [remove_mlm]: the
    archive is there, the user presses Enter at the prompt, and the
    archive is gone. *)
Lemma remove_mlm_empty_answer_deletes :
  let w := Demo.world (Demo.installed "1.0.0") [""] "" in
  let w' := snd (remove_mlm Demo.offline w) in
  fs w !! "/home/user/.mlhub/rain_1.0.0.mlm" = Some (File (Bytes "1.0.0"))
  /\ trace w' =
     [Write "Remove model package archive '/home/user/.mlhub/rain_1.0.0.mlm' [Y/n]? ";
      Remove "/home/user/.mlhub/rain_1.0.0.mlm"]
  /\ fs w' !! "/home/user/.mlhub/rain_1.0.0.mlm" = None.
Proof. vm_compute. repeat split. Qed.

(** *** dispatch *)

Lemma display_gate_keeps cmd d w o w1 :
  display_gate cmd d w = (o, w1) ->
  fs w1 = fs w /\ getcwd w1 = getcwd w /\ DISPLAY w1 = DISPLAY w.
Proof. munfold. intros H. crush; auto. Qed.

(** A dispatch on an installed model whose descriptor loads and whose
    display gate lets the run through: the rest of the run. *)
Lemma dispatch_reaches_command_check E args w d w1 :
  path_exists (fs w) (MLINIT E ++ dispatch_model args) = true ->
  fs w !! norm (join (join (MLINIT E) (dispatch_model args)) (DESC_YAML E))
    = Some (File (Yaml d)) ->
  display_gate (dispatch_cmd args) d w = (Return tt, w1) ->
  dispatch E args w =
  (let cmd := dispatch_cmd args in
   let model := dispatch_model args in
   let path := MLINIT E ++ model in
   let script := script_of cmd d in
   if negb (bool_decide (cmd ∈ commands d))
      || negb (path_exists (fs w1) (join path script))
   then (ErrorExit (command_not_found_msg cmd (CMD E) model), w1)
   else
     match interpreter E script with
     | None => (Raise (NoInterpreterForLanguage script), w1)
     | Some interp =>
         let command :=
           command_line (getcwd w1) interp script (dispatch_param args) in
         let '(returncode, errors, f') := subprocess E command path (fs w1) in
         (Return tt,
          {| fs := f'; stdin := stdin w1; DISPLAY := DISPLAY w1;
             getcwd := getcwd w1;
             trace :=
               trace w1 ++ Popen command path ::
                 (if (returncode =? 0)%Z
                  then if dispatch_quiet args then []
                       else [PrintNextStep cmd (Some model)]
                  else [Print ("An error was encountered:" ++ nl);
                        Print errors]) |})
     end).
Proof.
  intros Hi Hd Hg. unfold dispatch, script_of, command_line.
  unfold check_model_installed, load_description.
  unfold bind at 1. unfold bind at 1. unfold get_fs at 1. rewrite Hi.
  unfold ret at 1. unfold bind at 1. unfold bind at 1. unfold get_fs at 1.
  rewrite Hd. unfold ret at 1. unfold bind at 1. rewrite Hg.
  clear Hg.
  generalize (lang_loop lang_opts (meta_languages d)) as ext.
  generalize (String.concat " " (dispatch_param args)) as param.
  intros param ext. munfold. cbn.
  destruct (bool_decide (dispatch_cmd args ∈ commands d)); cbn;
    [|reflexivity].
  destruct (path_exists (fs w1) _); cbn; [|reflexivity].
  destruct (interpreter E _); [|reflexivity].
  destruct (subprocess E _ _ _) as [[rc errors] f'].
  destruct (rc =? 0)%Z; cbn.
  - destruct (dispatch_quiet args); cbn; rewrite <- ?app_assoc; reflexivity.
  - rewrite <- !app_assoc. reflexivity.
Qed.




(** C5, as the code has it. For a dispatch that reaches the command
    check (the model is installed, its descriptor loads and the
    display gate lets the run through), the run ends in the
    command-not-found error exactly when the command is not among the
    declared commands or the composed script file does not exist; in
    particular it does when the command is not declared, whether or
    not a script of that name exists. *)
Theorem command_not_found_iff E args w d w1 :
  let cmd := dispatch_cmd args in
  let model := dispatch_model args in
  let path := MLINIT E ++ model in
  let script := script_of cmd d in
  path_exists (fs w) path = true ->
  fs w !! norm (join (join (MLINIT E) model) (DESC_YAML E))
    = Some (File (Yaml d)) ->
  display_gate cmd d w = (Return tt, w1) ->
  (fst (dispatch E args w)
     = ErrorExit (command_not_found_msg cmd (CMD E) model)
   <-> cmd ∉ commands d \/ path_exists (fs w) (join path script) = false)
  /\ (cmd ∉ commands d ->
      fst (dispatch E args w)
        = ErrorExit (command_not_found_msg cmd (CMD E) model)).
Proof.
  intros cmd model path script Hi Hd Hg.
  destruct (display_gate_keeps _ _ _ _ _ Hg) as (Hfs & _ & _).
  rewrite (dispatch_reaches_command_check E args w d w1 Hi Hd Hg).
  cbv zeta. fold cmd model path script. rewrite Hfs.
  destruct (decide (cmd ∈ commands d)) as [Hc|Hc].
  - rewrite bool_decide_eq_true_2 by exact Hc. cbn [negb orb].
    split; [|intros Hn; now destruct Hn].
    destruct (path_exists (fs w) (join path script)); cbn [negb].
    + split; [|intros [Hn|Hn]; [now destruct Hn | discriminate]].
      destruct (interpreter E script); [|discriminate].
      destruct (subprocess E _ _ _) as [[rc errors] f']. discriminate.
    + split; auto.
  - rewrite bool_decide_eq_false_2 by exact Hc. cbn [negb orb].
    split; [split|]; auto.
Qed.

Lemma command_not_found_iff_witness :
  fst (dispatch Demo.offline (mkDispatchArgs "hidden" "rain" [] false)
         (Demo.world (Demo.installed "1.0.0") [] ""))
  = ErrorExit (command_not_found_msg "hidden" "ml" "rain")
  /\ path_exists (Demo.installed "1.0.0") "/home/user/.mlhub/rain/hidden.R"
     = true.
Proof.
  split; [|vm_compute; reflexivity].
  apply (command_not_found_iff Demo.offline
           (mkDispatchArgs "hidden" "rain" [] false)
           (Demo.world (Demo.installed "1.0.0") [] "")
           (Demo.description "1.0.0")
           (Demo.world (Demo.installed "1.0.0") [] ""));
    try (vm_compute; reflexivity).
  intros H. repeat (apply elem_of_cons in H as [H|H]; [discriminate|]).
  now apply elem_of_nil in H.
Defined.

(** C5, as the specification states it, fails: [rain] is installed,
    [plot] is not among its declared commands, and the dispatch of
    [plot] does not end in the command-not-found error.  The command
    is listed as needing a display, there is none, the user answers
    "n" at the display prompt, and the run exits with status 1 before
    the command check. *)
Lemma display_gate_precedes_command_check :
  ("plot" ∉ commands (Demo.description "1.0.0"))
  /\ path_exists (Demo.installed "1.0.0") "/home/user/.mlhub/rain" = true
  /\ fst (dispatch Demo.offline (mkDispatchArgs "plot" "rain" [] false)
            (Demo.world (Demo.installed "1.0.0") ["n"] ""))
     = SysExit 1.
Proof.
  split; [|split; vm_compute; reflexivity].
  intros H. repeat (apply elem_of_cons in H as [H|H]; [discriminate|]).
  now apply elem_of_nil in H.
Qed.






End CommandFacts.

(** ** install_model *)

Module InstallFacts.

Import VersionNotions RunNotions VersionFacts CommandFacts.

Lemma install_model_stages E args w :
  install_model E args w
  = bind (identify E args) (install_identified E args) w.
Proof.
  unfold install_model, identify, install_identified, create_init.
  unfold bind, get_fs, put_fs, ret.
  destruct (path_exists (fs w) (MLINIT E)); cbn;
    match goal with
    | |- context [resolve E args ?i ?w0] =>
        destruct (resolve E args i w0) as [[[[[[url local] mlmfile] model] version]| | |] w1]
    end; reflexivity.
Qed.

Lemma install_model_identified E args w r w1 :
  identify E args w = (Return r, w1) ->
  install_model E args w = install_identified E args r w1.
Proof.
  intros Hid. rewrite install_model_stages. unfold bind. now rewrite Hid.
Qed.

Lemma check_installed_cases E model version path w :
  check_installed E model version path w =
  if path_exists (fs w) path then
    match fs w !! norm (join (join (MLINIT E) model) (DESC_YAML E)) with
    | Some (File (Yaml d)) =>
        match compare (meta_version d) version with
        | inl e => (Raise e, w)
        | inr c =>
            let q := YesOrNo (question_of c model (meta_version d) version) in
            match stdin w with
            | [] => (Raise EOFError, with_trace w [q])
            | line :: rest =>
                let w' := {| fs := fs w; stdin := rest; DISPLAY := DISPLAY w;
                             getcwd := getcwd w; trace := trace w |} in
                if answers_yes E line then
                  match fs w !! norm path with
                  | Some Directory =>
                      (Return tt,
                       {| fs := filter (fun kv => negb (under path kv.1)) (fs w);
                          stdin := rest; DISPLAY := DISPLAY w;
                          getcwd := getcwd w;
                          trace := trace w ++ [q; Print ""; Rmtree path] |})
                  | Some (File _) =>
                      (Raise (NotADirectoryError path),
                       with_trace w' [q; Print ""; Rmtree path])
                  | None =>
                      (Raise (FileNotFoundError path),
                       with_trace w' [q; Print ""; Rmtree path])
                  end
                else (SysExit 1, with_trace w' [q])
            end
        end
    | _ => (Raise (DescriptionNotFound model), w)
    end
  else (Return tt, w).
Proof.
  unfold check_installed, with_trace. munfold.
  repeat (case_match; simplify_eq/=); rewrite <- ?app_assoc; try reflexivity.
  all: try by destruct w.
Qed.

Lemma download_cases E quiet url local mlmfile w :
  download E quiet url local mlmfile w =
  let announce := if quiet then [] else [Print ("Package " ++ url ++ nl)] in
  match requests_head E url with
  | HeadError e =>
      (Raise (External e), with_trace w (announce ++ [Head url])%list)
  | Response status_code content_length =>
      if negb (status_code =? codes_ok)%Z
      then (Raise (ModelURLAccessException url),
            with_trace w (announce ++ [Head url])%list)
      else
        match content_length with
        | None =>
            (Raise TypeError, with_trace w (announce ++ [Head url])%list)
        | Some dsize =>
            let evs :=
              (announce ++ Head url ::
                 (if quiet then [] else [PrintDownloading mlmfile dsize])
                 ++ [Urlretrieve url local])%list in
            match urlretrieve E url with
            | Retrieved body => write_result local body (with_trace w evs)
            | HTTPError reason =>
                (Raise (ModelDownloadHaltException url (lower reason)),
                 with_trace w evs)
            | URLFailure reason => (Raise (URLError reason), with_trace w evs)
            end
        end
  end.
Proof.
  unfold download, write_result, with_trace. munfold.
  generalize ("Package " ++ url ++ nl) as msg. intros msg.
  destruct quiet; cbn;
    repeat (case_match; simplify_eq/=); rewrite <- ?app_assoc;
    try reflexivity.
Qed.

Lemma extract_spec E quiet local mlmfile model path w :
  exists evs,
    trace (snd (extract E quiet local mlmfile model path w))
    = (trace w ++ Extractall local (MLINIT E) :: evs)%list
    /\ Forall quiet_event evs
    /\ ~ download_failure (fst (extract E quiet local mlmfile model path w)).
Proof.
  unfold extract. munfold.
  repeat (case_match; simplify_eq/=); rewrite <- ?app_assoc; cbn;
    eexists; (split; [reflexivity|]); split; auto;
    repeat constructor.
Qed.

Lemma identify_spec E args w o w1 :
  identify E args w = (o, w1) ->
  stdin w1 = stdin w
  /\ (trace w1 = trace w
      \/ exists meta,
           trace w1
           = (trace w ++ [UpdateCompletion (COMPLETION_MODELS E) meta])%list)
  /\ (path_exists (fs w) (MLINIT E) = true ->
      (forall k, k <> norm (COMPLETION_MODELS E) -> fs w1 !! k = fs w !! k)
      /\ (is_local_or_url E args = true -> fs w1 = fs w)).
Proof.
  unfold identify, resolve, is_local_or_url. munfold. intros H.
  repeat (case_match; simplify_eq/=);
    repeat split; eauto; try congruence;
    try (intros; rewrite lookup_insert_ne by congruence; reflexivity);
    try (intros; discriminate).
Qed.

Lemma path_gone (f : gmap string node) path :
  path_exists (filter (fun kv : string * node => negb (under path kv.1)) f) path
  = false.
Proof.
  unfold path_exists. apply andb_false_iff. right.
  apply bool_decide_eq_false. intros [x Hx].
  apply map_lookup_filter_Some in Hx as [_ Hx]. cbn in Hx.
  unfold under in Hx. rewrite String.eqb_refl in Hx. exact Hx.
Qed.

Lemma compare_error a b e : compare a b = inl e -> exists s, e = ValueError s.
Proof.
  unfold compare, new_StrictVersion. intros H.
  repeat (case_match; simplify_eq/=); eauto.
Qed.

Lemma install_after_check E args w url local mlmfile model version w1 w2 :
  identify E args w = (Return (url, local, mlmfile, model, version), w1) ->
  check_installed E model version (join (MLINIT E) model) w1
    = (Return tt, w2) ->
  install_model E args w =
  bind (match url with
        | Some url => download E (install_quiet args) url local mlmfile
        | None => ret tt
        end)
    (fun _ => extract E (install_quiet args) local mlmfile model
                (join (MLINIT E) model)) w2.
Proof.
  intros Hid Hchk. rewrite install_model_stages.
  unfold bind at 1. rewrite Hid. unfold install_identified.
  unfold bind at 1. rewrite Hchk. reflexivity.
Qed.

(** C6, as the code has it. For an install that reaches the download
    of [url]: a probe whose status is not [codes_ok] ends the run in
    [ModelURLAccessException] carrying the URL.  With the probe
    accepted, an HTTP error raised by the body download ends it in the
    distinct [ModelDownloadHaltException], carrying the URL and the
    reason in lower case; any other failure of the transfer
    ([URLError]) is not converted and ends the run as it was raised.
    The two exceptions are never conflated: the first arises only from
    a refused probe, the second only from an HTTP error of the
    transfer after an accepted probe. *)
Theorem download_failures E args w url local mlmfile model version w1 w2 :
  identify E args w = (Return (Some url, local, mlmfile, model, version), w1) ->
  check_installed E model version (join (MLINIT E) model) w1
    = (Return tt, w2) ->
  (forall s cl,
      requests_head E url = Response s cl -> s <> codes_ok ->
      fst (install_model E args w) = Raise (ModelURLAccessException url))
  /\ (forall n reason,
        requests_head E url = Response codes_ok (Some n) ->
        urlretrieve E url = HTTPError reason ->
        fst (install_model E args w)
        = Raise (ModelDownloadHaltException url (lower reason)))
  /\ (forall n reason,
        requests_head E url = Response codes_ok (Some n) ->
        urlretrieve E url = URLFailure reason ->
        fst (install_model E args w) = Raise (URLError reason))
  /\ (forall u,
        fst (install_model E args w) = Raise (ModelURLAccessException u) ->
        u = url
        /\ exists s cl, requests_head E url = Response s cl /\ s <> codes_ok)
  /\ (forall u r,
        fst (install_model E args w)
        = Raise (ModelDownloadHaltException u r) ->
        u = url
        /\ exists n reason,
             requests_head E url = Response codes_ok (Some n)
             /\ urlretrieve E url = HTTPError reason /\ r = lower reason).
Proof.
  intros Hid Hchk.
  rewrite (install_after_check _ _ _ _ _ _ _ _ _ _ Hid Hchk).
  unfold bind. rewrite download_cases. cbv zeta.
  destruct (requests_head E url) as [e|s cl].
  { repeat split; intros; discriminate. }
  destruct (Z.eqb_spec s codes_ok) as [->|Hs]; cbn [negb].
  2:{ repeat split; intros; simplify_eq/=; eauto. }
  destruct cl as [n|].
  2:{ repeat split; intros; simplify_eq/=. }
  destruct (urlretrieve E url) as [body|reason|reason].
  2,3: repeat split; intros; simplify_eq/=; eauto.
  unfold write_result.
  match goal with
  | |- context [fs ?w0 !! norm local] => destruct (fs w0 !! norm local) as [[]|]
  end;
    try (repeat split; intros; simplify_eq/=; fail).
  all: repeat split; intros; simplify_eq/=;
    match goal with
    | H : fst (extract ?E ?q ?l ?m ?mo ?p ?w0) = _ |- _ =>
        destruct (extract_spec E q l m mo p w0) as (? & _ & _ & Hn);
        rewrite H in Hn; now destruct Hn
    end.
Qed.

Lemma events_since_app w w' evs :
  trace w' = (trace w ++ evs)%list -> events_since w w' = evs.
Proof. unfold events_since. intros ->. apply drop_app_length. Qed.








(** C2, as the code has it. For an install over an existing
    installation of the same model whose prompt the user declines:
    the run exits with status 1 after the one question, and the file
    system is as the identification of the reference left it.  Every
    model directory and every archive is unchanged; for a local-file
    or URL reference nothing at all has been written; for a bare-name
    reference the completion word list of the available models is the
    one file that can differ, since it is refreshed before the
    prompt. *)
Theorem install_declined
    E args w url local mlmfile model version w1 d c line rest :
  let path := join (MLINIT E) model in
  identify E args w = (Return (url, local, mlmfile, model, version), w1) ->
  path_exists (fs w1) path = true ->
  fs w1 !! norm (join path (DESC_YAML E)) = Some (File (Yaml d)) ->
  compare (meta_version d) version = inr c ->
  stdin w1 = line :: rest ->
  answers_yes E line = false ->
  exists w',
    install_model E args w = (SysExit 1, w')
    /\ trace w' =
       (trace w1 ++ [YesOrNo (question_of c model (meta_version d) version)])%list
    /\ fs w' = fs w1
    /\ (path_exists (fs w) (MLINIT E) = true ->
        (forall k, k <> norm (COMPLETION_MODELS E) -> fs w' !! k = fs w !! k)
        /\ (is_local_or_url E args = true -> fs w' = fs w)).
Proof.
  intros path Hid Hex Hd Hc Hin Hno.
  rewrite (install_model_identified _ _ _ _ _ Hid).
  unfold install_identified. fold path. unfold bind at 1.
  rewrite check_installed_cases. fold path. rewrite Hex, Hd, Hc.
  cbv zeta. rewrite Hin, Hno.
  eexists. split; [reflexivity|]. cbn [fs trace with_trace].
  split; [reflexivity|]. split; [reflexivity|].
  intros Hroot.
  destruct (identify_spec _ _ _ _ _ Hid) as (_ & _ & Hfs). exact (Hfs Hroot).
Qed.


Lemma install_declined_witness :
  exists w',
    install_model Demo.offline local_args
      (Demo.world (Demo.installed "1.2.0") ["n"] "") = (SysExit 1, w')
    /\ fs w' = Demo.installed "1.2.0".
Proof.
  assert (Hid : identify Demo.offline local_args
                  (Demo.world (Demo.installed "1.2.0") ["n"] "")
                = (Return (None, "/tmp/rain_1.1.0.mlm", "rain_1.1.0.mlm",
                           "rain", "1.1.0"),
                   Demo.world (Demo.installed "1.2.0") ["n"] ""))
    by (vm_compute; reflexivity).
  destruct (install_declined _ _ _ _ _ _ _ _ _
              (Demo.description "1.2.0") Gt "n" [] Hid)
    as (w' & Hrun & _ & Hfs & _); try (vm_compute; reflexivity).
  exists w'. split; [exact Hrun | exact Hfs].
Defined.

(** C2, as the specification states it, fails: [rain] is installed,
    the bare name [rain] is installed again, and the user declines the
    "replace" question.  The run exits with status 1, and the file
    system has changed: the completion list of the available models,
    which was not there, has been written. *)
Lemma decline_after_completion_update :
  fst (install_model Demo.offline name_args
         (Demo.world (Demo.installed "1.0.0") ["n"] "")) = SysExit 1
  /\ Demo.installed "1.0.0" !! "/home/user/.mlhub/.completion_models" = None
  /\ fs (snd (install_model Demo.offline name_args
                (Demo.world (Demo.installed "1.0.0") ["n"] "")))
       !! "/home/user/.mlhub/.completion_models"
     = Some (File (Words ["rain"])).
Proof. repeat split; vm_compute; reflexivity. Qed.



Lemma download_failures_witness :
  fst (install_model not_found url_args (Demo.world ∅ [] ""))
  = Raise (ModelURLAccessException Demo.rain_url).
Proof.
  assert (Hid : identify not_found url_args (Demo.world ∅ [] "")
                = (Return (Some Demo.rain_url,
                           "/home/user/.mlhub/rain_1.0.0.mlm",
                           "rain_1.0.0.mlm", "rain", "1.0.0"),
                   Demo.world (<["/home/user/.mlhub" := Directory]> ∅) [] ""))
    by (vm_compute; reflexivity).
  assert (Hchk : check_installed not_found "rain" "1.0.0"
                   (join (MLINIT not_found) "rain")
                   (Demo.world (<["/home/user/.mlhub" := Directory]> ∅) [] "")
                 = (Return tt,
                    Demo.world (<["/home/user/.mlhub" := Directory]> ∅) [] ""))
    by (vm_compute; reflexivity).
  destruct (download_failures _ _ _ _ _ _ _ _ _ _ Hid Hchk) as (Hprobe & _).
  apply (Hprobe 404%Z None); [reflexivity | discriminate].
Defined.

(** C6, as the specification states it, fails: the probe is accepted,
    the transfer fails below HTTP (the connection is reset), and the
    run ends in [URLError], not in [ModelDownloadHaltException]. *)
Lemma transfer_failure_passes_through :
  fst (install_model
         (Demo.env (Response 200 (Some 1024%Z))
            (URLFailure "connection reset by peer") (0%Z, ""))
         url_args (Demo.world ∅ [] ""))
  = Raise (URLError "connection reset by peer").
Proof. vm_compute. reflexivity. Qed.


End InstallFacts.

(** ** The order of versions *)

Module OrderFacts.

Import StrictVersion VersionNotions OrderNotions VersionFacts.

Lemma N_of_ascii_inj c c' : N_of_ascii c = N_of_ascii c' -> c = c'.
Proof.
  intros H. rewrite <- (ascii_N_embedding c), <- (ascii_N_embedding c').
  now rewrite H.
Qed.

Lemma cmp_version_compare v w :
  _cmp v w
  = match version_compare v w with Lt => (-1)%Z | Eq => 0%Z | Gt => 1%Z end.
Proof.
  destruct v as [x p], w as [y q].
  pose proof (cmp_release x y) as Hr.
  unfold _cmp in *. simpl in *. unfold version_compare; simpl.
  destruct (tuple_eqb x y) eqn:Hxy; simpl in *.
  - destruct (triple_compare x y); try discriminate. simpl.
    destruct p as [[c n]|], q as [[c' n']|]; simpl; try reflexivity.
    unfold pre_eqb, pre_lt; simpl.
    destruct (Ascii.eqb_spec c c') as [->|Hc]; simpl.
    + rewrite N.compare_refl.
      destruct (N.compare_spec n n'); subst; rewrite ?N.eqb_refl; simpl;
        repeat match goal with
          | |- context [(?a =? ?b)%N] => destruct (N.eqb_spec a b); try lia; simpl
          | |- context [(?a <? ?b)%N] => destruct (N.ltb_spec a b); try lia; simpl
          end; reflexivity.
    + assert (N_of_ascii c <> N_of_ascii c')
        by (intros H; apply Hc, N_of_ascii_inj, H).
      destruct (N.compare_spec (N_of_ascii c) (N_of_ascii c')); try contradiction;
        destruct (N.ltb_spec (N_of_ascii c) (N_of_ascii c')); try lia;
        reflexivity.
  - destruct (triple_compare x y); simpl;
      destruct (tuple_lt x y); try discriminate; reflexivity.
Qed.

(** The comparison of the installer, on the parsed versions. *)
Lemma compare_parsed a b v w :
  parse a = Some v -> parse b = Some w ->
  compare a b = inr (version_compare v w).
Proof.
  intros Ha Hb. unfold compare, new_StrictVersion. rewrite Ha, Hb.
  unfold gt, eq. rewrite cmp_version_compare.
  destruct (version_compare v w); reflexivity.
Qed.

Lemma compare_inv a b c :
  compare a b = inr c ->
  exists v w, parse a = Some v /\ parse b = Some w /\ c = version_compare v w.
Proof.
  intros H.
  destruct (parse a) as [v|] eqn:Ha;
    [|unfold compare, new_StrictVersion in H; now rewrite Ha in H].
  destruct (parse b) as [w|] eqn:Hb;
    [|unfold compare, new_StrictVersion in H; now rewrite Ha, Hb in H].
  rewrite (compare_parsed _ _ _ _ Ha Hb) in H.
  injection H as <-. eauto.
Qed.

Lemma ordering_N : ordering N.compare.
Proof.
  split.
  - intros. apply N.compare_antisym.
  - intros x y z r H <-. apply N.compare_eq in H. now subst.
  - intros x y z. rewrite !N.compare_lt_iff. lia.
Qed.

Lemma ordering_refl {A} (cmp : A -> A -> comparison) x :
  ordering cmp -> cmp x x = Eq.
Proof.
  intros O. pose proof (ord_opp _ O x x) as H.
  destruct (cmp x x); simpl in H; congruence.
Qed.

Lemma ordering_eq_r {A} (cmp : A -> A -> comparison) x y z r :
  ordering cmp -> cmp x y = r -> cmp y z = Eq -> cmp x z = r.
Proof.
  intros O H1 H2.
  assert (H3 : cmp z y = Eq) by (rewrite (ord_opp _ O y z), H2; reflexivity).
  pose proof (ord_eq _ O z y x _ H3 eq_refl) as H4.
  rewrite (ord_opp _ O x y), H1 in H4.
  rewrite (ord_opp _ O z x), H4. now destruct r.
Qed.

Lemma ordering_gt {A} (cmp : A -> A -> comparison) x y z :
  ordering cmp -> cmp x y = Gt -> cmp y z = Gt -> cmp x z = Gt.
Proof.
  intros O H1 H2.
  assert (H3 : cmp z y = Lt) by (rewrite (ord_opp _ O y z), H2; reflexivity).
  assert (H4 : cmp y x = Lt) by (rewrite (ord_opp _ O x y), H1; reflexivity).
  rewrite (ord_opp _ O z x), (ord_lt _ O _ _ _ H3 H4). reflexivity.
Qed.

Lemma ordering_lex {A B} (c1 : A -> A -> comparison)
    (c2 : B -> B -> comparison) :
  ordering c1 -> ordering c2 ->
  ordering (fun x y : A * B => lex (c1 x.1 y.1) (c2 x.2 y.2)).
Proof.
  intros O1 O2. split.
  - intros [x1 x2] [y1 y2]; simpl.
    rewrite (ord_opp _ O1 x1 y1), (ord_opp _ O2 x2 y2).
    now destruct (c1 x1 y1).
  - intros [x1 x2] [y1 y2] [z1 z2] r; simpl. intros H1 H2.
    destruct (c1 x1 y1) eqn:E1; simpl in H1; try discriminate.
    rewrite (ord_eq _ O1 _ _ _ _ E1 eq_refl).
    destruct (c1 y1 z1); simpl in *; auto.
    eapply (ord_eq _ O2); eauto.
  - intros [x1 x2] [y1 y2] [z1 z2]; simpl. intros H1 H2.
    destruct (c1 x1 y1) eqn:E1; simpl in H1; try discriminate.
    + rewrite (ord_eq _ O1 _ _ _ _ E1 eq_refl).
      destruct (c1 y1 z1); simpl in *; try discriminate; auto.
      eapply (ord_lt _ O2); eauto.
    + destruct (c1 y1 z1) eqn:E2; simpl in H2; try discriminate.
      * now rewrite (ordering_eq_r _ _ _ _ _ O1 E1 E2).
      * now rewrite (ord_lt _ O1 _ _ _ E1 E2).
Qed.

Lemma ordering_map {A B} (f : A -> B) (cmp : B -> B -> comparison) :
  ordering cmp -> ordering (fun x y => cmp (f x) (f y)).
Proof.
  intros O. split; intros.
  - apply (ord_opp _ O).
  - eapply (ord_eq _ O); eauto.
  - eapply (ord_lt _ O); eauto.
Qed.

Lemma ordering_ext {A} (c1 c2 : A -> A -> comparison) :
  (forall x y, c1 x y = c2 x y) -> ordering c1 -> ordering c2.
Proof.
  intros E O. split; intros; rewrite <- ?E in *.
  - apply (ord_opp _ O).
  - eapply (ord_eq _ O); eauto.
  - eapply (ord_lt _ O); eauto.
Qed.

Lemma ordering_triple : ordering triple_compare.
Proof.
  eapply ordering_ext;
    [|exact (ordering_lex _ _ (ordering_lex _ _ ordering_N ordering_N)
               ordering_N)].
  intros [[x1 x2] x3] [[y1 y2] y3]; simpl.
  destruct (x1 ?= y1)%N, (x2 ?= y2)%N; reflexivity.
Qed.

Lemma ordering_version : ordering version_compare.
Proof.
  eapply ordering_ext;
    [|exact (ordering_map (fun v => (version v, tag_key (prerelease v))) _
               (ordering_lex _ _ ordering_triple ordering_triple))].
  intros v w. reflexivity.
Qed.


Lemma tail_group pre eol :
  (pre = "" \/
   exists c dn, (c = "a"%char \/ c = "b"%char) /\ is_number dn = true /\
                pre = String c dn) ->
  (eol = "" \/ eol = nl) ->
  prerelease_group (pre ++ eol) = (tag_value pre, eol).
Proof.
  intros [->|(c & dn & Hc & Hn & ->)] He.
  - rewrite append_nil_l. now apply prerelease_group_eol.
  - rewrite append_cons. now apply prerelease_group_tag.
Qed.

(** What a string of the accepted shape parses to. *)
Lemma parse_shape d1 d2 patch pre eol :
  is_number d1 = true -> is_number d2 = true ->
  (patch = "" \/ exists d3, is_number d3 = true /\ patch = "." ++ d3) ->
  (pre = "" \/
   exists c dn, (c = "a"%char \/ c = "b"%char) /\ is_number dn = true /\
                pre = String c dn) ->
  (eol = "" \/ eol = nl) ->
  parse (d1 ++ "." ++ d2 ++ patch ++ pre ++ eol)
  = Some {| version := (int d1, int d2, patch_value patch);
            prerelease := tag_value pre |}.
Proof.
  intros N1 N2 Hp Hpre He.
  apply is_number_inv in N1 as [A1 E1].
  apply is_number_inv in N2 as [A2 E2].
  assert (Ht : is_tail (pre ++ eol)) by (exists pre, eol; auto).
  pose proof (tail_group _ _ Hpre He) as Hg.
  unfold parse.
  rewrite (span_digits_app d1 _ A1 (dot_no_digit _)), E1.
  rewrite append_cons, append_nil_l. cbv iota beta.
  destruct Hp as [->|(d3 & N3 & ->)].
  - rewrite append_nil_l.
    rewrite (span_digits_app d2 _ A2 (tail_no_digit _ Ht)), E2.
    rewrite (patch_group_tail _ Ht), Hg, (eol_at_end _ He). reflexivity.
  - apply is_number_inv in N3 as [A3 E3].
    rewrite append_assoc, append_cons, append_nil_l.
    rewrite (span_digits_app d2 (String "." _) A2 eq_refl), E2.
    unfold patch_group.
    rewrite (span_digits_app d3 _ A3 (tail_no_digit _ Ht)), E3.
    rewrite Hg, (eol_at_end _ He), E3. reflexivity.
Qed.

Lemma parse_release s :
  release_string s ->
  exists x, parse s = Some {| version := x; prerelease := None |}
    /\ (forall c dn, c = "a"%char \/ c = "b"%char -> is_number dn = true ->
          parse (s ++ String c dn)
          = Some {| version := x; prerelease := Some (c, int dn) |}).
Proof.
  intros (d1 & d2 & patch & N1 & N2 & Hp & ->).
  exists (int d1, int d2, patch_value patch). split.
  - pose proof (parse_shape d1 d2 patch "" "" N1 N2 Hp) as H.
    rewrite !append_nil_r in H. apply H; auto.
  - intros c dn Hc Hn.
    pose proof (parse_shape d1 d2 patch (String c dn) "" N1 N2 Hp) as H.
    rewrite !append_nil_r in H. rewrite !append_assoc.
    apply H; auto. right. exists c, dn. auto.
Qed.

(** X1. The comparison of [install_model] is symmetric in the right
    way: whenever two version strings are compared, comparing them the
    other way round gives the opposite result (a downgrade one way is an
    upgrade the other way, a replacement stays one), and each string
    compared with itself is a replacement. *)
Theorem compare_converse a b c :
  compare a b = inr c ->
  compare b a = inr (CompOpp c)
  /\ compare a a = inr EQUAL
  /\ compare b b = inr EQUAL.
Proof.
  intros H. destruct (compare_inv _ _ _ H) as (v & w & Ha & Hb & ->).
  rewrite (compare_parsed _ _ _ _ Hb Ha), (compare_parsed _ _ _ _ Ha Ha),
    (compare_parsed _ _ _ _ Hb Hb).
  rewrite (ord_opp _ ordering_version v w),
    !(ordering_refl _ _ ordering_version).
  auto.
Qed.

Lemma compare_converse_witness :
  compare "1.2.0a1" "1.2" = inr LESS
  /\ compare "1.2" "1.2.0a1" = inr GREATER.
Proof.
  assert (H : compare "1.2.0a1" "1.2" = inr LESS) by (vm_compute; reflexivity).
  split; [exact H|].
  exact (proj1 (compare_converse _ _ _ H)).
Defined.

(** X2. The comparison of [install_model] is transitive: results chain
    over three version strings.  Two upgrades make an upgrade, two
    downgrades a downgrade, and a replacement on either side leaves the
    other result as it is. *)
Theorem compare_transitive a b c r s :
  compare a b = inr r -> compare b c = inr s ->
  (r = s -> compare a c = inr r)
  /\ (r = EQUAL -> compare a c = inr s)
  /\ (s = EQUAL -> compare a c = inr r).
Proof.
  intros H1 H2.
  destruct (compare_inv _ _ _ H1) as (u & v & Ha & Hb & ->).
  destruct (compare_inv _ _ _ H2) as (v' & w & Hb' & Hc & ->).
  assert (v' = v) by congruence. subst v'.
  rewrite (compare_parsed _ _ _ _ Ha Hc).
  pose proof ordering_version as O.
  repeat split.
  - intros E. f_equal.
    destruct (version_compare u v) eqn:E1.
    + rewrite (ord_eq _ O _ _ _ _ E1 eq_refl). congruence.
    + symmetry in E. apply (ord_lt _ O _ _ _ E1 E).
    + symmetry in E. apply (ordering_gt _ _ _ _ O E1 E).
  - intros E. f_equal. apply (ord_eq _ O _ _ _ _ E eq_refl).
  - intros E. f_equal. apply (ordering_eq_r _ _ _ _ _ O eq_refl E).
Qed.

Lemma compare_transitive_witness :
  compare "0.9" "1.0b2" = inr LESS
  /\ compare "1.0b2" "1.0" = inr LESS
  /\ compare "0.9" "1.0" = inr LESS.
Proof.
  assert (H1 : compare "0.9" "1.0b2" = inr LESS) by (vm_compute; reflexivity).
  assert (H2 : compare "1.0b2" "1.0" = inr LESS) by (vm_compute; reflexivity).
  split; [exact H1|]. split; [exact H2|].
  exact (proj1 (compare_transitive _ _ _ _ _ H1 H2) eq_refl).
Defined.

(** X3. Pre-releases come before their release.  For a release string
    MAJOR.MINOR or MAJOR.MINOR.PATCH and a tag [a] or [b] with a number,
    the tagged string is older than the release itself (installing the
    release over it is an upgrade, the other way round a downgrade), and
    every [a] tag of the release is older than every [b] tag, whatever
    their numbers. *)
Theorem prerelease_precedes_release s c dn :
  release_string s -> c = "a"%char \/ c = "b"%char -> is_number dn = true ->
  compare (s ++ String c dn) s = inr LESS
  /\ compare s (s ++ String c dn) = inr GREATER
  /\ (forall dm, is_number dm = true ->
        compare (s ++ String "a" dn) (s ++ String "b" dm) = inr LESS).
Proof.
  intros Hs Hc Hn. destruct (parse_release _ Hs) as (x & Hx & Ht).
  pose proof (ordering_refl _ x ordering_triple) as Hxx.
  repeat split.
  - rewrite (compare_parsed _ _ _ _ (Ht c dn Hc Hn) Hx).
    unfold version_compare; simpl. now rewrite Hxx.
  - rewrite (compare_parsed _ _ _ _ Hx (Ht c dn Hc Hn)).
    unfold version_compare; simpl. now rewrite Hxx.
  - intros dm Hm.
    rewrite (compare_parsed _ _ _ _ (Ht "a"%char dn (or_introl eq_refl) Hn)
               (Ht "b"%char dm (or_intror eq_refl) Hm)).
    unfold version_compare; simpl. now rewrite Hxx.
Qed.

Lemma prerelease_precedes_release_witness :
  compare "2.1.0b3" "2.1.0" = inr LESS
  /\ compare "2.1.0a7" "2.1.0b3" = inr LESS.
Proof.
  assert (Hs : release_string "2.1.0").
  { exists "2", "1", ".0". repeat split; try reflexivity.
    right. exists "0". split; reflexivity. }
  split.
  - exact (proj1 (prerelease_precedes_release "2.1.0" "b" "3" Hs
                    (or_intror eq_refl) eq_refl)).
  - exact (proj2 (proj2 (prerelease_precedes_release "2.1.0" "b" "7" Hs
                           (or_intror eq_refl) eq_refl)) "3" eq_refl).
Defined.

(** X4. Version strings that differ and are the same version: the
    installer asks the Replace question for MAJOR.MINOR against
    MAJOR.MINOR.0, for a string with a leading zero against the string
    without it, and for a string with a final newline against the string
    without it. *)
Theorem equal_versions_differ d1 d2 :
  is_number d1 = true -> is_number d2 = true ->
  compare (d1 ++ "." ++ d2) (d1 ++ "." ++ d2 ++ ".0") = inr EQUAL
  /\ compare ("0" ++ d1 ++ "." ++ d2) (d1 ++ "." ++ d2) = inr EQUAL
  /\ compare (d1 ++ "." ++ d2 ++ nl) (d1 ++ "." ++ d2) = inr EQUAL.
Proof.
  intros N1 N2.
  assert (N0 : is_number ("0" ++ d1) = true).
  { apply is_number_inv in N1 as [A1 _]. unfold is_number.
    rewrite append_cons, append_nil_l. simpl. now rewrite A1. }
  pose proof (parse_shape d1 d2 "" "" "" N1 N2 (or_introl eq_refl)
                (or_introl eq_refl) (or_introl eq_refl)) as P1.
  pose proof (parse_shape d1 d2 ".0" "" "" N1 N2
                (or_intror (ex_intro _ "0" (conj eq_refl eq_refl)))
                (or_introl eq_refl) (or_introl eq_refl)) as P2.
  pose proof (parse_shape ("0" ++ d1) d2 "" "" "" N0 N2 (or_introl eq_refl)
                (or_introl eq_refl) (or_introl eq_refl)) as P3.
  pose proof (parse_shape d1 d2 "" "" nl N1 N2 (or_introl eq_refl)
                (or_introl eq_refl) (or_intror eq_refl)) as P4.
  rewrite ?append_nil_l, ?append_nil_r, ?append_assoc in P1.
  rewrite ?append_nil_l, ?append_nil_r, ?append_assoc in P2.
  rewrite ?append_nil_l, ?append_nil_r, ?append_assoc in P3.
  rewrite ?append_nil_l, ?append_nil_r, ?append_assoc in P4.
  rewrite ?append_assoc.
  rewrite (compare_parsed _ _ _ _ P1 P2), (compare_parsed _ _ _ _ P3 P1),
    (compare_parsed _ _ _ _ P4 P1).
  unfold version_compare; cbn [version prerelease].
  change (int ("0" ++ d1)) with (int d1).
  change (patch_value ".0") with (patch_value "").
  rewrite !(ordering_refl _ _ ordering_triple). auto.
Qed.

Lemma equal_versions_differ_witness :
  compare "1.2" "1.2.0" = inr EQUAL
  /\ compare "01.2" "1.2" = inr EQUAL.
Proof.
  pose proof (equal_versions_differ "1" "2" eq_refl eq_refl) as (H1 & H2 & _).
  split; [exact H1 | exact H2].
Defined.

End OrderFacts.

(** ** remove_model and remove_mlm *)

Module RemoveFacts.

Import RunNotions RemoveNotions CommandFacts.

Lemma filter_under (f : gmap string node) path k :
  filter (fun kv : string * node => negb (under path kv.1)) f !! k
  = if under path k then None else f !! k.
Proof.
  destruct (under path k) eqn:Hu.
  - apply map_lookup_filter_None. right. intros x _. simpl. now rewrite Hu.
  - destruct (f !! k) as [x|] eqn:Hk.
    + apply map_lookup_filter_Some. split; [exact Hk|]. simpl. now rewrite Hu.
    + apply map_lookup_filter_None. now left.
Qed.


(** X6. A confirmed removal.  When the tree [remove_model] asks about
    is a directory and the line read is [y] or [Y], the command
    returns, having written its question and read that one line: the
    directory and everything below it are gone, and every other node is
    as it was. *)
Theorem remove_model_confirmed E args w line rest :
  let path := remove_target E args in
  path <> "" ->
  fs w !! norm path = Some Directory ->
  stdin w = line :: rest ->
  lower line = "y" ->
  exists w',
    remove_model E args w = (Return tt, w')
    /\ (forall k, fs w' !! k = if under path k then None else fs w !! k)
    /\ stdin w' = rest
    /\ trace w'
       = (trace w ++ [Write (remove_prompt E args); Rmtree path])%list.
Proof.
  intros path Hne Hdir Hin Hy.
  assert (Hex : path_exists (fs w) path = true).
  { unfold path_exists. rewrite Hdir.
    destruct (String.eqb_spec path ""); [contradiction|reflexivity]. }
  revert Hne Hdir Hex. unfold path, remove_target, remove_prompt, remove_model.
  destruct args as [[model|] quiet]; simpl; intros Hne Hdir Hex.
  - munfold. rewrite Hex. simpl. rewrite Hin. simpl. rewrite Hy. simpl.
    rewrite Hdir. eexists. split; [reflexivity|]. simpl.
    split; [intros k; apply filter_under|]. rewrite <- app_assoc. auto.
  - munfold. rewrite Hex. simpl. rewrite Hin. simpl. rewrite Hy. simpl.
    rewrite Hdir. eexists. split; [reflexivity|]. simpl.
    split; [intros k; apply filter_under|]. rewrite <- app_assoc. auto.
Qed.

Lemma remove_model_confirmed_witness :
  exists w',
    remove_model Demo.offline (mkRemoveArgs (Some "rain") false)
      (Demo.world (Demo.installed "1.0.0") ["Y"] "") = (Return tt, w')
    /\ fs w' !! "/home/user/.mlhub/rain/demo.R" = None
    /\ fs w' !! "/home/user/.mlhub/tools/demo.sh" = Some (File (Bytes "demo")).
Proof.
  destruct (remove_model_confirmed Demo.offline
              (mkRemoveArgs (Some "rain") false)
              (Demo.world (Demo.installed "1.0.0") ["Y"] "") "Y" [])
    as (w' & Hrun & Hfs & _).
  - discriminate.
  - vm_compute. reflexivity.
  - reflexivity.
  - reflexivity.
  - exists w'. split; [exact Hrun|].
    rewrite !Hfs. split; vm_compute; reflexivity.
Defined.

(** ** remove_mlm *)

Lemma endswith_cons c s p :
  endswith (String c s) p = String.eqb (String c s) p || endswith s p.
Proof. reflexivity. Qed.

Lemma norm_fixed p : endswith p "/" = false -> norm p = p.
Proof.
  induction p as [|c p IH]; [reflexivity|].
  rewrite endswith_cons. intros H. apply orb_false_iff in H as [H1 H2].
  cbn [norm]. rewrite (IH H2). destruct p as [|c' p]; [|reflexivity].
  destruct (Ascii.eqb_spec c "/") as [->|]; [discriminate|reflexivity].
Qed.

Lemma endswith_slash_in s : endswith s "/" = true -> str_in "/" s = true.
Proof.
  induction s as [|c s IH]; [discriminate|].
  rewrite endswith_cons. intros H. apply orb_true_iff in H as [H|H].
  - apply String.eqb_eq in H. injection H as -> ->. reflexivity.
  - cbn [str_in]. rewrite (IH H). apply orb_true_r.
Qed.

Lemma endswith_app a b :
  b <> "" -> endswith (a ++ b) "/" = endswith b "/".
Proof.
  intros Hb. induction a as [|c a IH]; [reflexivity|].
  rewrite VersionFacts.append_cons, endswith_cons, IH.
  destruct (String.eqb_spec (String c (a ++ b)) "/") as [H|]; [|reflexivity].
  injection H as _ H. destruct a; [now destruct Hb | discriminate].
Qed.

Lemma prefix_drop p k :
  String.prefix p k = true -> k = p ++ drop_chars (String.length p) k.
Proof.
  revert k. induction p as [|c p IH]; intros k; [reflexivity|].
  destruct k as [|c' k]; [discriminate|]. cbn [String.prefix].
  destruct (ascii_dec c c') as [->|]; [|discriminate].
  intros H. rewrite VersionFacts.append_cons. cbn [String.length drop_chars].
  f_equal. now apply IH.
Qed.

Lemma mlm_entry_norm E k : is_mlm_entry E k = true -> norm k = k.
Proof.
  unfold is_mlm_entry. intros H.
  apply andb_true_iff in H as [Hp H].
  apply andb_true_iff in H as [H _].
  apply andb_true_iff in H as [Hs He].
  apply norm_fixed. rewrite (prefix_drop _ _ Hp).
  set (name := drop_chars _ k) in *.
  assert (name <> "") by (intros ->; discriminate).
  rewrite endswith_app by assumption.
  destruct (endswith name "/") eqn:E1; [|reflexivity].
  apply endswith_slash_in in E1. now rewrite E1 in Hs.
Qed.


Lemma glob_mlm_elem E f m :
  m ∈ glob_mlm E f -> is_mlm_entry E m = true /\ is_Some (f !! m).
Proof.
  unfold glob_mlm. destruct (f !! norm (MLINIT E)) as [[]|];
    try (intros H; now apply elem_of_nil in H).
  rewrite merge_sort_Permutation, list_elem_of_In, filter_In,
    <- list_elem_of_In.
  intros [H1 H2]. split; [exact H2|].
  apply list_elem_of_fmap in H1 as ([k x] & -> & H1).
  apply elem_of_map_to_list in H1. simpl. eauto.
Qed.

Lemma glob_mlm_NoDup E f : NoDup (glob_mlm E f).
Proof.
  unfold glob_mlm. destruct (f !! norm (MLINIT E)) as [[]|];
    try apply NoDup_nil_2.
  rewrite merge_sort_Permutation.
  apply NoDup_ListNoDup, List.NoDup_filter, NoDup_ListNoDup,
    NoDup_fst_map_to_list.
Qed.

Lemma glob_mlm_norm E f : Forall (fun m => norm m = m) (glob_mlm E f).
Proof.
  apply Forall_forall. intros m Hm.
  apply (mlm_entry_norm E), (glob_mlm_elem E f m Hm).
Qed.

(** What the loop of [remove_mlm] leaves of a node. *)
Lemma remove_mlm_loop_frame ms :
  Forall (fun m => norm m = m) ms ->
  forall w o w', remove_mlm_loop ms w = (o, w') ->
  forall k,
    fs w' !! k = fs w !! k
    \/ (k ∈ ms /\ (exists d, fs w !! k = Some (File d)) /\ fs w' !! k = None).
Proof.
  induction ms as [|m ms IH]; intros Hn w o w' H k.
  - injection H as <- <-. now left.
  - apply Forall_cons in Hn as [Hm Hn].
    cbn [remove_mlm_loop] in H. revert H. munfold. rewrite Hm. intros H.
    crush; try (now left);
      match goal with
      | H : remove_mlm_loop ms ?w1 = _ |- _ =>
          destruct (IH Hn _ _ _ H k) as [Hk|(Hin & [d0 Hd] & Hk)]; simpl in *
      end.
    all: try (destruct (decide (k = m)) as [->|Hne]).
    all: rewrite ?lookup_delete_eq, ?lookup_delete_ne in * by auto.
    all: try discriminate.
    all: try (now left).
    all: right; split;
      [first [apply list_elem_of_here | now apply list_elem_of_further]|];
      eauto.
Qed.

(** X7. Whatever is answered, [remove_mlm] never adds or alters a node
    and never deletes a directory: a node that is not as it was is a
    file directly in the package root whose name ends in [.mlm], and it
    is gone. *)
Theorem remove_mlm_only_archives E w k :
  let w' := snd (remove_mlm E w) in
  fs w' !! k = fs w !! k
  \/ (is_mlm_entry E k = true
      /\ (exists d, fs w !! k = Some (File d))
      /\ fs w' !! k = None).
Proof.
  destruct (remove_mlm E w) as [o w'] eqn:H. simpl.
  unfold remove_mlm, bind, get_fs in H.
  destruct (remove_mlm_loop_frame _ (glob_mlm_norm E (fs w)) _ _ _ H k)
    as [Hk|(Hin & Hd & Hk)]; [now left|].
  right. split; [|auto]. apply (glob_mlm_elem E (fs w) k Hin).
Qed.


(** The loop of [remove_mlm] over distinct files. *)
Lemma remove_mlm_loop_run ms :
  Forall (fun m => norm m = m) ms -> NoDup ms ->
  forall w,
    (forall m, m ∈ ms -> exists d, fs w !! m = Some (File d)) ->
    exists w',
      remove_mlm_loop ms w
      = (if bool_decide (List.length ms <= List.length (stdin w))
         then Return tt else Raise EOFError, w')
      /\ stdin w' = drop (List.length ms) (stdin w)
      /\ trace w' = (trace w ++ asked ms (stdin w))%list
      /\ forall k,
           fs w' !! k
           = if bool_decide (k ∈ confirmed ms (stdin w)) then None
             else fs w !! k.
Proof.
  induction ms as [|m ms IH]; intros Hn Hd w Hf.
  - exists w. cbn. rewrite app_nil_r.
    rewrite bool_decide_eq_true_2 by lia.
    repeat split; auto.
  - apply Forall_cons in Hn as [Hm Hn].
    apply NoDup_cons in Hd as [Hnotin Hd].
    destruct (Hf m (list_elem_of_here _ _)) as [d Hmd].
    destruct w as [f [|a answers] disp cwd tr]; simpl in *.
    + eexists. cbn [remove_mlm_loop]. munfold. simpl.
      split; [reflexivity|]. simpl. auto.
    + cbn [remove_mlm_loop confirmed asked]. munfold. simpl.
      fold (yes_by_default a).
      destruct (yes_by_default a) eqn:Hy; simpl.
      * rewrite Hm, Hmd. simpl.
        destruct (IH Hn Hd
                    {| fs := delete m f; stdin := answers; DISPLAY := disp;
                       getcwd := cwd;
                       trace := (tr ++ [Write (remove_mlm_prompt m)])
                                  ++ [Remove m] |})
          as (w' & Hrun & Hin & Htr & Hfs).
        { simpl. intros m' Hm'. rewrite lookup_delete_ne; [now apply Hf, list_elem_of_further|].
          intros ->. contradiction. }
        simpl in *. exists w'. rewrite Hrun.
        split; [|split; [exact Hin|split]].
        -- rewrite (bool_decide_ext (S (List.length ms) <= S (List.length answers))
                      (List.length ms <= List.length answers)) by lia.
           reflexivity.
        -- rewrite Htr, <- !app_assoc. reflexivity.
        -- intros k. rewrite Hfs.
           destruct (decide (k = m)) as [->|Hne].
           ++ rewrite lookup_delete_eq.
              rewrite (bool_decide_eq_true_2 (m ∈ m :: _))
                by apply list_elem_of_here.
              destruct (bool_decide (m ∈ confirmed ms answers)); reflexivity.
           ++ rewrite lookup_delete_ne by auto.
              apply (f_equal (fun b : bool => if b then None else f !! k)).
              apply bool_decide_ext. rewrite elem_of_cons.
              split; [now right | intros [?|?]; [contradiction|assumption]].
      * destruct (IH Hn Hd
                    {| fs := f; stdin := answers; DISPLAY := disp;
                       getcwd := cwd;
                       trace := tr ++ [Write (remove_mlm_prompt m)] |})
          as (w' & Hrun & Hin & Htr & Hfs).
        { simpl. intros m' Hm'. now apply Hf, list_elem_of_further. }
        simpl in *. exists w'. rewrite Hrun.
        split; [|split; [exact Hin|split]].
        -- rewrite (bool_decide_ext (S (List.length ms) <= S (List.length answers))
                      (List.length ms <= List.length answers)) by lia.
           reflexivity.
        -- rewrite Htr, <- !app_assoc. reflexivity.
        -- exact Hfs.
Qed.

(** X8. The archives [remove_mlm] deletes.  When the entries the
    pattern matches are files, the command asks about them one by one
    in ascending order of their paths and deletes exactly those whose
    line is [y], [Y] or empty.  It returns when there is a line for
    every archive; otherwise it ends in [EOFError] at the first archive
    without a line, and the archives confirmed before stay deleted. *)
Theorem remove_mlm_answers E w :
  let mlm := glob_mlm E (fs w) in
  (forall m, m ∈ mlm -> exists d, fs w !! m = Some (File d)) ->
  Sorted String.le mlm
  /\ exists w',
    remove_mlm E w
    = (if bool_decide (List.length mlm <= List.length (stdin w))
       then Return tt else Raise EOFError, w')
    /\ stdin w' = drop (List.length mlm) (stdin w)
    /\ trace w' = (trace w ++ asked mlm (stdin w))%list
    /\ forall k,
         fs w' !! k
         = if bool_decide (k ∈ confirmed mlm (stdin w)) then None
           else fs w !! k.
Proof.
  intros mlm Hf. split.
  - unfold mlm, glob_mlm. destruct (fs w !! norm (MLINIT E)) as [[]|];
      try apply Sorted_nil.
    apply (Sorted_merge_sort String.le).
  - unfold remove_mlm, bind, get_fs.
    apply (remove_mlm_loop_run _ (glob_mlm_norm E (fs w))
             (glob_mlm_NoDup E (fs w)) w Hf).
Qed.


Lemma remove_mlm_answers_witness :
  exists w',
    remove_mlm Demo.offline
      (Demo.world
         (<["/home/user/.mlhub/a.mlm" := File (Bytes "")]>
            (Demo.installed "1.0.0")) ["n"; ""] "") = (Return tt, w')
    /\ fs w' !! "/home/user/.mlhub/a.mlm" = Some (File (Bytes ""))
    /\ fs w' !! "/home/user/.mlhub/rain_1.0.0.mlm" = None.
Proof.
  set (f := <["/home/user/.mlhub/a.mlm" := File (Bytes "")]>
              (Demo.installed "1.0.0")).
  assert (Hg : glob_mlm Demo.offline f
               = ["/home/user/.mlhub/a.mlm";
                  "/home/user/.mlhub/rain_1.0.0.mlm"])
    by (vm_compute; reflexivity).
  destruct (remove_mlm_answers Demo.offline (Demo.world f ["n"; ""] ""))
    as (_ & w' & Hrun & _ & _ & Hfs).
  - simpl. rewrite Hg. intros m Hm.
    apply elem_of_cons in Hm as [->|Hm];
      [eexists; vm_compute; reflexivity|].
    apply list_elem_of_singleton in Hm as ->.
    eexists; vm_compute; reflexivity.
  - simpl in Hrun, Hfs. rewrite Hg in Hrun, Hfs.
    exists w'. split; [exact Hrun|].
    rewrite !Hfs. split; vm_compute; reflexivity.
Defined.

End RemoveFacts.

(** ** dispatch: the child process and the display gate *)

Module DispatchFacts.

Import RunNotions DispatchNotions CommandFacts.

Lemma display_gate_cases cmd d w :
  display_gate cmd d w =
  if needs_display cmd d && String.eqb (DISPLAY w) "" then
    match stdin w with
    | [] => (Raise EOFError, with_trace w [Write (display_question cmd)])
    | choice :: rest =>
        if String.eqb (lower choice) "y"
        then (Return tt,
              {| fs := fs w; stdin := rest; DISPLAY := DISPLAY w;
                 getcwd := getcwd w;
                 trace := trace w ++ [Write (display_question cmd)] |})
        else (SysExit 1,
              {| fs := fs w; stdin := rest; DISPLAY := DISPLAY w;
                 getcwd := getcwd w;
                 trace := trace w ++ [Write (display_question cmd);
                                      Write display_help] |})
    end
  else (Return tt, w).
Proof.
  unfold display_gate, needs_display, with_trace. munfold.
  destruct (meta_display d) as [cmds|]; [|reflexivity].
  destruct (bool_decide (cmd ∈ cmds)); [|reflexivity]. cbn.
  destruct (String.eqb (DISPLAY w) ""); [|reflexivity]. cbn.
  destruct (stdin w) as [|choice rest]; [reflexivity|]. cbn.
  destruct (String.eqb (lower choice) "y"); cbn; [reflexivity|].
  rewrite <- app_assoc. reflexivity.
Qed.

Ltac enter_dispatch Hi :=
  unfold dispatch; unfold check_model_installed, load_description;
  unfold bind at 1; unfold bind at 1; unfold get_fs at 1; rewrite Hi.

Ltac load_descriptor Hd :=
  unfold ret at 1; unfold bind at 1; unfold bind at 1;
  unfold get_fs at 1; rewrite Hd.

(** [dispatch], stage by stage. *)
Lemma dispatch_stages E args w :
  dispatch E args w =
  if path_exists (fs w) (MLINIT E ++ dispatch_model args) then
    match fs w !! norm (descriptor_path E (dispatch_model args)) with
    | Some (File (Yaml d)) =>
        match display_gate (dispatch_cmd args) d w with
        | (Return _, w1) => run_command E args d w1
        | (SysExit c, w1) => (SysExit c, w1)
        | (Raise e, w1) => (Raise e, w1)
        | (ErrorExit s, w1) => (ErrorExit s, w1)
        end
    | _ => (Raise (DescriptionNotFound (dispatch_model args)), w)
    end
  else (Raise (ModelNotInstalled (dispatch_model args)), w).
Proof.
  unfold descriptor_path.
  destruct (path_exists (fs w) (MLINIT E ++ dispatch_model args)) eqn:Hi;
    [|enter_dispatch Hi; reflexivity].
  destruct (fs w !! norm (join (join (MLINIT E) (dispatch_model args))
                            (DESC_YAML E))) as [[[s|d|ws]|]|] eqn:Hd;
    try (enter_dispatch Hi; load_descriptor Hd; reflexivity).
  destruct (display_gate (dispatch_cmd args) d w) as [[[]|c|e|s] w1] eqn:Hg;
    [apply (dispatch_reaches_command_check E args w d w1 Hi Hd Hg)| | |];
    enter_dispatch Hi; load_descriptor Hd;
    unfold ret at 1; unfold bind at 1; rewrite Hg; reflexivity.
Qed.

Ltac ev_norm :=
  unfold events_since, with_trace; cbn [trace fs stdin snd];
  rewrite <- ?app_assoc, ?drop_app_length, ?drop_all.

Ltac no_popen :=
  intros ? ? ?;
  repeat match goal with
    | H : _ ∈ [] |- _ => now apply elem_of_nil in H
    | H : _ ∈ _ :: _ |- _ => apply elem_of_cons in H as [H|H]; [discriminate|]
    end.

(** X9. [dispatch] starts a child process only for a command it has
    checked: the model is installed, its descriptor loads, the command
    is among the declared commands, the script exists and has an
    interpreter; the child runs in the model's directory, with the
    command line made of the invocation directory, the interpreter, the
    script and the parameters.  A run that starts no child leaves the
    file system as it was. *)
Theorem dispatch_child_guarded E args w :
  let cmd := dispatch_cmd args in
  let model := dispatch_model args in
  let path := MLINIT E ++ model in
  let w' := snd (dispatch E args w) in
  (forall command cwd,
      Popen command cwd ∈ events_since w w' ->
      exists d interp,
        path_exists (fs w) path = true
        /\ fs w !! norm (descriptor_path E model) = Some (File (Yaml d))
        /\ cmd ∈ commands d
        /\ path_exists (fs w) (join path (script_of cmd d)) = true
        /\ interpreter E (script_of cmd d) = Some interp
        /\ cwd = path
        /\ command
           = command_line (getcwd w) interp (script_of cmd d)
               (dispatch_param args))
  /\ ((forall command cwd, Popen command cwd ∉ events_since w w') ->
      fs w' = fs w).
Proof.
  intros cmd model path w'. unfold w'. rewrite dispatch_stages.
  fold cmd model path.
  destruct (path_exists (fs w) path) eqn:Hi;
    [|ev_norm; split; [no_popen | reflexivity]].
  destruct (fs w !! norm (descriptor_path E model)) as [[[s|d|ws]|]|] eqn:Hd;
    try (ev_norm; split; [no_popen | reflexivity]).
  rewrite display_gate_cases.
  assert (Hrun : forall w1 evs,
             fs w1 = fs w -> getcwd w1 = getcwd w ->
             trace w1 = (trace w ++ evs)%list ->
             Forall (fun e => is_popen e = false) evs ->
             let w' := snd (run_command E args d w1) in
             (forall command cwd,
                 Popen command cwd ∈ events_since w w' ->
                 exists d0 interp,
                   true = true
                   /\ Some (File (Yaml d)) = Some (File (Yaml d0))
                   /\ cmd ∈ commands d0
                   /\ path_exists (fs w) (join path (script_of cmd d0)) = true
                   /\ interpreter E (script_of cmd d0) = Some interp
                   /\ cwd = path
                   /\ command
                      = command_line (getcwd w) interp (script_of cmd d0)
                          (dispatch_param args))
             /\ ((forall command cwd,
                     Popen command cwd ∉ events_since w w') ->
                 fs w' = fs w)).
  { intros w1 evs Hfs Hcwd Htr Hev. unfold run_command.
    fold cmd model path. rewrite Hfs, Hcwd.
    assert (Hno : forall command cwd, Popen command cwd ∉ evs).
    { intros command cwd Hin.
      apply (proj1 (Forall_forall _ _) Hev) in Hin. discriminate. }
    destruct (bool_decide (cmd ∈ commands d)) eqn:Hc; cbn [negb orb];
      [|cbn [snd]; unfold events_since; rewrite Htr, drop_app_length;
        split; [intros ? ? H; now apply Hno in H | auto]].
    apply bool_decide_eq_true_1 in Hc.
    destruct (path_exists (fs w) (join path (script_of cmd d))) eqn:Hs;
      cbn [negb];
      [|cbn [snd]; unfold events_since; rewrite Htr, drop_app_length;
        split; [intros ? ? H; now apply Hno in H | auto]].
    destruct (interpreter E (script_of cmd d)) as [interp|] eqn:Hint;
      [|cbn [snd]; unfold events_since; rewrite Htr, drop_app_length;
        split; [intros ? ? H; now apply Hno in H | auto]].
    destruct (subprocess E _ path (fs w)) as [[rc errors] f'] eqn:Hsub.
    cbn [snd fs]. unfold events_since. cbn [trace].
    rewrite Htr, <- app_assoc, drop_app_length.
    split.
    - intros command cwd Hin. exists d, interp.
      apply elem_of_app in Hin as [Hin|Hin]; [now apply Hno in Hin|].
      apply elem_of_cons in Hin as [Hin|Hin].
      + injection Hin as -> ->. repeat split; auto.
      + exfalso. destruct (rc =? 0)%Z; [destruct (dispatch_quiet args)|];
          repeat match goal with
            | H : _ ∈ [] |- _ => now apply elem_of_nil in H
            | H : _ ∈ _ :: _ |- _ =>
                apply elem_of_cons in H as [H|H]; [discriminate|]
            end.
    - intros Hnone. exfalso. eapply Hnone.
      apply elem_of_app. right. apply list_elem_of_here. }
  destruct (needs_display cmd d && String.eqb (DISPLAY w) "").
  - destruct (stdin w) as [|choice rest];
      [ev_norm; split; [no_popen | reflexivity]|].
    destruct (String.eqb (lower choice) "y");
      [|ev_norm; split; [no_popen | reflexivity]].
    apply (Hrun _ [Write (display_question cmd)]); try reflexivity.
    repeat constructor.
  - apply (Hrun w []); try reflexivity; [|constructor].
    now rewrite app_nil_r.
Qed.


(** X10. The display gate of [dispatch].  For an installed model whose
    descriptor loads: a command that is not listed under [display], or
    any command when [DISPLAY] is set, goes to the command check with
    nothing asked and nothing read.  A command listed under [display]
    with [DISPLAY] unset or empty is asked about: [y] or [Y] lets the
    run go on to the command check; any other line ends the run in
    exit code 1, after the advice on enabling a display, with the file
    system untouched; no line at all ends it in [EOFError]. *)
Theorem dispatch_display_gate E args w d :
  let cmd := dispatch_cmd args in
  let model := dispatch_model args in
  let asked := (trace w ++ [Write (display_question cmd)])%list in
  path_exists (fs w) (MLINIT E ++ model) = true ->
  fs w !! norm (descriptor_path E model) = Some (File (Yaml d)) ->
  (needs_display cmd d = false \/ DISPLAY w <> "" ->
   dispatch E args w = run_command E args d w)
  /\ (needs_display cmd d = true -> DISPLAY w = "" ->
      (stdin w = [] ->
       dispatch E args w
       = (Raise EOFError,
          {| fs := fs w; stdin := []; DISPLAY := ""; getcwd := getcwd w;
             trace := asked |}))
      /\ (forall choice rest,
             stdin w = choice :: rest -> lower choice = "y" ->
             dispatch E args w
             = run_command E args d
                 {| fs := fs w; stdin := rest; DISPLAY := "";
                    getcwd := getcwd w; trace := asked |})
      /\ (forall choice rest,
             stdin w = choice :: rest -> lower choice <> "y" ->
             dispatch E args w
             = (SysExit 1,
                {| fs := fs w; stdin := rest; DISPLAY := "";
                   getcwd := getcwd w;
                   trace := (asked ++ [Write display_help])%list |}))).
Proof.
  intros cmd model asked Hi Hd. unfold asked.
  rewrite dispatch_stages. fold cmd model. rewrite Hi, Hd.
  rewrite display_gate_cases. split.
  - intros [Hn|Hdisp].
    + now rewrite Hn.
    + destruct (String.eqb_spec (DISPLAY w) ""); [contradiction|].
      now rewrite andb_false_r.
  - intros Hn Hdisp. rewrite Hn, Hdisp. cbn [andb String.eqb].
    split; [|split].
    + intros Hin. rewrite Hin. unfold with_trace. now rewrite Hin, Hdisp.
    + intros choice rest Hin Hy. rewrite Hin, Hy. reflexivity.
    + intros choice rest Hin Hy. rewrite Hin.
      destruct (String.eqb_spec (lower choice) "y"); [contradiction|].
      now rewrite <- app_assoc.
Qed.

Lemma dispatch_display_gate_witness :
  dispatch Demo.offline (mkDispatchArgs "display" "rain" [] false)
    (Demo.world (Demo.installed "1.0.0") ["yes"] "")
  = (SysExit 1,
     {| fs := Demo.installed "1.0.0"; stdin := []; DISPLAY := "";
        getcwd := "/home/user";
        trace := [Write (display_question "display"); Write display_help] |}).
Proof.
  pose (E := Demo.offline).
  pose (args := mkDispatchArgs "display" "rain" [] false).
  pose (w := Demo.world (Demo.installed "1.0.0") ["yes"] "").
  assert (Hi : path_exists (fs w) (MLINIT E ++ dispatch_model args) = true)
    by (vm_compute; reflexivity).
  assert (Hd : fs w !! norm (descriptor_path E (dispatch_model args))
               = Some (File (Yaml (Demo.description "1.0.0"))))
    by (vm_compute; reflexivity).
  assert (Hn : needs_display (dispatch_cmd args) (Demo.description "1.0.0")
               = true)
    by (vm_compute; reflexivity).
  destruct (dispatch_display_gate E args w (Demo.description "1.0.0") Hi Hd)
    as (_ & Hgate).
  destruct (Hgate Hn eq_refl) as (_ & _ & Hno).
  apply (Hno "yes" [] eq_refl). discriminate.
Defined.

End DispatchFacts.

(** ** install_model: further properties *)

Module InstallExtras.

Import VersionNotions RunNotions InstallNotions CommandFacts InstallFacts.
Import DispatchNotions.

Lemma identify_local E args w o w1 :
  is_local E args = true ->
  identify E args w = (o, w1) ->
  trace w1 = trace w
  /\ exists local mlmfile model version,
       o = Return (None, local, mlmfile, model, version).
Proof.
  unfold identify, resolve, is_local. munfold. intros Hl H.
  rewrite Hl in H.
  destruct (interpret_mlm_name E (install_model_arg args))
    as [[mlmfile model] version].
  repeat (case_match; simplify_eq/=); eauto 10.
Qed.

Lemma quiet_no_transfer evs :
  Forall quiet_event evs -> Forall (fun e => is_transfer e = false) evs.
Proof. intros H. eapply Forall_impl; [exact H|]. now intros e (_ & He & _). Qed.

(** The run of a local archive once it is identified. *)
Lemma install_identified_local E args local mlmfile model version w1 o w' :
  install_identified E args (None, local, mlmfile, model, version) w1
    = (o, w') ->
  exists evs,
    trace w' = (trace w1 ++ evs)%list
    /\ Forall (fun e => is_transfer e = false) evs
    /\ ~ download_failure o.
Proof.
  unfold install_identified. unfold bind at 1.
  rewrite check_installed_cases.
  set (path := join (MLINIT E) model).
  assert (Hx : forall w2 pre,
             trace w2 = (trace w1 ++ pre)%list ->
             Forall (fun e => is_transfer e = false) pre ->
             bind (ret tt)
               (fun _ => extract E (install_quiet args) local
                           mlmfile model path) w2 = (o, w') ->
             exists evs,
               trace w' = (trace w1 ++ evs)%list
               /\ Forall (fun e => is_transfer e = false) evs
               /\ ~ download_failure o).
  { intros w2 pre Htr Hpre. unfold bind, ret. intros Hrun.
    destruct (extract_spec E (install_quiet args) local mlmfile model path w2)
      as (evs & Hevs & Hq & Hnf).
    rewrite Hrun in Hevs, Hnf. simpl in Hevs, Hnf.
    exists (pre ++ Extractall local (MLINIT E) :: evs)%list.
    rewrite Hevs, Htr, <- app_assoc. split; [reflexivity|].
    split; [|exact Hnf].
    apply Forall_app. split; [exact Hpre|].
    constructor; [reflexivity | now apply quiet_no_transfer]. }
  assert (Hstop : forall e pre w2,
             trace w2 = (trace w1 ++ pre)%list ->
             Forall (fun e => is_transfer e = false) pre ->
             ~ download_failure (A := unit) e ->
             (e, w2) = (o, w') ->
             exists evs,
               trace w' = (trace w1 ++ evs)%list
               /\ Forall (fun e => is_transfer e = false) evs
               /\ ~ download_failure o).
  { intros e pre w2 Htr Hpre Hnf [= <- <-]. eauto. }
  destruct (path_exists (fs w1) path);
    [|apply (Hx w1 []); [now rewrite app_nil_r | constructor]].
  destruct (fs w1 !! norm (join path (DESC_YAML E))) as [[[s|d|ws]|]|];
    try (apply (Hstop _ []); [now rewrite app_nil_r | constructor | exact (fun H => H)]).
  destruct (compare (meta_version d) version) as [e|c] eqn:Hc.
  { destruct (compare_error _ _ _ Hc) as [s ->].
    apply (Hstop _ []); [now rewrite app_nil_r | constructor | exact (fun H => H)]. }
  destruct (stdin w1) as [|line rest];
    [eapply Hstop; [reflexivity | repeat constructor | exact (fun H => H)]|].
  destruct (answers_yes E line);
    [|eapply Hstop; [reflexivity | repeat constructor | exact (fun H => H)]].
  destruct (fs w1 !! norm path) as [[f|]|];
    try (eapply Hstop; [reflexivity | repeat constructor | exact (fun H => H)]).
  eapply Hx; [reflexivity|repeat constructor].
Qed.

(** X11. An install from a local archive stays off the network:
    whatever the state of the package root and whatever is answered,
    the run makes no request to a server, neither the probe nor the
    transfer, and it does not end in a download failure. *)
Theorem local_install_offline E args w :
  is_local E args = true ->
  Forall (fun e => is_transfer e = false)
    (events_since w (snd (install_model E args w)))
  /\ ~ download_failure (fst (install_model E args w)).
Proof.
  intros Hl. rewrite install_model_stages. unfold bind.
  destruct (identify E args w) as [o w1] eqn:Hid.
  destruct (identify_local _ _ _ _ _ Hl Hid)
    as (Htr & local & mlmfile & model & version & ->).
  destruct (install_identified E args _ w1) as [o w'] eqn:Hrun.
  destruct (install_identified_local _ _ _ _ _ _ _ _ _ Hrun)
    as (evs & Hevs & Hno & Hnf).
  rewrite Htr in Hevs. simpl. rewrite (events_since_app _ _ _ Hevs). auto.
Qed.

Lemma local_install_offline_witness :
  Forall (fun e => is_transfer e = false)
    (events_since (Demo.world (Demo.installed "1.0.0") ["y"] "")
       (snd (install_model Demo.offline local_args
               (Demo.world (Demo.installed "1.0.0") ["y"] "")))).
Proof.
  exact (proj1 (local_install_offline Demo.offline local_args
                  (Demo.world (Demo.installed "1.0.0") ["y"] "") eq_refl)).
Defined.


(** Once the check of an installation returns, nothing is installed at
    the path. *)
Lemma check_installed_returns E model version path w1 w2 :
  check_installed E model version path w1 = (Return tt, w2) ->
  path_exists (fs w2) path = false.
Proof.
  rewrite check_installed_cases. intros H.
  destruct (path_exists (fs w1) path) eqn:Hp; [|now injection H as <-].
  repeat (case_match; simplify_eq/=). apply path_gone.
Qed.

(** X12. A probe that is accepted but carries no Content-Length.  For
    an install that reaches the download of [url], a response with the
    status [codes_ok] and no length ends the run in [TypeError] right
    after the probe: nothing is transferred and nothing is extracted,
    and no installation is left at the model's path. *)
Theorem install_without_content_length
    E args w url local mlmfile model version w1 w2 :
  identify E args w = (Return (Some url, local, mlmfile, model, version), w1) ->
  check_installed E model version (join (MLINIT E) model) w1
    = (Return tt, w2) ->
  requests_head E url = Response codes_ok None ->
  install_model E args w
  = (Raise TypeError, with_trace w2 (probe (install_quiet args) url))
  /\ path_exists (fs w2) (join (MLINIT E) model) = false.
Proof.
  intros Hid Hchk Hhead.
  rewrite (install_after_check _ _ _ _ _ _ _ _ _ _ Hid Hchk).
  unfold bind at 1. rewrite download_cases, Hhead. cbn.
  split; [reflexivity|]. eapply check_installed_returns, Hchk.
Qed.

Lemma install_without_content_length_witness :
  install_model (Demo.env (Response 200 None) (URLFailure "") (0%Z, ""))
    url_args (Demo.world (Demo.installed "1.0.0") ["y"] "")
  = (Raise TypeError,
     {| fs := filter (fun kv => negb (under "/home/user/.mlhub/rain" kv.1))
                (Demo.installed "1.0.0");
        stdin := []; DISPLAY := ""; getcwd := "/home/user";
        trace := [YesOrNo "Replace 'rain' version '1.0.0' with version '1.0.0'?";
                  Print ""; Rmtree "/home/user/.mlhub/rain";
                  Head Demo.rain_url] |}).
Proof.
  pose (E := Demo.env (Response 200 None) (URLFailure "") (0%Z, "")).
  pose (w := Demo.world (Demo.installed "1.0.0") ["y"] "").
  assert (Hid : identify E url_args w
                = (Return (Some Demo.rain_url,
                           "/home/user/.mlhub/rain_1.0.0.mlm",
                           "rain_1.0.0.mlm", "rain", "1.0.0"), w))
    by (vm_compute; reflexivity).
  assert (Hchk : check_installed E "rain" "1.0.0" (join (MLINIT E) "rain") w
                 = (Return tt,
                    {| fs := filter
                               (fun kv => negb (under "/home/user/.mlhub/rain"
                                                  kv.1))
                               (Demo.installed "1.0.0");
                       stdin := []; DISPLAY := ""; getcwd := "/home/user";
                       trace := [YesOrNo "Replace 'rain' version '1.0.0' with version '1.0.0'?";
                                 Print ""; Rmtree "/home/user/.mlhub/rain"] |}))
    by (rewrite check_installed_cases; vm_compute; reflexivity).
  exact (proj1 (install_without_content_length E url_args w _ _ _ _ _ _ _
                  Hid Hchk eq_refl)).
Defined.


Lemma exists_directory (f : gmap string node) path :
  path <> "" -> f !! norm path = Some Directory -> path_exists f path = true.
Proof.
  intros Hne Hd. unfold path_exists. rewrite Hd.
  destruct (String.eqb_spec path ""); [contradiction|reflexivity].
Qed.

Lemma confirmed_replacement
    E args w url local mlmfile model version w1 d c line rest :
  let path := join (MLINIT E) model in
  let question := question_of c model (meta_version d) version in
  identify E args w = (Return (url, local, mlmfile, model, version), w1) ->
  path <> "" ->
  fs w1 !! norm path = Some Directory ->
  fs w1 !! norm (join path (DESC_YAML E)) = Some (File (Yaml d)) ->
  compare (meta_version d) version = inr c ->
  stdin w1 = line :: rest ->
  answers_yes E line = true ->
  install_model E args w
  = bind (acquire E (install_quiet args) url local mlmfile)
      (fun _ => extract E (install_quiet args) local mlmfile model path)
      (replaced w1 question path rest).
Proof.
  intros path question Hid Hne Hdir Hd Hc Hin Hy.
  apply (install_after_check _ _ _ _ _ _ _ _ _ _ Hid).
  rewrite check_installed_cases. fold path.
  rewrite (exists_directory _ _ Hne Hdir).
  rewrite Hd, Hc, Hin, Hy, Hdir. reflexivity.
Qed.

(** X13. Destroy, then recreate.  When the model is installed and the
    question about its version is answered with a yes, the rest of the
    run is the run of a fresh install: it is the run for the same
    reference from the world in which the question has been asked, the
    answer read, the blank line printed, and the installation directory
    removed with everything below it, every other node being as it
    was; in that world nothing is installed at the path. *)
Theorem reinstall_is_fresh_install
    E args w url local mlmfile model version w1 d c line rest :
  let path := join (MLINIT E) model in
  let question := question_of c model (meta_version d) version in
  identify E args w = (Return (url, local, mlmfile, model, version), w1) ->
  path <> "" ->
  fs w1 !! norm path = Some Directory ->
  fs w1 !! norm (join path (DESC_YAML E)) = Some (File (Yaml d)) ->
  compare (meta_version d) version = inr c ->
  stdin w1 = line :: rest ->
  answers_yes E line = true ->
  install_model E args w
  = install_identified E args (url, local, mlmfile, model, version)
      (replaced w1 question path rest)
  /\ path_exists (fs (replaced w1 question path rest)) path = false
  /\ (forall k,
        fs (replaced w1 question path rest) !! k
        = if under path k then None else fs w1 !! k).
Proof.
  intros path question Hid Hne Hdir Hd Hc Hin Hy.
  split; [|split].
  - rewrite (confirmed_replacement _ _ _ _ _ _ _ _ _ _ _ _ _
               Hid Hne Hdir Hd Hc Hin Hy).
    symmetry. unfold install_identified. fold path. unfold bind at 1.
    rewrite check_installed_cases.
    unfold replaced at 1. cbn [fs]. rewrite path_gone. reflexivity.
  - apply path_gone.
  - intros k. apply RemoveFacts.filter_under.
Qed.

Lemma reinstall_is_fresh_install_witness :
  install_model Demo.offline local_args
    (Demo.world (Demo.installed "1.0.0") ["y"] "")
  = install_identified Demo.offline local_args
      (None, "/tmp/rain_1.1.0.mlm", "rain_1.1.0.mlm", "rain", "1.1.0")
      (replaced (Demo.world (Demo.installed "1.0.0") ["y"] "")
         "Upgrade 'rain' version '1.0.0' to version '1.1.0'?"
         "/home/user/.mlhub/rain" []).
Proof.
  pose (w := Demo.world (Demo.installed "1.0.0") ["y"] "").
  assert (Hid : identify Demo.offline local_args w
                = (Return (None, "/tmp/rain_1.1.0.mlm", "rain_1.1.0.mlm",
                           "rain", "1.1.0"), w))
    by (vm_compute; reflexivity).
  assert (Hdir : fs w !! norm (join (MLINIT Demo.offline) "rain")
                 = Some Directory)
    by (vm_compute; reflexivity).
  assert (Hd : fs w !! norm (join (join (MLINIT Demo.offline) "rain")
                               (DESC_YAML Demo.offline))
               = Some (File (Yaml (Demo.description "1.0.0"))))
    by (vm_compute; reflexivity).
  assert (Hc : compare (meta_version (Demo.description "1.0.0")) "1.1.0"
               = inr Lt)
    by (vm_compute; reflexivity).
  assert (Hne : join (MLINIT Demo.offline) "rain" <> "") by discriminate.
  exact (proj1 (reinstall_is_fresh_install Demo.offline local_args w _ _ _ _ _
                  w (Demo.description "1.0.0") Lt "y" []
                  Hid Hne Hdir Hd Hc eq_refl eq_refl)).
Defined.

(** X14. An archive kept inside the installation it replaces.  When a
    local archive lies in the directory of the installed model, or
    below it, and the replacement is confirmed, the archive is deleted
    with the installation before it is read: the run ends in
    [FileNotFoundError] for the archive, with the installation gone and
    nothing extracted. *)
Theorem archive_inside_installation
    E args w local mlmfile model version w1 d c line rest :
  let path := join (MLINIT E) model in
  let question := question_of c model (meta_version d) version in
  identify E args w = (Return (None, local, mlmfile, model, version), w1) ->
  path <> "" ->
  fs w1 !! norm path = Some Directory ->
  fs w1 !! norm (join path (DESC_YAML E)) = Some (File (Yaml d)) ->
  compare (meta_version d) version = inr c ->
  stdin w1 = line :: rest ->
  answers_yes E line = true ->
  under path (norm local) = true ->
  install_model E args w
  = (Raise (FileNotFoundError local),
     with_trace (replaced w1 question path rest)
       [Extractall local (MLINIT E)])
  /\ path_exists (fs (replaced w1 question path rest)) path = false.
Proof.
  intros path question Hid Hne Hdir Hd Hc Hin Hy Hu.
  split; [|apply path_gone].
  rewrite (confirmed_replacement _ _ _ _ _ _ _ _ _ _ _ _ _
             Hid Hne Hdir Hd Hc Hin Hy).
  fold path question.
  unfold acquire, extract, replaced, with_trace. munfold. cbn [fs].
  rewrite RemoveFacts.filter_under, Hu. reflexivity.
Qed.

Lemma archive_inside_installation_witness :
  fst (install_model Demo.offline
         (mkInstallArgs "/home/user/.mlhub/rain/rain_1.1.0.mlm" "" true)
         (Demo.world
            (<["/home/user/.mlhub/rain/rain_1.1.0.mlm" := File (Bytes "1.1.0")]>
               (Demo.installed "1.0.0")) ["y"] ""))
  = Raise (FileNotFoundError "/home/user/.mlhub/rain/rain_1.1.0.mlm").
Proof.
  pose (args := mkInstallArgs "/home/user/.mlhub/rain/rain_1.1.0.mlm" "" true).
  pose (w := Demo.world
               (<["/home/user/.mlhub/rain/rain_1.1.0.mlm"
                  := File (Bytes "1.1.0")]> (Demo.installed "1.0.0"))
               ["y"] "").
  assert (Hid : identify Demo.offline args w
                = (Return (None, "/home/user/.mlhub/rain/rain_1.1.0.mlm",
                           "rain_1.1.0.mlm", "rain", "1.1.0"), w))
    by (vm_compute; reflexivity).
  assert (Hdir : fs w !! norm (join (MLINIT Demo.offline) "rain")
                 = Some Directory)
    by (vm_compute; reflexivity).
  assert (Hd : fs w !! norm (join (join (MLINIT Demo.offline) "rain")
                               (DESC_YAML Demo.offline))
               = Some (File (Yaml (Demo.description "1.0.0"))))
    by (vm_compute; reflexivity).
  assert (Hc : compare (meta_version (Demo.description "1.0.0")) "1.1.0"
               = inr Lt)
    by (vm_compute; reflexivity).
  assert (Hne : join (MLINIT Demo.offline) "rain" <> "") by discriminate.
  assert (Hu : under (join (MLINIT Demo.offline) "rain")
                 (norm "/home/user/.mlhub/rain/rain_1.1.0.mlm") = true)
    by (vm_compute; reflexivity).
  change (fst (install_model Demo.offline args w)
          = Raise (FileNotFoundError "/home/user/.mlhub/rain/rain_1.1.0.mlm")).
  rewrite (proj1 (archive_inside_installation Demo.offline args w _ _ _ _
                    w (Demo.description "1.0.0") Lt "y" []
                    Hid Hne Hdir Hd Hc eq_refl eq_refl Hu)).
  reflexivity.
Defined.


(** What a returning extraction leaves. *)
Lemma extract_returns E quiet local mlmfile model path w3 w' :
  extract E quiet local mlmfile model path w3 = (Return tt, w') ->
  exists d ws,
    fs w' !! norm (COMPLETION_COMMANDS E) = Some (File (Words ws))
    /\ (forall c, c ∈ commands d -> c ∈ ws)
    /\ (norm (COMPLETION_COMMANDS E) <> norm (descriptor_path E model) ->
        fs w' !! norm (descriptor_path E model) = Some (File (Yaml d))).
Proof.
  unfold extract, descriptor_path. munfold. intros H.
  repeat (case_match; simplify_eq/=);
    eexists _, _;
    (split; [apply lookup_insert_eq|]);
    (split; [intros c0 Hc0; apply list_elem_of_union; right; exact Hc0|]);
    intros Hne; rewrite lookup_insert_ne by exact Hne; eassumption.
Qed.

(** X15. What a successful install establishes.  When [install_model]
    returns, the descriptor of the model is a file at its canonical
    path under the package root, so that the model can be loaded, and
    every command the descriptor declares is in the completion list of
    commands. *)
Theorem installed_model_is_loadable
    E args w url local mlmfile model version w1 w' :
  identify E args w = (Return (url, local, mlmfile, model, version), w1) ->
  install_model E args w = (Return tt, w') ->
  exists d ws,
    fs w' !! norm (COMPLETION_COMMANDS E) = Some (File (Words ws))
    /\ (forall c, c ∈ commands d -> c ∈ ws)
    /\ (norm (COMPLETION_COMMANDS E) <> norm (descriptor_path E model) ->
        fs w' !! norm (descriptor_path E model) = Some (File (Yaml d))).
Proof.
  intros Hid. rewrite (install_model_identified _ _ _ _ _ Hid).
  unfold install_identified. unfold bind at 1.
  destruct (check_installed E model version _ w1) as [[[]|?|?|?] w2];
    try discriminate.
  unfold bind at 1.
  destruct (match url with
            | Some url0 => download E (install_quiet args) url0 local mlmfile
            | None => ret tt
            end w2) as [[[]|?|?|?] w3]; try discriminate.
  apply extract_returns.
Qed.

Lemma installed_model_is_loadable_witness :
  exists d,
    fs (snd (install_model Demo.offline local_args
               (Demo.world (Demo.installed "1.0.0") ["y"] "")))
      !! norm (descriptor_path Demo.offline "rain")
    = Some (File (Yaml d)).
Proof.
  pose (w := Demo.world (Demo.installed "1.0.0") ["y"] "").
  assert (Hid : identify Demo.offline local_args w
                = (Return (None, "/tmp/rain_1.1.0.mlm", "rain_1.1.0.mlm",
                           "rain", "1.1.0"), w))
    by (vm_compute; reflexivity).
  assert (Hrun : install_model Demo.offline local_args w
                 = (Return tt, snd (install_model Demo.offline local_args w)))
    by (vm_compute; reflexivity).
  destruct (installed_model_is_loadable _ _ _ _ _ _ _ _ _ _ Hid Hrun)
    as (d & ws & _ & _ & Hd).
  exists d. apply Hd. vm_compute. discriminate.
Defined.

(** ** What a quiet install prints *)

Ltac stage_done :=
  eexists; split; [first [symmetry; apply app_nil_r | reflexivity]|];
  repeat constructor.

Lemma identify_reports E args w o w1 :
  identify E args w = (o, w1) ->
  exists evs, trace w1 = (trace w ++ evs)%list
    /\ Forall (fun e => is_report e = false) evs.
Proof.
  intros H. destruct (identify_spec _ _ _ _ _ H) as (_ & [Ht|[meta Ht]] & _);
    rewrite Ht; stage_done.
Qed.

Lemma check_installed_reports E model version path w o w' :
  check_installed E model version path w = (o, w') ->
  exists evs, trace w' = (trace w ++ evs)%list
    /\ Forall (fun e => is_report e = false) evs.
Proof.
  rewrite check_installed_cases. unfold with_trace. intros H.
  repeat (case_match; simplify_eq/=); stage_done.
Qed.

Lemma download_reports E url local mlmfile w o w' :
  download E true url local mlmfile w = (o, w') ->
  exists evs, trace w' = (trace w ++ evs)%list
    /\ Forall (fun e => is_report e = false) evs.
Proof.
  rewrite download_cases. unfold write_result, with_trace. intros H.
  repeat (case_match; simplify_eq/=); stage_done.
Qed.

Lemma extract_reports E local mlmfile model path w o w' :
  extract E true local mlmfile model path w = (o, w') ->
  exists evs, trace w' = (trace w ++ evs)%list
    /\ Forall (fun e => is_report e = false) evs.
Proof.
  unfold extract. munfold. intros H.
  repeat (case_match; simplify_eq/=); rewrite <- ?app_assoc; stage_done.
Qed.

Lemma reports_chain (w w1 w2 : World) evs1 evs2 :
  trace w1 = (trace w ++ evs1)%list ->
  Forall (fun e => is_report e = false) evs1 ->
  trace w2 = (trace w1 ++ evs2)%list ->
  Forall (fun e => is_report e = false) evs2 ->
  Forall (fun e => is_report e = false) (events_since w w2).
Proof.
  intros H1 F1 H2 F2. rewrite H1, <- app_assoc in H2.
  rewrite (events_since_app _ _ _ H2). now apply Forall_app.
Qed.

(** X16. What [--quiet] leaves of the output of an install.  A quiet
    run prints no information: no package line, no download line, no
    extraction line and no next step.  The one thing it prints is the
    blank line after a confirmed question; the question itself is not
    suppressed. *)
Theorem quiet_install_reports_nothing E args w :
  install_quiet args = true ->
  Forall (fun e => is_report e = false)
    (events_since w (snd (install_model E args w))).
Proof.
  intros Hq. rewrite install_model_stages. unfold bind at 1.
  destruct (identify E args w) as [o w1] eqn:Hid.
  destruct (identify_reports _ _ _ _ _ Hid) as (evs1 & H1 & F1).
  assert (Hstop : Forall (fun e => is_report e = false) (events_since w w1))
    by (rewrite (events_since_app _ _ _ H1); exact F1).
  destruct o as [[[[[url local] mlmfile] model] version]|?|?|?];
    try exact Hstop.
  unfold install_identified. rewrite Hq. unfold bind at 1.
  destruct (check_installed E model version _ w1) as [o2 w2] eqn:Hchk.
  destruct (check_installed_reports _ _ _ _ _ _ _ Hchk) as (evs2 & H2 & F2).
  pose proof (reports_chain _ _ _ _ _ H1 F1 H2 F2) as Hstop2.
  assert (H12 : trace w2 = (trace w ++ (evs1 ++ evs2))%list)
    by (now rewrite H2, H1, <- app_assoc).
  assert (F12 : Forall (fun e => is_report e = false) (evs1 ++ evs2)%list)
    by (now apply Forall_app).
  destruct o2 as [[]|?|?|?]; try exact Hstop2.
  unfold bind at 1.
  destruct (match url with
            | Some url0 => download E true url0 local mlmfile
            | None => ret tt
            end w2) as [o3 w3] eqn:Hacq.
  assert (exists evs3, trace w3 = (trace w2 ++ evs3)%list
            /\ Forall (fun e => is_report e = false) evs3)
    as (evs3 & H3 & F3).
  { destruct url as [url|].
    - eapply download_reports, Hacq.
    - injection Hacq as <- <-. stage_done. }
  pose proof (reports_chain _ _ _ _ _ H12 F12 H3 F3) as Hstop3.
  assert (H123 : trace w3 = (trace w ++ ((evs1 ++ evs2) ++ evs3))%list)
    by (now rewrite H3, H12, <- app_assoc).
  assert (F123 : Forall (fun e => is_report e = false)
                   ((evs1 ++ evs2) ++ evs3)%list)
    by (now apply Forall_app).
  destruct o3 as [[]|?|?|?]; try exact Hstop3.
  destruct (extract E true local mlmfile model _ w3) as [o4 w4] eqn:Hext.
  destruct (extract_reports _ _ _ _ _ _ _ _ Hext) as (evs4 & H4 & F4).
  exact (reports_chain _ _ _ _ _ H123 F123 H4 F4).
Qed.

Lemma quiet_install_reports_nothing_witness :
  events_since (Demo.world (Demo.installed "1.0.0") ["y"] "")
    (snd (install_model Demo.offline local_args
            (Demo.world (Demo.installed "1.0.0") ["y"] "")))
  = [YesOrNo "Upgrade 'rain' version '1.0.0' to version '1.1.0'?";
     Print ""; Rmtree "/home/user/.mlhub/rain";
     Extractall "/tmp/rain_1.1.0.mlm" "/home/user/.mlhub/";
     UpdateCompletion "/home/user/.mlhub/.completion_commands"
       ["demo"; "display"]]
  /\ Forall (fun e => is_report e = false)
       (events_since (Demo.world (Demo.installed "1.0.0") ["y"] "")
          (snd (install_model Demo.offline local_args
                  (Demo.world (Demo.installed "1.0.0") ["y"] "")))).
Proof.
  split; [vm_compute; reflexivity|].
  exact (quiet_install_reports_nothing Demo.offline local_args
           (Demo.world (Demo.installed "1.0.0") ["y"] "") eq_refl).
Defined.

End InstallExtras.

(** ** The reporting commands and configure_model *)

Module ReportFacts.

Import RunNotions RemoveNotions ReportNotions.
Import VersionFacts CommandFacts RemoveFacts.

Lemma drop_chars_app a b : drop_chars (String.length a) (a ++ b) = b.
Proof. induction a as [|c a IH]; [reflexivity | exact IH]. Qed.

Lemma prefix_app a b : String.prefix a (a ++ b) = true.
Proof.
  induction a as [|c a IH]; [now destruct b|].
  rewrite append_cons. cbn [String.prefix].
  destruct (ascii_dec c c); [exact IH | contradiction].
Qed.

Lemma entries_elem f p m :
  m ∈ entries f p
  <-> m <> "" /\ str_in "/" m = false /\ is_Some (f !! (norm p ++ "/" ++ m)).
Proof.
  unfold entries. rewrite list_elem_of_fmap. split.
  - intros (k & -> & Hk).
    apply list_elem_of_In, filter_In in Hk as [Hk He].
    apply list_elem_of_In, list_elem_of_fmap in Hk as ([k' x] & -> & Hk).
    apply elem_of_map_to_list in Hk. simpl in *.
    unfold is_entry in He. apply andb_true_iff in He as [Hp He].
    apply andb_true_iff in He as [Hn Hs].
    apply negb_true_iff in Hn, Hs.
    split; [now apply String.eqb_neq|]. split; [exact Hs|].
    rewrite <- append_assoc, <- (prefix_drop _ _ Hp). eauto.
  - intros (Hn & Hs & [x Hx]). exists (norm p ++ "/" ++ m).
    rewrite <- append_assoc. split; [now rewrite drop_chars_app|].
    apply list_elem_of_In, filter_In. split.
    + apply list_elem_of_In, list_elem_of_fmap. exists ((norm p ++ "/") ++ m, x).
      split; [reflexivity|]. apply elem_of_map_to_list.
      now rewrite append_assoc.
    + unfold is_entry. rewrite prefix_app, drop_chars_app, Hs.
      apply String.eqb_neq in Hn. now rewrite Hn.
Qed.

Lemma entries_NoDup f p : NoDup (entries f p).
Proof.
  unfold entries. apply NoDup_fmap_2_strong.
  - intros k k' Hk Hk' Heq.
    apply list_elem_of_In, filter_In in Hk as [_ Hk].
    apply list_elem_of_In, filter_In in Hk' as [_ Hk'].
    unfold is_entry in Hk, Hk'.
    apply andb_true_iff in Hk as [Hk _]. apply andb_true_iff in Hk' as [Hk' _].
    rewrite (prefix_drop _ _ Hk), (prefix_drop _ _ Hk'). now rewrite Heq.
  - apply NoDup_ListNoDup, List.NoDup_filter, NoDup_ListNoDup,
      NoDup_fst_map_to_list.
Qed.

Lemma norm_no_slash p : endswith (norm p) "/" = false.
Proof.
  induction p as [|c p IH]; [reflexivity|]. cbn [norm].
  destruct (norm p) as [|c' r] eqn:Hr.
  - destruct (Ascii.eqb_spec c "/") as [->|Hc]; [reflexivity|].
    rewrite endswith_cons. cbn [endswith]. rewrite orb_false_r.
    apply String.eqb_neq. intros [= ->]. contradiction.
  - rewrite endswith_cons, IH, orb_false_r.
    apply String.eqb_neq. discriminate.
Qed.

Lemma endswith_refl s : endswith s s = true.
Proof. destruct s; cbn [endswith]; now rewrite String.eqb_refl. Qed.

Lemma endswith_app_r a b : endswith (a ++ b) b = true.
Proof.
  induction a as [|c a IH]; [apply endswith_refl|].
  rewrite append_cons, endswith_cons, IH. apply orb_true_r.
Qed.

Lemma no_slash_startswith m :
  str_in "/" m = false -> startswith m "/" = false.
Proof.
  destruct m as [|c m]; [reflexivity|]. cbn [str_in]. unfold startswith.
  intros H. now apply orb_false_iff in H as [H _].
Qed.

Lemma no_slash_endswith m : str_in "/" m = false -> endswith m "/" = false.
Proof.
  intros H. destruct (endswith m "/") eqn:He; [|reflexivity].
  apply endswith_slash_in in He. congruence.
Qed.

(** The directory of a model, below a tidy root. *)
Lemma join_model p m :
  tidy p -> m <> "" -> str_in "/" m = false ->
  join p m = norm p ++ "/" ++ m /\ norm (join p m) = join p m.
Proof.
  intros [Hp Ht] Hm Hs.
  assert (Hj : join p m = norm p ++ "/" ++ m).
  { unfold join. rewrite (no_slash_startswith _ Hs).
    apply String.eqb_neq in Hp. rewrite Hp. cbn [orb].
    destruct Ht as [Ht|Ht].
    - rewrite Ht at 1. rewrite norm_no_slash. now rewrite <- Ht.
    - rewrite Ht at 1. rewrite endswith_app_r.
      rewrite Ht at 1. now rewrite append_assoc. }
  split; [exact Hj|]. rewrite Hj. apply norm_fixed.
  rewrite <- append_assoc, endswith_app by exact Hm.
  now apply no_slash_endswith.
Qed.


Lemma find_installed_cases E w :
  find_installed E w =
  if path_exists (fs w) (MLINIT E) then
    match fs w !! norm (MLINIT E) with
    | Some Directory =>
        (Return (" in '" ++ MLINIT E ++ "'.", installed_models E (fs w)), w)
    | Some (File _) => (Raise (NotADirectoryError (MLINIT E)), w)
    | None => (Raise (FileNotFoundError (MLINIT E)), w)
    end
  else (Return (". '" ++ MLINIT E ++ "' does not exist.", []), w).
Proof.
  unfold find_installed, os_listdir, installed_models. munfold.
  destruct (path_exists (fs w) (MLINIT E)); [|reflexivity].
  destruct (fs w !! norm (MLINIT E)) as [[]|]; reflexivity.
Qed.

Lemma installed_models_elem E f m :
  tidy (MLINIT E) ->
  m ∈ installed_models E f
  <-> is_model_name m = true
      /\ f !! (norm (MLINIT E) ++ "/" ++ m) = Some Directory.
Proof.
  intros Ht. unfold installed_models, is_model_name.
  rewrite merge_sort_Permutation, list_elem_of_In, filter_In,
    <- list_elem_of_In, entries_elem.
  split.
  - intros ((Hn & Hs & _) & H).
    apply andb_true_iff in H as [H Hdot]. apply andb_true_iff in H as [Hd HR].
    destruct (join_model _ _ Ht Hn Hs) as [Hj Hnorm].
    unfold isdir in Hd. rewrite Hnorm, Hj in Hd.
    apply andb_true_iff in Hd as [_ Hd].
    apply String.eqb_neq in Hn. rewrite Hn, Hs, HR, Hdot.
    split; [reflexivity|].
    destruct (f !! _) as [[]|]; try discriminate. reflexivity.
  - intros (H & Hd).
    apply andb_true_iff in H as [H Hdot]. apply andb_true_iff in H as [H HR].
    apply andb_true_iff in H as [Hn Hs]. apply negb_true_iff in Hn, Hs.
    apply String.eqb_neq in Hn.
    destruct (join_model _ _ Ht Hn Hs) as [Hj Hnorm].
    split; [split; [exact Hn|split; [exact Hs|]]; rewrite Hd; eauto|].
    rewrite HR, Hdot. unfold isdir. rewrite Hnorm, Hj, Hd.
    rewrite <- Hj. unfold join. destruct (startswith m "/"); [|].
    + apply String.eqb_neq in Hn. now rewrite Hn.
    + destruct Ht as [Hp _]. apply String.eqb_neq in Hp. rewrite Hp.
      cbn [orb].
      destruct (endswith (MLINIT E) "/").
      * destruct (String.eqb_spec (MLINIT E ++ m) ""); [|reflexivity].
        destruct (MLINIT E); [discriminate|discriminate].
      * destruct (String.eqb_spec (MLINIT E ++ "/" ++ m) ""); [|reflexivity].
        destruct (MLINIT E); discriminate.
Qed.

Lemma installed_models_NoDup E f : NoDup (installed_models E f).
Proof.
  unfold installed_models. rewrite merge_sort_Permutation.
  apply NoDup_ListNoDup, List.NoDup_filter, NoDup_ListNoDup, entries_NoDup.
Qed.

Lemma installed_models_Sorted E f : Sorted String.le (installed_models E f).
Proof. apply (Sorted_merge_sort String.le). Qed.

(** X17. The names [list_installed --name-only] prints.  When the
    package root is a directory, the command prints, in one [print],
    the names of the installed models joined by newlines and returns,
    touching nothing.  The names are in ascending order, each once,
    and they are exactly the directories directly in the package root
    whose name is not [R] and does not start with a dot; no descriptor
    is read.  When the package root does not exist, the empty string
    is printed. *)
Theorem list_installed_names E L args w :
  list_name_only args = true ->
  tidy (MLINIT E) ->
  (fs w !! norm (MLINIT E) = Some Directory ->
   list_installed E L args w
   = (Return tt,
      with_trace w [Print (String.concat nl (installed_models E (fs w)))])
   /\ Sorted String.le (installed_models E (fs w))
   /\ NoDup (installed_models E (fs w))
   /\ (forall m,
         m ∈ installed_models E (fs w)
         <-> is_model_name m = true
             /\ fs w !! (norm (MLINIT E) ++ "/" ++ m) = Some Directory))
  /\ (fs w !! norm (MLINIT E) = None ->
      list_installed E L args w = (Return tt, with_trace w [Print ""])).
Proof.
  intros Hn Ht. split.
  - intros Hd. split; [|split; [|split]].
    + unfold list_installed. unfold bind at 1. rewrite find_installed_cases.
      unfold path_exists. rewrite Hd, Hn.
      destruct Ht as [Hp _]. apply String.eqb_neq in Hp. rewrite Hp.
      reflexivity.
    + apply installed_models_Sorted.
    + apply installed_models_NoDup.
    + intros m. now apply installed_models_elem.
  - intros Hd. unfold list_installed. unfold bind at 1.
    rewrite find_installed_cases. unfold path_exists. rewrite Hd, Hn.
    rewrite andb_false_r. reflexivity.
Qed.


Lemma list_installed_names_witness :
  list_installed Demo.offline helpers (mkListArgs "" true false)
    (Demo.world (Demo.installed "1.0.0") [] "")
  = (Return tt,
     with_trace (Demo.world (Demo.installed "1.0.0") [] "")
       [Print ("rain" ++ nl ++ "tools")]).
Proof.
  pose (w := Demo.world (Demo.installed "1.0.0") [] "").
  assert (Ht : tidy (MLINIT Demo.offline))
    by (split; [discriminate | right; vm_compute; reflexivity]).
  assert (Hd : fs w !! norm (MLINIT Demo.offline) = Some Directory)
    by (vm_compute; reflexivity).
  destruct (list_installed_names Demo.offline helpers
              (mkListArgs "" true false) w eq_refl Ht) as [H _].
  destruct (H Hd) as (Hrun & _).
  unfold w in Hrun. rewrite Hrun. vm_compute. reflexivity.
Defined.


(** The loop of [list_installed] over models whose descriptors load:
    [f0] is the file system the run started in. *)
Lemma listing_loop E L f0 models :
  forall w,
    (forall k, k <> norm (COMPLETION_COMMANDS E) -> fs w !! k = f0 !! k) ->
    fs w !! norm (COMPLETION_COMMANDS E) <> Some Directory ->
    (forall m, m ∈ models ->
       is_Some (descriptor E f0 m)
       /\ norm (COMPLETION_COMMANDS E)
          <> norm (join (join (MLINIT E) m) (DESC_YAML E))) ->
    exists w',
      for_each models
        (fun p =>
           bind (load_description E p) (fun entry =>
           bind (print_meta_line (meta_line L entry)) (fun _ =>
           update_completion_list (COMPLETION_COMMANDS E) (commands entry))))
        w = (Return tt, w')
      /\ stdin w' = stdin w
      /\ (forall k, k <> norm (COMPLETION_COMMANDS E) -> fs w' !! k = f0 !! k)
      /\ fs w' !! norm (COMPLETION_COMMANDS E) <> Some Directory
      /\ trace w' = (trace w ++ report_lines E L f0 models)%list
      /\ (forall c,
            c ∈ completion_words (fs w') (COMPLETION_COMMANDS E)
            <-> c ∈ completion_words (fs w) (COMPLETION_COMMANDS E)
                \/ exists m d, m ∈ models /\ descriptor E f0 m = Some d
                               /\ c ∈ commands d).
Proof.
  induction models as [|m models IH]; intros w Hframe Hnd Hall.
  - exists w. cbn. rewrite app_nil_r. repeat split; auto.
    + intros [H|(m & d & H & _)]; [exact H|]. now apply elem_of_nil in H.
  - destruct (Hall m (list_elem_of_here _ _)) as [[d Hd] Hne].
    assert (Hfile : fs w !! norm (join (join (MLINIT E) m) (DESC_YAML E))
                    = Some (File (Yaml d))).
    { rewrite Hframe by auto. unfold descriptor in Hd.
      destruct (f0 !! _) as [[[]|]|]; congruence. }
    set (C := COMPLETION_COMMANDS E) in *.
    set (old := completion_words (fs w) C).
    pose (w1 := {| fs := <[norm C := File (Words (list_union old (commands d)))]>
                           (fs w);
                   stdin := stdin w; DISPLAY := DISPLAY w; getcwd := getcwd w;
                   trace := (trace w ++ [Print (meta_line L d)])
                              ++ [UpdateCompletion C (commands d)] |}).
    assert (Hstep : bind (load_description E m) (fun entry =>
                    bind (print_meta_line (meta_line L entry)) (fun _ =>
                    update_completion_list C (commands entry))) w
                    = (Return tt, w1)).
    { unfold print_meta_line. munfold. rewrite Hfile. cbn.
      unfold w1, old, completion_words.
      destruct (fs w !! norm C) as [[[]|]|] eqn:HC;
        try reflexivity. now destruct Hnd. }
    destruct (IH w1) as (w' & Hrun & Hin & Hfr & Hnd' & Htr & Hws).
    { intros k Hk. unfold w1. cbn. rewrite lookup_insert_ne by auto.
      now apply Hframe. }
    { unfold w1. cbn. rewrite lookup_insert_eq. discriminate. }
    { intros m' Hm'. apply Hall. now apply list_elem_of_further. }
    exists w'. cbn [for_each]. unfold bind at 1. rewrite Hstep.
    split; [exact Hrun|]. split; [exact Hin|]. split; [exact Hfr|].
    split; [exact Hnd'|]. split.
    + rewrite Htr. unfold w1. cbn [trace report_lines flat_map].
      rewrite Hd. fold (report_lines E L f0 models).
      now rewrite <- !app_assoc.
    + intros c. rewrite Hws.
      assert (Hw1 : completion_words (fs w1) C = list_union old (commands d)).
      { unfold completion_words, w1. cbn. now rewrite lookup_insert_eq. }
      rewrite Hw1, list_elem_of_union. fold old. split.
      * intros [[H|H]|(m' & d' & Hm' & Hd' & Hc)]; auto.
        -- right. exists m, d. split; [apply list_elem_of_here|]. auto.
        -- right. exists m', d'. split; [now apply list_elem_of_further|]. auto.
      * intros [H|(m' & d' & Hm' & Hd' & Hc)]; auto.
        apply elem_of_cons in Hm' as [->|Hm'].
        -- left. right. congruence.
        -- right. eauto.
Qed.


Lemma found_stage E w :
  (forall d, fs w !! norm (MLINIT E) <> Some (File d)) ->
  find_installed E w = (Return (found E (fs w)), w).
Proof.
  intros Hnf. rewrite find_installed_cases. unfold found.
  destruct (path_exists (fs w) (MLINIT E)) eqn:Hp; [|reflexivity].
  destruct (fs w !! norm (MLINIT E)) as [[d|]|] eqn:Hd; [|reflexivity|].
  - now destruct (Hnf d).
  - unfold path_exists in Hp. rewrite Hd in Hp.
    now rewrite andb_false_r in Hp.
Qed.

Lemma count_stage mcnt msg w :
  bind (print (found_msg mcnt msg))
    (fun _ => when (0 <? mcnt)%nat (print "")) w
  = (Return tt,
     with_trace w
       (Print (found_msg mcnt msg)
          :: (if (0 <? mcnt)%nat then [Print ""] else []))).
Proof.
  unfold with_trace. munfold. destruct (0 <? mcnt)%nat; cbn;
    rewrite <- ?app_assoc; reflexivity.
Qed.

Lemma hint_stage L quiet mcnt w :
  when (negb quiet)
    (if (0 <? mcnt)%nat
     then print_next_step_scenario L "installed" "exist"
     else print_next_step_scenario L "installed" "none") w
  = (Return tt,
     with_trace w
       (if quiet then []
        else [Print (next_step_hint L "installed"
                       (if (0 <? mcnt)%nat then "exist" else "none"))])).
Proof.
  unfold with_trace, print_next_step_scenario. munfold.
  destruct quiet; cbn; [rewrite app_nil_r; now destruct w|].
  destruct mcnt; reflexivity.
Qed.

(** X18. The report of [list_installed].  When the package root is
    not a file, the descriptor of every model found loads, and the
    completion list of commands is neither a directory nor one of those
    descriptors, the command returns after printing: the sentence with
    the number of models, "model" in the singular for exactly one; a
    blank line when there are models; for each model, in ascending
    order, its line; and the next step, unless quiet.  Nothing is read,
    no node other than the completion list changes, and the list ends
    up with its former words and the commands of every model. *)
Theorem list_installed_report E L args w :
  let msg := (found E (fs w)).1 in
  let models := (found E (fs w)).2 in
  let mcnt := List.length models in
  let C := COMPLETION_COMMANDS E in
  list_name_only args = false ->
  (forall d, fs w !! norm (MLINIT E) <> Some (File d)) ->
  fs w !! norm C <> Some Directory ->
  (forall m, m ∈ models ->
     is_Some (descriptor E (fs w) m)
     /\ norm C <> norm (join (join (MLINIT E) m) (DESC_YAML E))) ->
  exists w',
    list_installed E L args w = (Return tt, w')
    /\ stdin w' = stdin w
    /\ (forall k, k <> norm C -> fs w' !! k = fs w !! k)
    /\ trace w'
       = (trace w
            ++ [Print ("Found " ++ pretty mcnt ++ " model"
                         ++ (if Nat.eqb mcnt 1 then "" else "s")
                         ++ " installed" ++ msg)]
            ++ (if (0 <? mcnt)%nat then [Print ""] else [])
            ++ report_lines E L (fs w) models
            ++ (if list_quiet args then []
                else [Print (next_step_hint L "installed"
                               (if (0 <? mcnt)%nat then "exist" else "none"))]))%list
    /\ (forall c,
          c ∈ completion_words (fs w') C
          <-> c ∈ completion_words (fs w) C
              \/ exists m d, m ∈ models /\ descriptor E (fs w) m = Some d
                             /\ c ∈ commands d).
Proof.
  intros msg models mcnt C Hn Hnf HC Hall.
  unfold list_installed. unfold bind at 1.
  rewrite (found_stage _ _ Hnf).
  destruct (found E (fs w)) as [msg0 models0] eqn:Hfound.
  cbn [fst snd] in *. subst msg models. rewrite Hn.
  fold mcnt.
  destruct (listing_loop E L (fs w) models0
              (with_trace w
                 (Print (found_msg mcnt msg0)
                    :: (if (0 <? mcnt)%nat then [Print ""] else []))))
    as (w' & Hrun & Hin & Hfr & _ & Htr & Hws); auto.
  pose proof (count_stage mcnt msg0 w) as Hhead.
  exists (with_trace w'
            (if list_quiet args then []
             else [Print (next_step_hint L "installed"
                            (if (0 <? mcnt)%nat then "exist" else "none"))])).
  split.
  - unfold bind at 1. unfold bind at 1 in Hhead.
    destruct (print (found_msg mcnt msg0) w) as [[[]|?|?|?] wp];
      try discriminate.
    unfold bind at 1. rewrite Hhead. unfold bind at 1. rewrite Hrun.
    apply hint_stage.
  - cbn [with_trace fs stdin trace] in *.
    split; [exact Hin|]. split; [exact Hfr|]. split; [|exact Hws].
    rewrite Htr. unfold found_msg. now rewrite <- !app_assoc.
Qed.


Lemma list_installed_report_witness :
  exists w',
    list_installed Demo.offline helpers (mkListArgs "" false true)
      (Demo.world (Demo.installed "1.0.0") [] "") = (Return tt, w')
    /\ trace w'
       = [Print "Found 2 models installed in '/home/user/.mlhub/'.";
          Print "";
          Print "1.0.0";
          UpdateCompletion "/home/user/.mlhub/.completion_commands"
            ["demo"; "display"];
          Print "0.1.0";
          UpdateCompletion "/home/user/.mlhub/.completion_commands" ["demo"]].
Proof.
  pose (w := Demo.world (Demo.installed "1.0.0") [] "").
  assert (Hf : found Demo.offline (fs w)
               = (" in '/home/user/.mlhub/'.", ["rain"; "tools"]))
    by (vm_compute; reflexivity).
  destruct (list_installed_report Demo.offline helpers
              (mkListArgs "" false true) w eq_refl)
    as (w' & Hrun & _ & _ & Htr & _).
  - intros d. vm_compute. discriminate.
  - vm_compute. discriminate.
  - rewrite Hf. cbn [snd]. intros m Hm.
    apply elem_of_cons in Hm as [->|Hm];
      [split; [vm_compute; eauto | vm_compute; discriminate]|].
    apply list_elem_of_singleton in Hm as ->.
    split; [vm_compute; eauto | vm_compute; discriminate].
  - exists w'. split; [exact Hrun|]. rewrite Htr. vm_compute. reflexivity.
Defined.

(** ** list_available, list_model_commands, readme, download_model *)

Lemma print_each {A} (line : A -> string) (l : list A) w :
  for_each l (fun x => print (line x)) w
  = (Return tt, with_trace w (Print ∘ line <$> l)).
Proof.
  revert w. induction l as [|x l IH]; intros w.
  - unfold with_trace. cbn. rewrite app_nil_r. now destruct w.
  - cbn [for_each]. unfold bind, print, emit. rewrite IH.
    unfold with_trace. cbn. now rewrite <- app_assoc.
Qed.

(** [update_completion_list] on a list that is not a directory. *)
Lemma update_completion_list_run file words w :
  fs w !! norm file <> Some Directory ->
  update_completion_list file words w
  = (Return tt,
     {| fs := <[norm file :=
                  File (Words (list_union (completion_words (fs w) file)
                                 words))]> (fs w);
        stdin := stdin w; DISPLAY := DISPLAY w; getcwd := getcwd w;
        trace := trace w ++ [UpdateCompletion file words] |}).
Proof.
  intros Hnd. unfold completion_words. munfold. cbn.
  destruct (fs w !! norm file) as [[[]|]|]; try reflexivity.
  now destruct Hnd.
Qed.




(** X20. What [list_model_commands] prints for an installed model
    whose descriptor loads.  With [--name-only]: the declared commands
    joined by newlines, and nothing else.  Otherwise: the sentence
    naming the model, the help of each declared command in the order
    of the descriptor, and the next step unless quiet; the completion
    list of commands, the only node that changes, gains the declared
    commands. *)
Theorem list_model_commands_report E L args w d :
  let model := model_arg args in
  let C := COMPLETION_COMMANDS E in
  path_exists (fs w) (MLINIT E ++ model) = true ->
  descriptor E (fs w) model = Some d ->
  (model_name_only args = true ->
   list_model_commands E L args w
   = (Return tt, with_trace w [Print (String.concat nl (commands d))]))
  /\ (model_name_only args = false ->
      fs w !! norm C <> Some Directory ->
      exists w',
        list_model_commands E L args w = (Return tt, w')
        /\ stdin w' = stdin w
        /\ (forall k, k <> norm C -> fs w' !! k = fs w !! k)
        /\ (forall c,
              c ∈ completion_words (fs w') C
              <-> c ∈ completion_words (fs w) C \/ c ∈ commands d)
        /\ trace w'
           = (trace w
                ++ [Print (supports_msg L model d)]
                ++ (Print ∘ cmd_help L d <$> commands d)
                ++ [UpdateCompletion C (commands d)]
                ++ (if model_quiet args then []
                    else [PrintNextStep "commands" (Some model)]))%list).
Proof.
  intros model C Hi Hd. unfold list_model_commands. fold model C.
  assert (Hload : load_description E model w = (Return d, w)).
  { unfold descriptor in Hd. munfold.
    destruct (fs w !! _) as [[[]|]|]; congruence. }
  assert (Hchk : check_model_installed E model w = (Return tt, w)).
  { munfold. now rewrite Hi. }
  split.
  - intros Hn. unfold bind at 1. rewrite Hchk. unfold bind at 1.
    rewrite Hload, Hn. reflexivity.
  - intros Hn HC. unfold bind at 1. rewrite Hchk. unfold bind at 1.
    rewrite Hload, Hn.
    unfold bind at 1. unfold print at 1, emit at 1. cbv beta iota.
    unfold bind at 1. unfold print_model_cmd_help.
    rewrite (print_each (cmd_help L d)).
    unfold bind at 1.
    rewrite update_completion_list_run by exact HC.
    match goal with
    | |- context [when _ _ ?w2] => set (w2' := w2)
    end.
    exists (with_trace w2'
              (if model_quiet args then []
               else [PrintNextStep "commands" (Some model)])).
    split.
    + unfold with_trace. munfold. destruct (model_quiet args); cbn;
        [rewrite app_nil_r; reflexivity | reflexivity].
    + unfold w2', with_trace. cbn [fs stdin trace].
      split; [reflexivity|].
      split; [intros k Hk; now rewrite lookup_insert_ne by auto|].
      split.
      * intros c. unfold completion_words at 1.
        rewrite lookup_insert_eq. apply list_elem_of_union.
      * rewrite <- !app_assoc. reflexivity.
Qed.

Lemma list_model_commands_report_witness :
  list_model_commands Demo.offline helpers (mkModelArgs "rain" true false)
    (Demo.world (Demo.installed "1.0.0") [] "")
  = (Return tt,
     with_trace (Demo.world (Demo.installed "1.0.0") [] "")
       [Print ("demo" ++ nl ++ "display")]).
Proof.
  pose (w := Demo.world (Demo.installed "1.0.0") [] "").
  assert (Hi : path_exists (fs w) (MLINIT Demo.offline ++ "rain") = true)
    by (vm_compute; reflexivity).
  assert (Hd : descriptor Demo.offline (fs w) "rain"
               = Some (Demo.description "1.0.0"))
    by (vm_compute; reflexivity).
  exact (proj1 (list_model_commands_report Demo.offline helpers
                  (mkModelArgs "rain" true false) w _ Hi Hd) eq_refl).
Defined.

Lemma read_file_cases L p w :
  read_file L p w =
  if existsb (is_file (fs w)) (ancestors p)
  then (Raise (NotADirectoryError p), w)
  else
    match fs w !! norm p with
    | Some (File d) =>
        if endswith p "/" then (Raise (NotADirectoryError p), w)
        else (Return (text_of L d), w)
    | Some Directory => (Raise (IsADirectoryError p), w)
    | None => (Raise (FileNotFoundError p), w)
    end.
Proof.
  unfold read_file. munfold.
  destruct (existsb _ _); [reflexivity|].
  destruct (fs w !! norm p) as [[]|]; try reflexivity.
  destruct (endswith p "/"); reflexivity.
Qed.

(** [readme], case by case. *)
Lemma readme_cases E L args w :
  let model := model_arg args in
  let readme_file := join (MLINIT E ++ model) (README L) in
  readme E L args w =
  if path_exists (fs w) (MLINIT E ++ model) then
    match read_file L readme_file w with
    | (Return text, _) =>
        (Return tt,
         with_trace w
           (Print (drop_newline L text)
              :: (if model_quiet args then []
                  else [PrintNextStep "readme" (Some model)])))
    | (Raise (FileNotFoundError _), _) =>
        (SysExit 1, with_trace w [Write (no_readme_msg L model readme_file)])
    | (Raise e, _) => (Raise e, w)
    | (SysExit c, _) => (SysExit c, w)
    | (ErrorExit s, _) => (ErrorExit s, w)
    end
  else (Raise (ModelNotInstalled model), w).
Proof.
  intros model readme_file. unfold readme. fold model readme_file.
  unfold bind at 1. unfold check_model_installed at 1.
  unfold bind at 1. unfold get_fs at 1.
  destruct (path_exists (fs w) (MLINIT E ++ model)); [|reflexivity].
  unfold ret at 1. unfold bind at 1. unfold except_FileNotFoundError.
  unfold bind at 1. rewrite read_file_cases.
  unfold with_trace. munfold.
  destruct (existsb _ _); [reflexivity|].
  destruct (fs w !! norm readme_file) as [[]|]; try reflexivity.
  destruct (endswith readme_file "/"); [reflexivity|].
  destruct (model_quiet args); cbn; rewrite <- ?app_assoc, ?app_nil_r;
    reflexivity.
Qed.


(** X22. The commands that only report.  [download_model], [readme],
    [license] and [donate] leave the file system as it is and read no
    input, whatever the state and however they end; [download_model],
    in particular, makes no request to a server: it returns for an
    installed model and fails with [ModelNotInstalled] for any
    other. *)
Theorem reporting_commands_change_nothing E L args w :
  let unchanged (r : outcome unit * World) :=
    fs r.2 = fs w /\ stdin r.2 = stdin w
    /\ Forall (fun e => is_transfer e = false) (events_since w r.2) in
  unchanged (download_model E args w)
  /\ unchanged (readme E L args w)
  /\ unchanged (license w)
  /\ unchanged (donate w)
  /\ (download_model E args w).1
     = if path_exists (fs w) (MLINIT E ++ model_arg args)
       then Return tt else Raise (ModelNotInstalled (model_arg args)).
Proof.
  cbv zeta.
  assert (Hd : download_model E args w
               = if path_exists (fs w) (MLINIT E ++ model_arg args)
                 then (Return tt,
                       with_trace w
                         (if model_quiet args then []
                          else [PrintNextStep "download"
                                  (Some (model_arg args))]))
                 else (Raise (ModelNotInstalled (model_arg args)), w)).
  { unfold download_model, with_trace. munfold.
    destruct (path_exists (fs w) (MLINIT E ++ model_arg args));
      [|reflexivity].
    destruct (model_quiet args); cbn; [rewrite app_nil_r; now destruct w|].
    reflexivity. }
  split; [|split; [|split; [|split]]].
  - rewrite Hd. destruct (path_exists _ _); [destruct (model_quiet args)|];
      cbn; unfold events_since; cbn;
      rewrite ?app_nil_r, ?drop_all, ?drop_app_length;
      repeat split; repeat constructor.
  - rewrite readme_cases.
    destruct (path_exists _ _);
      [|cbn; unfold events_since; rewrite drop_all; repeat split; constructor].
    destruct (read_file L _ w) as [[text|c|e|s] w1];
      try destruct e; try destruct (model_quiet args);
      cbn; unfold events_since; cbn;
      rewrite ?app_nil_r, ?drop_all, ?drop_app_length;
      repeat split; repeat constructor.
  - cbn. unfold events_since. cbn. rewrite drop_app_length.
    repeat split; repeat constructor.
  - cbn. unfold events_since. cbn. rewrite drop_app_length.
    repeat split; repeat constructor.
  - rewrite Hd. now destruct (path_exists _ _).
Qed.


(** ** configure_model *)

Lemma dependencies_stage E L quiet model w :
  except_all
    (bind (load_description E model) (fun info =>
     bind (match meta_dependencies L info with
           | Some deps => ret deps
           | None => raise (External "KeyError")
           end) (fun deps =>
     bind (when (negb quiet) (print no_script_msg)) (fun _ =>
     print (dependencies_line deps)))))
    (print no_configuration_msg) w
  = (Return tt, with_trace w (dependencies_report E L quiet (fs w) model)).
Proof.
  unfold except_all, dependencies_report, descriptor, with_trace. munfold.
  destruct (fs w !! _) as [[[s|d|ws]|]|]; try reflexivity.
  destruct (meta_dependencies L d); [|reflexivity].
  destruct quiet; cbn; rewrite <- ?app_assoc; reflexivity.
Qed.

(** X23. [configure_model] for a model.  The three configuration
    scripts are tried in the order configure.sh, configure.R,
    configure.py, each of them whatever the ones before have answered.
    When they have all returned, the command returns too, whatever the
    state of the descriptor: if one of them configured the model,
    nothing is said about dependencies; if none did, the dependencies
    of the descriptor are printed, the line that carries them also
    when quiet, and a descriptor that does not load or names no
    dependencies gives the line that no configuration is provided
    instead of a failure. *)
Theorem configure_model_report E L args w model b1 b2 b3 w1 w2 w3 :
  let quiet := configure_quiet args in
  let path := MLINIT E ++ model in
  configure_model_arg args = Some model ->
  model <> "" ->
  path_exists (fs w) path = true ->
  configure L path "configure.sh" quiet w = (Return b1, w1) ->
  configure L path "configure.R" quiet w1 = (Return b2, w2) ->
  configure L path "configure.py" quiet w2 = (Return b3, w3) ->
  configure_model E L args w
  = (Return tt,
     with_trace w3
       ((if b1 || b2 || b3 then []
         else dependencies_report E L quiet (fs w3) model)
          ++ (if quiet then []
              else [PrintNextStep "configure" (Some model)]))).
Proof.
  intros quiet path Hm Hne Hi H1 H2 H3. subst path.
  unfold configure_model. rewrite Hm. cbn [no_model default]. unfold id.
  apply String.eqb_neq in Hne. rewrite Hne. fold quiet.
  unfold bind at 1. unfold check_model_installed. unfold bind at 1.
  unfold get_fs at 1. rewrite Hi. unfold ret at 1.
  unfold bind at 1. rewrite H1.
  unfold bind at 1. unfold bind at 1. rewrite H2. unfold ret at 1.
  unfold bind at 1. unfold bind at 1. rewrite H3. unfold ret at 1.
  unfold bind at 1.
  replace (b3 || (b2 || b1)) with (b1 || b2 || b3)
    by (destruct b1, b2, b3; reflexivity).
  destruct (b1 || b2 || b3); cbn [negb when].
  - unfold ret at 1. unfold with_trace. munfold.
    destruct quiet; cbn; [rewrite app_nil_r; now destruct w3 | reflexivity].
  - rewrite dependencies_stage. unfold with_trace. munfold.
    destruct quiet; cbn; rewrite <- ?app_assoc, ?app_nil_r; reflexivity.
Qed.

Lemma configure_model_report_witness :
  configure_model Demo.offline helpers (mkConfigureArgs (Some "rain") true)
    (Demo.world (Demo.installed "1.0.0") [] "")
  = (Return tt,
     with_trace (Demo.world (Demo.installed "1.0.0") [] "")
       [Print no_configuration_msg]).
Proof.
  pose (w := Demo.world (Demo.installed "1.0.0") [] "").
  assert (Hi : path_exists (fs w) (MLINIT Demo.offline ++ "rain") = true)
    by (vm_compute; reflexivity).
  assert (Hne : "rain" <> "") by discriminate.
  exact (configure_model_report Demo.offline helpers
           (mkConfigureArgs (Some "rain") true) w "rain" false false false
           w w w eq_refl Hne Hi eq_refl eq_refl eq_refl).
Defined.

(** X24. [configure_model] without a model sets up tab completion, on
    Debian and Ubuntu only.  On a system whose version names neither,
    the command returns having done nothing at all, silently.  On
    Debian or Ubuntu it runs the three set-up commands in the directory
    of the package, in their order, each announced before it is run;
    it looks at no exit code, returns in every case, and reads no
    input. *)
Theorem configure_completion E L args w :
  no_model (configure_model_arg args) = true ->
  (debian_or_ubuntu L = false ->
   configure_model E L args w = (Return tt, w))
  /\ (debian_or_ubuntu L = true ->
      exists w',
        configure_model E L args w = (Return tt, w')
        /\ stdin w' = stdin w
        /\ trace w'
           = (trace w
                ++ flat_map
                     (fun cmd => [Print ("Executing:  " ++ cmd);
                                  Popen cmd (package_dir L)])
                     (completion_commands L)
                ++ [Print tab_completion_msg])%list).
Proof.
  intros Hm. unfold configure_model, debian_or_ubuntu. rewrite Hm.
  split; intros Hv; rewrite Hv; [reflexivity|].
  cbn [when]. unfold completion_commands, subprocess_run.
  generalize ("sudo install -m 0644 " ++ COMPLETION_SCRIPT L
                ++ " /etc/bash_completion.d") as c1.
  generalize tab_completion_msg as msg.
  intros msg c1. cbn [for_each flat_map app]. munfold. cbn.
  repeat match goal with
    | |- context [subprocess E ?c ?p ?f] =>
        destruct (subprocess E c p f) as [[? ?] ?]; cbn
    end.
  eexists. split; [reflexivity|]. cbn.
  split; [reflexivity|]. rewrite <- !app_assoc. reflexivity.
Qed.

Lemma configure_completion_witness :
  exists w',
    configure_model Demo.offline helpers (mkConfigureArgs None false)
      (Demo.world ∅ [] "") = (Return tt, w')
    /\ trace w'
       = [Print "Executing:  sudo install -m 0644 bash_completion.d/ml.bash /etc/bash_completion.d";
          Popen "sudo install -m 0644 bash_completion.d/ml.bash /etc/bash_completion.d"
            "/usr/lib/python3/dist-packages/mlhub";
          Print "Executing:  ml available > /dev/null";
          Popen "ml available > /dev/null"
            "/usr/lib/python3/dist-packages/mlhub";
          Print "Executing:  ml installed > /dev/null";
          Popen "ml installed > /dev/null"
            "/usr/lib/python3/dist-packages/mlhub";
          Print tab_completion_msg].
Proof.
  destruct (configure_completion Demo.offline helpers
              (mkConfigureArgs None false) (Demo.world ∅ [] "") eq_refl)
    as [_ H].
  destruct (H eq_refl) as (w' & Hrun & _ & Htr).
  exists w'. split; [exact Hrun|]. rewrite Htr. reflexivity.
Defined.

End ReportFacts.
